(** * Smart Shower OS installer: a shallow embedding of [install.py]

    The installer is a straight-line pipeline of stage functions, each of
    which prints progress lines, spawns shell commands or touches the
    filesystem, and returns a Python [bool].  The embedding keeps that shape:

    - the filesystem is a finite map from absolute paths to nodes carrying a
      kind, an owner and permission bits;
    - Python exceptions are an error monad layered over explicit state
      passing ([M]); [try]/[except] is [try_except];
    - [subprocess.run] is a call to the host's [shell], an arbitrary function
      of the command line and of the world, so that every theorem holds for
      every behaviour of [apt], [systemctl], [pip] and [python];
    - [print] appends to [stdout].

    Filesystem calls follow Linux and the [pathlib] of Python 3.11: a
    lookup needs search permission on every directory on the way to the
    entry, creating an entry needs write permission on its directory as
    well, [Path.exists] and [Path.is_dir] answer [False] for [ENOENT] and
    [ENOTDIR] and re-raise every other error, and [subprocess.run] with
    [text=True] raises [UnicodeDecodeError] when the captured output is not
    valid text.

    What the model leaves out of the operating system: symbolic links, group
    permission bits, resource exhaustion, read-only mounts, a machine
    without [/bin/sh] and a standard output that refuses text.  A caller that is not the owner of a node is
    checked against its "other" bits; uid 0 passes every check. *)

From stdpp Require Import gmap strings list fin_maps pretty.
From Stdlib Require Import ZArith Ascii.

Open Scope string_scope.
Open Scope Z_scope.

(** ** Paths *)

(** An absolute path, innermost component first: [/home/pi/logs] is
    [["logs"; "pi"; "home"]] and [/] is [[]].  The parent is the tail. *)
Abbreviation path := (list string).

Inductive anchor : Type := Relative | Absolute.

(** A [pathlib.Path] value: its components (innermost first) and whether it
    starts at the root or is relative to the working directory. *)
Record PurePath : Type := MkPath { p_anchor : anchor; p_parts : list string }.

Definition push_part (cur : string) (acc : list string) : list string :=
  if decide (cur = "" ∨ cur = ".") then acc else cur :: acc.

(** Splits at ["/"]; empty and ["."] components are dropped, as pathlib
    does when it parses its argument. *)
Fixpoint split_parts (s cur : string) (acc : list string) : list string :=
  match s with
  | EmptyString => push_part cur acc
  | String c s' =>
      if Ascii.eqb c "/"%char
      then split_parts s' "" (push_part cur acc)
      else split_parts s' (cur ++ String c "") acc
  end.

Definition Path (s : string) : PurePath :=
  match s with
  | String "/"%char _ => MkPath Absolute (split_parts s "" [])
  | _ => MkPath Relative (split_parts s "" [])
  end.

(** [P / s] *)
Definition joinpath (P : PurePath) (s : string) : PurePath :=
  match Path s with
  | MkPath Absolute parts => MkPath Absolute parts
  | MkPath Relative parts => MkPath (p_anchor P) (parts ++ p_parts P)
  end.

Definition parent (P : PurePath) : PurePath :=
  MkPath (p_anchor P) (tail (p_parts P)).

(** [str] of an absolute path. *)
Definition path_str (p : path) : string :=
  match p with
  | [] => "/"
  | _ => fold_right (fun part acc => "/" ++ part ++ acc) "" (rev p)
  end.

(** ** Filesystem *)

Inductive kind : Type := Dir | File (content : string).

Record node : Type := Node { n_kind : kind; n_owner : Z; n_mode : Z }.

Definition is_dir_node (n : node) : bool :=
  match n_kind n with Dir => true | File _ => false end.

(** Write permission of user [u] on a node (bit 7 is [0o200], bit 1 is
    [0o002]). *)
Definition may_write (u : Z) (n : node) : bool :=
  (u =? 0) || (if u =? n_owner n then Z.testbit (n_mode n) 7
               else Z.testbit (n_mode n) 1).

(** Search permission of user [u] on a directory (bit 6 is [0o100], bit 0
    is [0o001]). *)
Definition may_search (u : Z) (n : node) : bool :=
  (u =? 0) || (if u =? n_owner n then Z.testbit (n_mode n) 6
               else Z.testbit (n_mode n) 0).

(** Only the owner and uid 0 may change the mode of a node. *)
Definition may_chmod (u : Z) (n : node) : bool :=
  (u =? 0) || (u =? n_owner n).

(** ** Exceptions, results and the state of a run *)

Inductive exn : Type :=
| PermissionError
| FileExistsError
| FileNotFoundError
| NotADirectoryError
| IsADirectoryError
| CalledProcessError (cmd : string) (returncode : Z) (stderr : string)
| UnicodeDecodeError
| SystemExit (code : Z).

Inductive res (A : Type) : Type :=
| Ret (a : A)
| Raise (e : exn).
Arguments Ret {A} a.
Arguments Raise {A} e.

(** The stage functions that [main] calls, in the order of the calls. *)
Inductive Stage : Type :=
| CheckPythonVersion
| InstallSystemDependencies
| CreateVirtualEnvironment
| InstallPythonDependencies
| CreateDirectories
| SetupConfiguration
| SetupBluetooth
| SetupAudio
| CreateServiceFile
| SetupPermissions
| RunTests
| PrintNextSteps.

#[global] Instance Stage_eq_dec : EqDecision Stage.
Proof. solve_decision. Defined.

(** How a stage call ended: it returned [True], it returned [False], or an
    exception left it. *)
Inductive outcome : Type :=
| Success
| Failure
| Crash (e : exn).

(** What the two pipes of a child process hold once it has ended, as
    [text=True] hands it back: the text of standard output and of standard
    error, unless one of them is not valid in the encoding of the locale. *)
Inductive capture : Type :=
| Decoded (out err : string)
| Undecodable.

(** What a completed child process hands back. *)
Record completed : Type := Completed { returncode : Z; captured : capture }.

(** [CompletedProcess.stderr], where the output could be decoded. *)
Definition stderr (c : completed) : string :=
  match captured c with
  | Decoded _ err => err
  | Undecodable => ""
  end.

Section Installer.

(** State of the world outside the filesystem (package database, daemons,
    network), known only to the shell. *)
Context {Ext : Type}.

(** Read-only facts about the machine, and the behaviour of its shell. *)
Record HostEnvironment : Type := Host {
  euid : Z;
  umask : Z;
  cwd : path;
  home : path;
  version_info : nat * nat;
  signal_repr : Z -> option string;
  shell : string -> gmap path node -> Ext -> completed * gmap path node * Ext
}.

Record state : Type := State {
  fs : gmap path node;
  ext : Ext;
  stdout : list string;
  spawned : list string;
  calls : list (Stage * outcome)
}.

(** A freshly started process. *)
Definition boot (files : gmap path node) (e : Ext) : state :=
  State files e [] [] [].

Definition M (A : Type) : Type := state -> res A * state.

Definition ret {A} (a : A) : M A := fun s => (Ret a, s).

Definition bind {A B} (m : M A) (k : A -> M B) : M B :=
  fun s =>
    match m s with
    | (Ret a, s') => k a s'
    | (Raise e, s') => (Raise e, s')
    end.

Definition raise {A} (e : exn) : M A := fun s => (Raise e, s).

(** [try: m except ...: handler]; the handler declines an exception it does
    not name by returning [None]. *)
Definition try_except {A} (m : M A) (handler : exn -> option (M A)) : M A :=
  fun s =>
    match m s with
    | (Ret a, s') => (Ret a, s')
    | (Raise e, s') =>
        match handler e with
        | Some k => k s'
        | None => (Raise e, s')
        end
    end.

End Installer.

Arguments HostEnvironment : clear implicits.
Arguments state : clear implicits.
Arguments M : clear implicits.

Declare Scope py_scope.
Delimit Scope py_scope with py.
Notation "x <- m ;; k" := (bind m (fun x => k))
  (at level 100, m at next level, right associativity) : py_scope.
Notation "m ;; k" := (bind m (fun _ => k))
  (at level 100, right associativity) : py_scope.

Open Scope py_scope.

(** A line feed and a double quote, for the string literals of the source. *)
Definition nl : string := String "010"%char "".
Definition dq : string := String "034"%char "".

Section Primitives.

Context {Ext : Type}.
Variable h : HostEnvironment Ext.

#[local] Abbreviation M := (M Ext).
#[local] Abbreviation state := (state Ext).

(** *** State access *)

Definition set_fs (files : gmap path node) (s : state) : state :=
  State files (ext s) (stdout s) (spawned s) (calls s).

Definition log_call (ev : Stage * outcome) (s : state) : state :=
  State (fs s) (ext s) (stdout s) (spawned s) (calls s ++ [ev]).

(** [print(line)]: [stdout] keeps the argument of every call, in order; a
    line feed inside an argument stays inside it. *)
Definition print (line : string) : M unit :=
  fun s => (Ret tt, State (fs s) (ext s) (stdout s ++ [line]) (spawned s) (calls s)).

(** [sys.exit(code)] *)
Definition sys_exit {A} (code : Z) : M A := raise (SystemExit code).

(** [os.geteuid()] *)
Definition os_geteuid : M Z := ret (euid h).

(** [os.getcwd()] *)
Definition os_getcwd : M string := ret (path_str (cwd h)).

(** [Path.home()] *)
Definition Path_home : PurePath := MkPath Absolute (home h).

(** The absolute path a [Path] denotes in this process. *)
Definition resolve (P : PurePath) : path :=
  match p_anchor P with
  | Absolute => p_parts P
  | Relative => (p_parts P ++ cwd h)%list
  end.

(** *** Looking up a path *)

(** The proper prefixes of a path, nearest first. *)
Fixpoint above (parts : list string) : list (list string) :=
  match parts with
  | [] => []
  | _ :: up => up :: above up
  end.

(** The directories the kernel searches on the way to [P], nearest first:
    from the root for an absolute path, from the working directory for a
    relative one. *)
Definition searched (P : PurePath) : list path :=
  match p_anchor P with
  | Absolute => above (p_parts P)
  | Relative => (λ up, (up ++ cwd h)%list) <$> above (p_parts P)
  end.

(** [EACCES] of a lookup: one of the directories on the way to [P] may not
    be searched by the caller. *)
Definition denied (files : gmap path node) (P : PurePath) : bool :=
  existsb (λ d, match files !! d with
                | Some n => is_dir_node n && negb (may_search (euid h) n)
                | None => false
                end) (searched P).

(** The error of a lookup that finds nothing, given the directories on the
    way: [ENOTDIR] when the nearest entry that exists is not a directory,
    [ENOENT] otherwise. *)
Fixpoint missing (files : gmap path node) (dirs : list path) : exn :=
  match dirs with
  | [] => FileNotFoundError
  | d :: up =>
      match files !! d with
      | Some n => if is_dir_node n then FileNotFoundError else NotADirectoryError
      | None => missing files up
      end
  end.

(** [os.stat(P)]: the node at [P], or the error of the lookup. *)
Definition stat (files : gmap path node) (P : PurePath) : exn + node :=
  if denied files P then inl PermissionError
  else match files !! resolve P with
       | Some n => inr n
       | None => inl (missing files (searched P))
       end.

(** Whether the caller may make an entry at [P], which does not exist: its
    directory must be there and be writable.  That the directory may be
    searched as well is part of [denied], which [os_mkdir] and [open_w]
    ask first. *)
Definition creatable (files : gmap path node) (P : PurePath) : exn + unit :=
  match searched P with
  | [] => inl FileNotFoundError
  | d :: _ =>
      match files !! d with
      | Some n =>
          if negb (is_dir_node n) then inl NotADirectoryError
          else if negb (may_write (euid h) n) then inl PermissionError
          else inr tt
      | None => inl (missing files (searched P))
      end
  end.

(** The errors [pathlib] takes for "not there" ([_ignore_error]). *)
Definition ignore_error (e : exn) : bool :=
  match e with
  | FileNotFoundError | NotADirectoryError => true
  | _ => false
  end.

(** *** Filesystem calls *)

(** [Path.exists()] *)
Definition Path_exists (P : PurePath) : M bool :=
  fun s =>
    match stat (fs s) P with
    | inr _ => (Ret true, s)
    | inl e => if ignore_error e then (Ret false, s) else (Raise e, s)
    end.

(** [Path.is_dir()] *)
Definition Path_is_dir (P : PurePath) : M bool :=
  fun s =>
    match stat (fs s) P with
    | inr n => (Ret (is_dir_node n), s)
    | inl e => if ignore_error e then (Ret false, s) else (Raise e, s)
    end.

(** [os.mkdir(P, mode)] *)
Definition os_mkdir (P : PurePath) (mode : Z) : M unit :=
  fun s =>
    if denied (fs s) P then (Raise PermissionError, s)
    else match fs s !! resolve P with
         | Some _ => (Raise FileExistsError, s)
         | None =>
             match creatable (fs s) P with
             | inl e => (Raise e, s)
             | inr _ =>
                 (Ret tt,
                  set_fs (<[resolve P := Node Dir (euid h)
                                           (Z.land mode (Z.lnot (umask h)))]> (fs s)) s)
             end
         end.

(** [Path.mkdir(parents=False, exist_ok=True)]: any [OSError] but
    [FileNotFoundError] is forgiven when the path turns out to be a
    directory. *)
Definition Path_mkdir_exist_ok (P : PurePath) : M unit :=
  try_except (os_mkdir P 511 (* 0o777 *))
    (fun e =>
       match e with
       | FileNotFoundError => None
       | _ => Some (d <- Path_is_dir P ;; if d then ret tt else raise e)
       end).

(** [Path.mkdir(parents=True, exist_ok=True)], by recursion on the
    components of the path: a missing parent is created first, and a path
    that is its own parent re-raises. *)
Fixpoint mkdir_parents (a : anchor) (parts : list string) : M unit :=
  try_except (os_mkdir (MkPath a parts) 511 (* 0o777 *))
    (fun e =>
       match e with
       | FileNotFoundError =>
           match parts with
           | [] => None
           | _ :: up =>
               Some (mkdir_parents a up ;; Path_mkdir_exist_ok (MkPath a parts))
           end
       | _ => Some (d <- Path_is_dir (MkPath a parts) ;;
                    if d then ret tt else raise e)
       end).

Definition Path_mkdir_parents (P : PurePath) : M unit :=
  mkdir_parents (p_anchor P) (p_parts P).

(** [open(P, "w")]: truncates a file the caller may write, or creates it in
    a directory the caller may write. *)
Definition open_w (P : PurePath) : M unit :=
  fun s =>
    let p := resolve P in
    if denied (fs s) P then (Raise PermissionError, s)
    else match fs s !! p with
         | Some n =>
             match n_kind n with
             | Dir => (Raise IsADirectoryError, s)
             | File _ =>
                 if may_write (euid h) n
                 then (Ret tt,
                       set_fs (<[p := Node (File "") (n_owner n) (n_mode n)]> (fs s)) s)
                 else (Raise PermissionError, s)
             end
         | None =>
             match creatable (fs s) P with
             | inl e => (Raise e, s)
             | inr _ =>
                 (Ret tt,
                  set_fs (<[p := Node (File "") (euid h)
                                   (Z.land 438 (* 0o666 *) (Z.lnot (umask h)))]> (fs s)) s)
             end
         end.

(** [f.write(data)] on the file opened at [P]. *)
Definition f_write (P : PurePath) (data : string) : M unit :=
  fun s =>
    let p := resolve P in
    match fs s !! p with
    | Some (Node (File old) o m) =>
        (Ret tt, set_fs (<[p := Node (File (old ++ data)) o m]> (fs s)) s)
    | _ => (Ret tt, s)
    end.

(** [with open(P, "w") as f: f.write(data)] *)
Definition with_open_w_write (P : PurePath) (data : string) : M unit :=
  open_w P ;; f_write P data.

(** [Path.chmod(mode)] *)
Definition Path_chmod (P : PurePath) (mode : Z) : M unit :=
  fun s =>
    match stat (fs s) P with
    | inl e => (Raise e, s)
    | inr n =>
        if may_chmod (euid h) n
        then (Ret tt,
              set_fs (<[resolve P := Node (n_kind n) (n_owner n) mode]> (fs s)) s)
        else (Raise PermissionError, s)
    end.

(** *** Child processes *)

(** [str(e)] for a [CalledProcessError]. *)
Definition str_CalledProcessError (cmd : string) (rc : Z) : string :=
  if rc <? 0 then
    match signal_repr h (- rc) with
    | Some sig => "Command '" ++ cmd ++ "' died with " ++ sig ++ "."
    | None => "Command '" ++ cmd ++ "' died with unknown signal " ++ pretty (- rc) ++ "."
    end
  else "Command '" ++ cmd ++ "' returned non-zero exit status " ++ pretty rc ++ ".".

(** [subprocess.run(command, shell=True, check=True, capture_output=True,
    text=True)]: the shell runs to completion and may change the world in
    any way; output that cannot be decoded raises before the status is
    looked at, and a non-zero status raises. *)
Definition subprocess_run (command : string) : M completed :=
  fun s =>
    let '(c, files, e) := shell h command (fs s) (ext s) in
    let s' := State files e (stdout s) (spawned s ++ [command]) (calls s) in
    match captured c with
    | Undecodable => (Raise UnicodeDecodeError, s')
    | Decoded _ err =>
        if returncode c =? 0 then (Ret c, s')
        else (Raise (CalledProcessError command (returncode c) err), s')
    end.

End Primitives.

(** ** The stage functions of [install.py] *)

Section Stages.

Context {Ext : Type}.
Variable h : HostEnvironment Ext.

#[local] Abbreviation M := (M Ext).
#[local] Abbreviation state := (state Ext).

(** [run_command(command, description)] *)
Definition run_command (command description : string) : M bool :=
  print ("🔄 " ++ description ++ "...") ;;
  try_except
    (result <- subprocess_run h command ;;
     print ("✅ " ++ description ++ " completed successfully") ;;
     ret true)
    (fun e =>
       match e with
       | CalledProcessError cmd rc err =>
           Some (print ("❌ " ++ description ++ " failed: "
                        ++ str_CalledProcessError h cmd rc) ;;
                 print ("Error output: " ++ err) ;;
                 ret false)
       | _ => None
       end).

(** [sys.version_info < (3, 8)]: tuples compare lexicographically, and
    [version_info] has more than two fields, so equality on the first two
    is not "less". *)
Definition version_lt (v w : nat * nat) : bool :=
  (fst v <? fst w)%nat || ((fst v =? fst w)%nat && (snd v <? snd w)%nat).

(** [check_python_version()] *)
Definition check_python_version : M bool :=
  print "🐍 Checking Python version..." ;;
  if version_lt (version_info h) (3, 8)%nat then
    print "❌ Python 3.8 or higher is required" ;;
    ret false
  else
    print ("✅ Python " ++ pretty (fst (version_info h)) ++ "."
           ++ pretty (snd (version_info h)) ++ " is compatible") ;;
    ret true.

Definition packages : list string :=
  [ "python3-pip"; "python3-venv"; "ffmpeg"; "mpv"; "bluetooth"; "bluez";
    "pulseaudio"; "pulseaudio-module-bluetooth"; "git"; "curl"; "wget" ].

(** The [for package in packages] loop of [install_system_dependencies],
    followed by its [return True]. *)
Fixpoint install_packages (l : list string) : M bool :=
  match l with
  | [] => ret true
  | package :: rest =>
      ok <- run_command ("sudo apt install -y " ++ package)
                        ("Installing " ++ package) ;;
      if negb ok then ret false else install_packages rest
  end.

(** [install_system_dependencies()] *)
Definition install_system_dependencies : M bool :=
  print (nl ++ "📦 Installing system dependencies...") ;;
  ok <- run_command "sudo apt update" "Updating package list" ;;
  if negb ok then ret false else
  install_packages packages.

(** [create_virtual_environment()] *)
Definition create_virtual_environment : M bool :=
  print (nl ++ "🔧 Setting up Python virtual environment...") ;;
  let venv_path := Path "venv" in
  present <- Path_exists h venv_path ;;
  if present then
    print "✅ Virtual environment already exists" ;;
    ret true
  else
  ok <- run_command "python3 -m venv venv" "Creating virtual environment" ;;
  if negb ok then ret false else
  ret true.

(** [install_python_dependencies()] *)
Definition install_python_dependencies : M bool :=
  print (nl ++ "🐍 Installing Python dependencies...") ;;
  ok <- run_command "source venv/bin/activate && pip install --upgrade pip"
                    "Upgrading pip" ;;
  if negb ok then ret false else
  ok <- run_command "source venv/bin/activate && pip install -r requirements.txt"
                    "Installing requirements" ;;
  if negb ok then ret false else
  ret true.

Definition directories : list string :=
  [ "logs"; "config"; "music"; "web/static"; "web/templates"; "data" ].

(** The [for directory in directories] loop of [create_directories]. *)
Fixpoint make_directories (l : list string) : M unit :=
  match l with
  | [] => ret tt
  | directory :: rest =>
      let path := Path directory in
      Path_mkdir_parents h path ;;
      print ("✅ Created directory: " ++ directory) ;;
      make_directories rest
  end.

(** [create_directories()] *)
Definition create_directories : M bool :=
  print (nl ++ "📁 Creating directories...") ;;
  make_directories directories ;;
  ret true.

(** [setup_configuration()] *)
Definition setup_configuration : M bool :=
  print (nl ++ "⚙️ Setting up configuration...") ;;
  let config_dir := Path "config" in
  let settings_file := joinpath config_dir "settings.yaml" in
  present <- Path_exists h settings_file ;;
  (if negb present then print "📝 Creating default settings.yaml..." else ret tt) ;;
  let credentials_file := joinpath config_dir "credentials.yaml" in
  present <- Path_exists h credentials_file ;;
  (if negb present then print "📝 Creating default credentials.yaml..." else ret tt) ;;
  ret true.

(** [setup_bluetooth()] *)
Definition setup_bluetooth : M bool :=
  print (nl ++ "🔵 Setting up Bluetooth...") ;;
  ok <- run_command "sudo systemctl enable bluetooth" "Enabling Bluetooth service" ;;
  if negb ok then ret false else
  ok <- run_command "sudo systemctl start bluetooth" "Starting Bluetooth service" ;;
  if negb ok then ret false else
  ret true.

Definition pulse_config : string :=
  nl ++ "load-module module-bluetooth-discover" ++ nl
     ++ "load-module module-bluetooth-policy" ++ nl.

(** [setup_audio()] *)
Definition setup_audio : M bool :=
  print (nl ++ "🔊 Setting up audio...") ;;
  let pulse_config_path := joinpath (Path_home h) ".config/pulse/default.pa" in
  Path_mkdir_parents h (parent pulse_config_path) ;;
  with_open_w_write h pulse_config_path pulse_config ;;
  print "✅ Audio configuration created" ;;
  ret true.

Definition service_content (working_dir : string) : string :=
  "[Unit]" ++ nl ++
  "Description=Smart Shower OS" ++ nl ++
  "After=network.target bluetooth.service" ++ nl ++
  nl ++
  "[Service]" ++ nl ++
  "Type=simple" ++ nl ++
  "User=pi" ++ nl ++
  "WorkingDirectory=" ++ working_dir ++ nl ++
  "Environment=PATH=" ++ working_dir ++ "/venv/bin" ++ nl ++
  "ExecStart=" ++ working_dir ++ "/venv/bin/python " ++ working_dir ++ "/main.py" ++ nl ++
  "Restart=always" ++ nl ++
  "RestartSec=10" ++ nl ++
  nl ++
  "[Install]" ++ nl ++
  "WantedBy=multi-user.target" ++ nl.

(** [create_service_file()] *)
Definition create_service_file : M bool :=
  print (nl ++ "🔧 Creating systemd service...") ;;
  working_dir <- os_getcwd h ;;
  let service_file := Path "/etc/systemd/system/smart-shower.service" in
  try_except
    (with_open_w_write h service_file (service_content working_dir) ;;
     print "✅ Systemd service file created" ;;
     ret true)
    (fun e =>
       match e with
       | PermissionError =>
           Some (print "⚠️ Could not create systemd service file (requires sudo)" ;;
                 ret false)
       | _ => None
       end).

(** [setup_permissions()] *)
Definition setup_permissions : M bool :=
  print (nl ++ "🔐 Setting up permissions...") ;;
  let main_py := Path "main.py" in
  present <- Path_exists h main_py ;;
  (if present then
     Path_chmod h main_py 493 (* 0o755 *) ;;
     print "✅ Made main.py executable"
   else ret tt) ;;
  let logs_dir := Path "logs" in
  present <- Path_exists h logs_dir ;;
  (if present then
     Path_chmod h logs_dir 493 (* 0o755 *) ;;
     print "✅ Set logs directory permissions"
   else ret tt) ;;
  ret true.

Definition test_script : string :=
  nl ++ "import sys" ++ nl ++
  "sys.path.append('.')" ++ nl ++
  nl ++
  "try:" ++ nl ++
  "    from utils.config_manager import ConfigManager" ++ nl ++
  "    from core.water_control import WaterController" ++ nl ++
  "    from core.audio_manager import AudioManager" ++ nl ++
  "    from core.safety_monitor import SafetyMonitor" ++ nl ++
  "    print(" ++ dq ++ "✅ All core modules imported successfully" ++ dq ++ ")" ++ nl ++
  "except ImportError as e:" ++ nl ++
  "    print(f" ++ dq ++ "❌ Import error: {e}" ++ dq ++ ")" ++ nl ++
  "    sys.exit(1)" ++ nl.

(** [run_tests()] *)
Definition run_tests : M bool :=
  print (nl ++ "🧪 Running tests...") ;;
  ok <- run_command ("source venv/bin/activate && python -c " ++ dq ++ test_script ++ dq)
                    "Testing imports" ;;
  if negb ok then ret false else
  ret true.

(** [print_next_steps()] *)
Definition print_next_steps : M unit :=
  print (nl ++ "🎉 Installation completed successfully!") ;;
  print (nl ++ "📋 Next steps:") ;;
  print "1. Configure your API credentials in config/credentials.yaml" ;;
  print "2. Edit settings in config/settings.yaml if needed" ;;
  print "3. Test the system: python main.py" ;;
  print "4. Access the web interface: http://localhost:8082" ;;
  print "5. Use the mobile interface: http://localhost:8082/mobile" ;;
  print (nl ++ "🔧 Optional setup:") ;;
  print "- Enable systemd service: sudo systemctl enable smart-shower" ;;
  print "- Start systemd service: sudo systemctl start smart-shower" ;;
  print "- View logs: sudo journalctl -u smart-shower -f".

(** *** The orchestrator *)

(** A stage call as the run records it: the stage and how it ended.  The
    record is an observation of the run, not something the script stores. *)
Definition call (k : Stage) (f : M bool) : M bool :=
  fun s =>
    match f s with
    | (Ret true, s') => (Ret true, log_call (k, Success) s')
    | (Ret false, s') => (Ret false, log_call (k, Failure) s')
    | (Raise e, s') => (Raise e, log_call (k, Crash e) s')
    end.

(** The same for [print_next_steps], which returns [None]. *)
Definition call_unit (k : Stage) (f : M unit) : M unit :=
  fun s =>
    match f s with
    | (Ret tt, s') => (Ret tt, log_call (k, Success) s')
    | (Raise e, s') => (Raise e, log_call (k, Crash e) s')
    end.

(** Lines 275 to 328 of [main]: the stage calls. *)
Definition run_pipeline : M unit :=
  ok <- call CheckPythonVersion check_python_version ;;
  (if negb ok then sys_exit 1 else ret tt) ;;
  ok <- call InstallSystemDependencies install_system_dependencies ;;
  (if negb ok then
     print "❌ Failed to install system dependencies" ;; sys_exit 1
   else ret tt) ;;
  ok <- call CreateVirtualEnvironment create_virtual_environment ;;
  (if negb ok then
     print "❌ Failed to create virtual environment" ;; sys_exit 1
   else ret tt) ;;
  ok <- call InstallPythonDependencies install_python_dependencies ;;
  (if negb ok then
     print "❌ Failed to install Python dependencies" ;; sys_exit 1
   else ret tt) ;;
  ok <- call CreateDirectories create_directories ;;
  (if negb ok then
     print "❌ Failed to create directories" ;; sys_exit 1
   else ret tt) ;;
  ok <- call SetupConfiguration setup_configuration ;;
  (if negb ok then
     print "❌ Failed to setup configuration" ;; sys_exit 1
   else ret tt) ;;
  ok <- call SetupBluetooth setup_bluetooth ;;
  (if negb ok then
     print "❌ Failed to setup Bluetooth" ;; sys_exit 1
   else ret tt) ;;
  ok <- call SetupAudio setup_audio ;;
  (if negb ok then
     print "❌ Failed to setup audio" ;; sys_exit 1
   else ret tt) ;;
  call CreateServiceFile create_service_file ;;
  ok <- call SetupPermissions setup_permissions ;;
  (if negb ok then
     print "❌ Failed to setup permissions" ;; sys_exit 1
   else ret tt) ;;
  ok <- call RunTests run_tests ;;
  (if negb ok then
     print "❌ Tests failed" ;; sys_exit 1
   else ret tt) ;;
  call_unit PrintNextSteps print_next_steps.

(** Lines 271 to 273 of [main]: the check for root. *)
Definition privilege_check : M unit :=
  uid <- os_geteuid h ;;
  if uid =? 0 then
    print "⚠️ Warning: Running as root. Consider running as a regular user."
  else ret tt.

(** [main()] *)
Definition main : M unit :=
  print "🚿 Smart Shower OS - Installation Script" ;;
  print (String.concat "" (replicate 50 "=")) ;;
  privilege_check ;;
  run_pipeline.

(** The status the interpreter exits with when [main()] is the whole
    program: 0 on return, the code of a [SystemExit], 1 after the traceback
    of any other exception. *)
Definition exit_status (r : res unit) : Z :=
  match r with
  | Ret _ => 0
  | Raise (SystemExit code) => code
  | Raise _ => 1
  end.

End Stages.

(** ** The orchestrator of the design document

    Section 4.1 of the specification describes [main] as a loop over an
    ordered sequence of stages, each with a name, a body and a [required]
    flag.  [run_stages] is that loop and [stage_table] the sequence;
    [run_pipeline_refines] shows that the straight-line code of [main] is
    that loop on that table. *)

Section Orchestrator.

Context {Ext : Type}.

Record StageEntry : Type := Entry {
  s_name : Stage;
  s_execute : M Ext bool;
  s_required : bool;
  s_report : list string
}.

Fixpoint print_all (lines : list string) : M Ext unit :=
  match lines with
  | [] => ret tt
  | line :: rest => print line ;; print_all rest
  end.

(** Written after the specification: iterate in declaration order; a
    required stage that fails is reported and ends the run; an optional
    one is passed over. *)
Fixpoint run_stages (l : list StageEntry) : M Ext unit :=
  match l with
  | [] => ret tt
  | en :: rest =>
      ok <- call (s_name en) (s_execute en) ;;
      (if negb ok && s_required en then print_all (s_report en) ;; sys_exit 1
       else ret tt) ;;
      run_stages rest
  end.

Definition add_stdout (lines : list string) (s : state Ext) : state Ext :=
  State (fs s) (ext s) (stdout s ++ lines) (spawned s) (calls s).

Definition outcome_of (b : bool) : outcome := if b then Success else Failure.

(** Big-step reading of [run_stages]: the events it records, its result and
    its final state. *)
Inductive runs : list StageEntry → state Ext → list (Stage * outcome)
                 → res unit → state Ext → Prop :=
| runs_nil s :
    runs [] s [] (Ret tt) s
| runs_pass en l s b s1 evs r s' :
    s_execute en s = (Ret b, s1) →
    b = true ∨ s_required en = false →
    runs l (log_call (s_name en, outcome_of b) s1) evs r s' →
    runs (en :: l) s ((s_name en, outcome_of b) :: evs) r s'
| runs_fail en l s s1 :
    s_execute en s = (Ret false, s1) →
    s_required en = true →
    runs (en :: l) s [(s_name en, Failure)] (Raise (SystemExit 1))
         (add_stdout (s_report en) (log_call (s_name en, Failure) s1))
| runs_crash en l s e s1 :
    s_execute en s = (Raise e, s1) →
    runs (en :: l) s [(s_name en, Crash e)] (Raise e)
         (log_call (s_name en, Crash e) s1).

(** An event that lets the run go on. *)
Definition passed (en : StageEntry) (ev : Stage * outcome) : Prop :=
  ev.1 = s_name en ∧
  (ev.2 = Success ∨ (ev.2 = Failure ∧ s_required en = false)).

End Orchestrator.

Arguments StageEntry : clear implicits.

Section Pipeline.

Context {Ext : Type}.
Variable h : HostEnvironment Ext.

Definition stage_table : list (StageEntry Ext) :=
  [ Entry CheckPythonVersion (check_python_version h) true [];
    Entry InstallSystemDependencies (install_system_dependencies h) true
      ["❌ Failed to install system dependencies"];
    Entry CreateVirtualEnvironment (create_virtual_environment h) true
      ["❌ Failed to create virtual environment"];
    Entry InstallPythonDependencies (install_python_dependencies h) true
      ["❌ Failed to install Python dependencies"];
    Entry CreateDirectories (create_directories h) true
      ["❌ Failed to create directories"];
    Entry SetupConfiguration (setup_configuration h) true
      ["❌ Failed to setup configuration"];
    Entry SetupBluetooth (setup_bluetooth h) true
      ["❌ Failed to setup Bluetooth"];
    Entry SetupAudio (setup_audio h) true
      ["❌ Failed to setup audio"];
    Entry CreateServiceFile (create_service_file h) false [];
    Entry SetupPermissions (setup_permissions h) true
      ["❌ Failed to setup permissions"];
    Entry RunTests (run_tests h) true
      ["❌ Tests failed"] ].

End Pipeline.

(** ** Vocabulary of the claims *)

(** The stages in the order [main] calls them. *)
Definition stage_order : list Stage :=
  [ CheckPythonVersion; InstallSystemDependencies; CreateVirtualEnvironment;
    InstallPythonDependencies; CreateDirectories; SetupConfiguration;
    SetupBluetooth; SetupAudio; CreateServiceFile; SetupPermissions;
    RunTests; PrintNextSteps ].

(** Every stage but the service registrar is required. *)
Definition required (k : Stage) : bool :=
  match k with
  | CreateServiceFile => false
  | _ => true
  end.

(** The last line on standard output when a required stage has failed:
    the line [main] prints before [sys.exit(1)], and for the version check,
    where [main] prints nothing, the line the check itself printed. *)
Definition failure_report (k : Stage) : option string :=
  match k with
  | CheckPythonVersion => Some "❌ Python 3.8 or higher is required"
  | InstallSystemDependencies => Some "❌ Failed to install system dependencies"
  | CreateVirtualEnvironment => Some "❌ Failed to create virtual environment"
  | InstallPythonDependencies => Some "❌ Failed to install Python dependencies"
  | CreateDirectories => Some "❌ Failed to create directories"
  | SetupConfiguration => Some "❌ Failed to setup configuration"
  | SetupBluetooth => Some "❌ Failed to setup Bluetooth"
  | SetupAudio => Some "❌ Failed to setup audio"
  | SetupPermissions => Some "❌ Failed to setup permissions"
  | RunTests => Some "❌ Tests failed"
  | CreateServiceFile | PrintNextSteps => None
  end.

(** An event after which [main] goes on to the next stage. *)
Definition tolerated (ev : Stage * outcome) : Prop :=
  ev.2 = Success ∨ (ev.1 = CreateServiceFile ∧ ev.2 = Failure).

#[global] Instance exn_eq_dec : EqDecision exn.
Proof. solve_decision. Defined.

#[global] Instance outcome_eq_dec : EqDecision outcome.
Proof. solve_decision. Defined.

#[global] Instance tolerated_dec ev : Decision (tolerated ev).
Proof. unfold tolerated. apply _. Defined.

(** The lines of [print_next_steps]. *)
Definition next_steps : list string :=
  [ nl ++ "🎉 Installation completed successfully!";
    nl ++ "📋 Next steps:";
    "1. Configure your API credentials in config/credentials.yaml";
    "2. Edit settings in config/settings.yaml if needed";
    "3. Test the system: python main.py";
    "4. Access the web interface: http://localhost:8082";
    "5. Use the mobile interface: http://localhost:8082/mobile";
    nl ++ "🔧 Optional setup:";
    "- Enable systemd service: sudo systemctl enable smart-shower";
    "- Start systemd service: sudo systemctl start smart-shower";
    "- View logs: sudo journalctl -u smart-shower -f" ].

(** ** Vocabulary of the filesystem claims *)

Section FsVocabulary.

Context {Ext : Type}.
Variable h : HostEnvironment Ext.

(** The directory [os.mkdir] makes for this process: owned by the caller,
    mode [0o777] less the umask. *)
Definition new_dir : node :=
  Node Dir (euid h) (Z.land 511 (Z.lnot (umask h))).

(** [p] is a directory of [files]. *)
Definition is_directory (files : gmap path node) (p : path) : Prop :=
  ∃ d, files !! p = Some d ∧ is_dir_node d = true.

(** [p] is a directory of [files] in which the caller may create entries. *)
Definition writable_dir (files : gmap path node) (p : path) : Prop :=
  ∃ d, files !! p = Some d ∧ is_dir_node d = true ∧ may_write (euid h) d = true.

(** [p] is absent from [files], or a directory in which the caller may
    create entries. *)
Definition absent_or_writable_dir (files : gmap path node) (p : path) : Prop :=
  ∀ n, files !! p = Some n → is_dir_node n = true ∧ may_write (euid h) n = true.

(** The caller may use a directory he makes: the umask leaves him its
    write and search bits (uid 0 needs neither). *)
Definition new_dir_usable : Prop :=
  may_write (euid h) new_dir = true ∧ may_search (euid h) new_dir = true.

(** [files] with a fresh directory at [p], unless [p] is taken. *)
Definition ensure_dir (p : path) (files : gmap path node) : gmap path node :=
  match files !! p with
  | Some _ => files
  | None => <[p := new_dir]> files
  end.

(** The six directories [create_directories] names, as absolute paths. *)
Definition named_directories : list path :=
  map (λ d, resolve h (Path d)) directories.

(** The directories [create_directories] can make: the six it names and
    [web], the parent of two of them. *)
Definition created_directories : list path :=
  resolve h (Path "web") :: named_directories.

(** [p] lies strictly below the working directory. *)
Definition below_cwd (p : path) : Prop :=
  ∃ parts, parts ≠ [] ∧ p = (parts ++ cwd h)%list.

(** Nothing lies below the working directory. *)
Definition empty_cwd (files : gmap path node) : Prop :=
  ∀ p, below_cwd p → files !! p = None.

(** The file [setup_audio] writes and its two parents. *)
Definition pulse_dir : path := ("pulse" :: ".config" :: home h)%list.
Definition pulse_file : path := ("default.pa" :: pulse_dir)%list.

(** [chmod]'s effect on a node. *)
Definition with_mode (mode : Z) (n : node) : node :=
  Node (n_kind n) (n_owner n) mode.

End FsVocabulary.

(** The filesystem is a tree: every entry but the root lies in a
    directory. *)
Definition in_directory (files : gmap path node) (p : path) : bool :=
  match p with
  | [] => true
  | _ :: up => from_option is_dir_node false (files !! up)
  end.

Definition wf_fs (files : gmap path node) : Prop :=
  map_Forall (λ p _, in_directory files p = true) files.

#[global] Instance wf_fs_dec files : Decision (wf_fs files).
Proof. unfold wf_fs. apply _. Defined.

(** The lines of a text, split at line feeds. *)
Fixpoint lines_from (s cur : string) : list string :=
  match s with
  | EmptyString => [cur]
  | String c s' =>
      if Ascii.eqb c "010"%char then cur :: lines_from s' ""
      else lines_from s' (cur ++ String c "")
  end.

Definition lines (s : string) : list string := lines_from s "".

(** The lines of a text that are not empty. *)
Definition directives (s : string) : list string :=
  filter (λ l, l ≠ "") (lines s).

(** ** Vocabulary of the proofs *)

Open Scope list_scope.

Section ProofVocabulary.

Context {Ext : Type}.
Variable h : HostEnvironment Ext.

(** An exception other than [SystemExit]. *)
Definition not_exit (e : exn) : Prop := ∀ c, e ≠ SystemExit c.

Definition well_behaved {A} (m : M Ext A) : Prop :=
  ∀ s, calls (m s).2 = calls s ∧
       ∀ e, (m s).1 = Raise e → not_exit e.

(** A computation that removes and changes no entry of the filesystem. *)
Definition keeps_files {A} (m : M Ext A) : Prop :=
  ∀ s p n, fs s !! p = Some n → fs (m s).2 !! p = Some n.

(** Every stage of a table is well behaved. *)
Definition all_well_behaved (l : list (StageEntry Ext)) : Prop :=
  Forall (λ en, well_behaved (s_execute en)) l.

(** What the table says of each of its entries. *)
Definition entry_ok (en : StageEntry Ext) : Prop :=
  s_required en = required (s_name en) ∧
  (s_required en = true →
   (s_execute en = check_python_version h ∧ s_report en = [] ∧
    s_name en = CheckPythonVersion)
   ∨ (∃ msg, s_report en = [msg] ∧ failure_report (s_name en) = Some msg)).

(** The three ways a run of the pipeline can end. *)
Inductive ending (r : res unit) (out : list string)
  : list (Stage * outcome) → Prop :=
| ended_well evs front :
    r = Ret tt → map fst evs = stage_order → Forall tolerated evs →
    out = front ++ next_steps →
    ending r out evs
| ended_failed before k after pre :
    r = Raise (SystemExit 1) → required k = true →
    stage_order = before ++ k :: after → map fst pre = before →
    Forall tolerated pre →
    last out = failure_report k → is_Some (failure_report k) →
    ending r out (pre ++ [(k, Failure)])
| ended_crashed before k after pre e :
    r = Raise e → not_exit e →
    stage_order = before ++ k :: after → map fst pre = before →
    Forall tolerated pre →
    ending r out (pre ++ [(k, Crash e)]).

(** The two lines [main] starts with. *)
Definition banner : list string :=
  [ "🚿 Smart Shower OS - Installation Script";
    "==================================================" ].

(** The line the check for root adds, if any. *)
Definition root_warning : list string :=
  if euid h =? 0
  then ["⚠️ Warning: Running as root. Consider running as a regular user."]
  else [].

(** What [create_directories] needs of the filesystem: a working directory
    the caller may write; whatever already sits at one of its paths is a
    directory; [web], if there, may be written; [web] is there when
    something is in it; and the caller may search the working directory
    and [web]. *)
Definition dirs_ready (files : gmap path node) : Prop :=
  writable_dir h files (cwd h) ∧
  (∀ p n, p ∈ created_directories h → files !! p = Some n → is_dir_node n = true) ∧
  absent_or_writable_dir h files ("web" :: cwd h) ∧
  (∀ x, is_Some (files !! (x :: "web" :: cwd h)) →
        is_Some (files !! ("web" :: cwd h))) ∧
  denied h files (Path "web/static") = false.

(** The filesystem [create_directories] leaves. *)
Definition after_create (files : gmap path node) : gmap path node :=
  ensure_dir h ("data" :: cwd h)
    (ensure_dir h ("templates" :: "web" :: cwd h)
       (ensure_dir h ("web" :: cwd h)
          (ensure_dir h ("static" :: "web" :: cwd h)
             (ensure_dir h ("web" :: cwd h)
                (ensure_dir h ("music" :: cwd h)
                   (ensure_dir h ("config" :: cwd h)
                      (ensure_dir h ("logs" :: cwd h) files))))))).

End ProofVocabulary.

(** The position of a stage in [stage_order]. *)
Definition stage_index (k : Stage) : nat :=
  match k with
  | CheckPythonVersion => 0
  | InstallSystemDependencies => 1
  | CreateVirtualEnvironment => 2
  | InstallPythonDependencies => 3
  | CreateDirectories => 4
  | SetupConfiguration => 5
  | SetupBluetooth => 6
  | SetupAudio => 7
  | CreateServiceFile => 8
  | SetupPermissions => 9
  | RunTests => 10
  | PrintNextSteps => 11
  end.


(** ** Vocabulary of the further properties *)

Open Scope list_scope.

Section ShellVocabulary.

Context {Ext : Type}.
Variable h : HostEnvironment Ext.

(** What the shell of the host makes of a command in a given world: its
    exit status, what it writes to standard error, and the world it
    leaves. *)
Definition status_of (command : string) (files : gmap path node) (e : Ext) : Z :=
  returncode (shell h command files e).1.1.

Definition stderr_of (command : string) (files : gmap path node) (e : Ext) : string :=
  stderr (shell h command files e).1.1.

Definition files_after (command : string) (files : gmap path node) (e : Ext)
  : gmap path node :=
  (shell h command files e).1.2.

Definition ext_after (command : string) (files : gmap path node) (e : Ext) : Ext :=
  (shell h command files e).2.

(** What [run_command] makes of a command in a given world: [True] for
    status 0, [False] for any other status, and, where the captured output
    is not text, the [UnicodeDecodeError] of [subprocess.run], for which it
    has no handler. *)
Definition answer (command : string) (files : gmap path node) (e : Ext) : res bool :=
  match captured (shell h command files e).1.1 with
  | Decoded _ _ => Ret (status_of command files e =? 0)
  | Undecodable => Raise UnicodeDecodeError
  end.

(** Two commands in a row, the second in the world the first left, and
    only if the first answered [True]. *)
Definition answer_both (c1 c2 : string) (files : gmap path node) (e : Ext)
  : res bool :=
  match answer c1 files e with
  | Ret true => answer c2 (files_after c1 files e) (ext_after c1 files e)
  | r => r
  end.

(** A computation whose final state is always related to its initial
    state by [R]. *)
Definition respects {A} (R : state Ext → state Ext → Prop) (m : M Ext A) : Prop :=
  ∀ s, R s (m s).2.

(** Nothing was spawned between two states. *)
Definition same_spawned (s s' : state Ext) : Prop := spawned s' = spawned s.

(** A computation that spawns only commands of [allowed], in the order of
    that list, each at most once. *)
Definition spawns_within {A} (allowed : list string) (m : M Ext A) : Prop :=
  ∀ s, ∃ done, spawned (m s).2 = spawned s ++ done ∧ done `sublist_of` allowed.

End ShellVocabulary.

(** The commands of [install_system_dependencies], in the order it runs
    them. *)
Definition apt_commands : list string :=
  "sudo apt update"%string
  :: map (λ package, "sudo apt install -y " ++ package)%string packages.

(** Every command line [install.py] contains, in the order [main] can
    reach them. *)
Definition all_commands : list string :=
  apt_commands
  ++ [ "python3 -m venv venv";
       "source venv/bin/activate && pip install --upgrade pip";
       "source venv/bin/activate && pip install -r requirements.txt";
       "sudo systemctl enable bluetooth";
       "sudo systemctl start bluetooth";
       ("source venv/bin/activate && python -c " ++ dq ++ test_script ++ dq) ]%string.

(** The path of the service descriptor and of its directory. *)
Definition systemd_dir : path := ["system"; "systemd"; "etc"].
Definition service_path : path := "smart-shower.service" :: systemd_dir.
Definition service_file : PurePath := MkPath Absolute service_path.

(** The command line of [run_tests]. *)
Definition test_command : string :=
  ("source venv/bin/activate && python -c " ++ dq ++ test_script ++ dq)%string.

(** ** Concrete machines

    A Raspberry Pi as the service file of the project expects it: user
    [pi] (uid 1000) in [/home/pi/ShowerOS], the usual umask [0o022], system
    directories owned by root. *)

Definition dir_node (owner mode : Z) : node := Node Dir owner mode.

Definition pi_cwd : path := ["ShowerOS"; "pi"; "home"].
Definition pi_home : path := ["pi"; "home"].

Definition pi_files : gmap path node :=
  list_to_map
    [ ([], dir_node 0 493);
      (["home"], dir_node 0 493);
      (pi_home, dir_node 1000 493);
      (pi_cwd, dir_node 1000 493);
      ("main.py" :: pi_cwd, Node (File "import asyncio") 1000 420);
      ("requirements.txt" :: pi_cwd, Node (File "flask") 1000 420);
      (["etc"], dir_node 0 493);
      (["systemd"; "etc"], dir_node 0 493);
      (["system"; "systemd"; "etc"], dir_node 0 493) ].

(** The same tree with nothing in the working directory. *)
Definition bare_files : gmap path node :=
  list_to_map
    [ ([], dir_node 0 493);
      (["home"], dir_node 0 493);
      (pi_home, dir_node 1000 493);
      (pi_cwd, dir_node 1000 493);
      (["etc"], dir_node 0 493);
      (["systemd"; "etc"], dir_node 0 493);
      (["system"; "systemd"; "etc"], dir_node 0 493) ].

(** The same tree with an empty working directory that belongs to root:
    user [pi] may look into it and may not write it. *)
Definition foreign_cwd_files : gmap path node :=
  list_to_map
    [ ([], dir_node 0 493);
      (["home"], dir_node 0 493);
      (pi_home, dir_node 1000 493);
      (pi_cwd, dir_node 0 493);
      (["etc"], dir_node 0 493);
      (["systemd"; "etc"], dir_node 0 493);
      (["system"; "systemd"; "etc"], dir_node 0 493) ].

(** A shell on which every command succeeds; [python3 -m venv venv] leaves
    a [venv] directory behind. *)
Definition obliging_shell (command : string) (files : gmap path node) (e : unit)
  : completed * gmap path node * unit :=
  (Completed 0 (Decoded "" ""),
   if decide (command = "python3 -m venv venv")
   then <["venv" :: pi_cwd := dir_node 1000 493]> files
   else files,
   e).

(** A shell without network: [apt] cannot find [mpv]. *)
Definition offline_shell (command : string) (files : gmap path node) (e : unit)
  : completed * gmap path node * unit :=
  if decide (command = "sudo apt install -y mpv")
  then (Completed 100 (Decoded "" "E: Unable to locate package mpv"), files, e)
  else obliging_shell command files e.

Definition no_signals (n : Z) : option string := None.

Definition pi_host : HostEnvironment unit :=
  Host 1000 18 (* 0o022 *) pi_cwd pi_home (3, 11)%nat no_signals obliging_shell.

Definition offline_host : HostEnvironment unit :=
  Host 1000 18 pi_cwd pi_home (3, 11)%nat no_signals offline_shell.

(** The same machine with the installer started by root. *)
Definition root_host : HostEnvironment unit :=
  Host 0 18 pi_cwd ["root"] (3, 11)%nat no_signals obliging_shell.

(** The same machine after an earlier run under [sudo] that kept [HOME]:
    [~/.config] and [logs] exist and belong to root. *)
Definition sudo_leftover_files : gmap path node :=
  <[".config" :: pi_home := dir_node 0 493]>
    (<["logs" :: pi_cwd := dir_node 0 493]> pi_files).

(** The same machine with a virtual environment in place. *)
Definition venv_files : gmap path node :=
  <["venv" :: pi_cwd := dir_node 1000 493]> pi_files.

(** The same machine after [chmod 600 .] in the working directory: user
    [pi] still owns it and may no longer search it. *)
Definition locked_cwd_files : gmap path node :=
  <[pi_cwd := dir_node 1000 384 (* 0o600 *)]> venv_files.

(** The same machine with a [config] directory that belongs to root and is
    closed to everyone else (mode [0o700]). *)
Definition locked_config_files : gmap path node :=
  <["config" :: pi_cwd := dir_node 0 448 (* 0o700 *)]> pi_files.

(** The working directory after a complete run of [create_directories]. *)
Definition settled_files : gmap path node :=
  <["data" :: pi_cwd := dir_node 1000 493]>
    (<["templates" :: "web" :: pi_cwd := dir_node 1000 493]>
       (<["static" :: "web" :: pi_cwd := dir_node 1000 493]>
          (<["web" :: pi_cwd := dir_node 1000 493]>
             (<["music" :: pi_cwd := dir_node 1000 493]>
                (<["config" :: pi_cwd := dir_node 1000 493]>
                   (<["logs" :: pi_cwd := dir_node 1000 493]> bare_files)))))).

(** The same after [chmod 600 web]. *)
Definition closed_web_files : gmap path node :=
  <["web" :: pi_cwd := dir_node 1000 384 (* 0o600 *)]> settled_files.

(** An empty working directory but for a regular file called [logs]. *)
Definition logs_file_files : gmap path node :=
  <["logs" :: pi_cwd := Node (File "") 1000 420 (* 0o644 *)]> bare_files.

(** The Pi with a [~/.config] of mode [0o600]: user [pi] owns it and may
    not search it. *)
Definition closed_config_files : gmap path node :=
  <[".config" :: pi_home := dir_node 1000 384 (* 0o600 *)]> pi_files.

(** A machine without systemd: [/etc] is there, [/etc/systemd] is not. *)
Definition no_systemd_files : gmap path node :=
  delete ["system"; "systemd"; "etc"] (delete ["systemd"; "etc"] pi_files).

(** The Pi with a umask that takes the search bit off the directories its
    user makes ([umask 100]). *)
Definition umask100_host : HostEnvironment unit :=
  Host 1000 64 (* 0o100 *) pi_cwd pi_home (3, 11)%nat no_signals obliging_shell.

(** The Pi with an interpreter that is too old. *)
Definition old_python_host : HostEnvironment unit :=
  Host 1000 18 pi_cwd pi_home (3, 7)%nat no_signals obliging_shell.

(** The bodies of the stage functions are unfolded by name only. *)
Arguments run_command : simpl never.
Arguments check_python_version : simpl never.
Arguments install_packages : simpl never.
Arguments install_system_dependencies : simpl never.
Arguments create_virtual_environment : simpl never.
Arguments install_python_dependencies : simpl never.
Arguments make_directories : simpl never.
Arguments create_directories : simpl never.
Arguments setup_configuration : simpl never.
Arguments setup_bluetooth : simpl never.
Arguments setup_audio : simpl never.
Arguments create_service_file : simpl never.
Arguments setup_permissions : simpl never.
Arguments run_tests : simpl never.
Arguments print_next_steps : simpl never.
Arguments run_pipeline : simpl never.
Arguments main : simpl never.
Arguments stage_table : simpl never.
Arguments next_steps : simpl never.
Arguments service_content : simpl never.
Arguments test_script : simpl never.
Arguments pulse_config : simpl never.
Open Scope list_scope.

(** ** Looking up a path *)

Section LookupFacts.

Context {Ext : Type}.
Variable h : HostEnvironment Ext.

Lemma missing_cases files dirs :
  missing files dirs = FileNotFoundError ∨ missing files dirs = NotADirectoryError.
Proof.
  induction dirs as [|d up IH]; cbn [missing]; [by left|].
  destruct (files !! d) as [n|]; [|exact IH].
  destruct (is_dir_node n); [by left | by right].
Qed.

Lemma ignore_error_missing files dirs : ignore_error (missing files dirs) = true.
Proof. by destruct (missing_cases files dirs) as [-> | ->]. Qed.

(** The errors of a lookup. *)
Lemma stat_error files P e :
  stat h files P = inl e →
  (e = PermissionError ∧ denied h files P = true)
  ∨ (denied h files P = false ∧ files !! resolve h P = None
     ∧ e = missing files (searched h P)).
Proof.
  unfold stat. destruct (denied h files P); [intros [= <-]; by left|].
  destruct (files !! resolve h P); [done|]. intros [= <-]. by right.
Qed.

Lemma stat_found files P n :
  stat h files P = inr n ↔ denied h files P = false ∧ files !! resolve h P = Some n.
Proof.
  unfold stat. destruct (denied h files P).
  - split; [done | by intros [? _]].
  - destruct (files !! resolve h P) as [n'|]; split; try done.
    + by intros [= ->].
    + by intros [_ [= ->]].
    + by intros [_ ?].
Qed.

(** Where nothing is denied, a lookup sees the map. *)
Lemma stat_allowed files P :
  denied h files P = false →
  stat h files P = match files !! resolve h P with
                   | Some n => inr n
                   | None => inl (missing files (searched h P))
                   end.
Proof. unfold stat. by intros ->. Qed.

Lemma stat_denied files P :
  denied h files P = true → stat h files P = inl PermissionError.
Proof. unfold stat. by intros ->. Qed.

Lemma creatable_error files P e :
  creatable h files P = inl e →
  e = PermissionError ∨ e = FileNotFoundError ∨ e = NotADirectoryError.
Proof.
  unfold creatable. destruct (searched h P) as [|d up]; [intros [= <-]; auto|].
  destruct (files !! d) as [n|].
  - destruct (negb (is_dir_node n)); [intros [= <-]; auto|].
    destruct (negb (may_write (euid h) n)); [intros [= <-]; auto | done].
  - intros [= <-]. right. apply (missing_cases files (d :: up)).
Qed.

Lemma searched_cons a x up :
  searched h (MkPath a (x :: up))
  = resolve h (MkPath a up) :: searched h (MkPath a up).
Proof. by destruct a. Qed.

Lemma resolve_cons a x rest :
  resolve h (MkPath a (x :: rest)) = x :: resolve h (MkPath a rest).
Proof. by destruct a. Qed.

(** Nothing is denied on the way to [P] exactly when every directory on
    the way that exists may be searched. *)
Lemma denied_false files P :
  denied h files P = false
  ↔ ∀ d n, d ∈ searched h P → files !! d = Some n → is_dir_node n = true →
           may_search (euid h) n = true.
Proof.
  unfold denied. rewrite <- not_true_iff_false, existsb_exists. split.
  - intros Hno d n Hd Hn Hdir.
    destruct (may_search (euid h) n) eqn:Hs; [done|].
    destruct Hno. exists d. split; [by apply list_elem_of_In|].
    by rewrite Hn, Hdir, Hs.
  - intros Hall (d & Hd%list_elem_of_In & Hbad).
    destruct (files !! d) as [n|] eqn:Hn; [|done].
    apply andb_prop in Hbad as [Hdir Hs].
    by rewrite (Hall d n Hd Hn Hdir) in Hs.
Qed.

Lemma denied_cons files a x up :
  denied h files (MkPath a (x :: up))
  = match files !! resolve h (MkPath a up) with
    | Some n => is_dir_node n && negb (may_search (euid h) n)
    | None => false
    end || denied h files (MkPath a up).
Proof. unfold denied. by rewrite searched_cons. Qed.

(** What is allowed for a path is allowed for the directories above it. *)
Lemma denied_up files a x up :
  denied h files (MkPath a (x :: up)) = false →
  denied h files (MkPath a up) = false.
Proof. rewrite denied_cons. by intros [_ ?]%orb_false_elim. Qed.

(** A change of the map away from the way to [P] is not seen by the
    lookup of [P]. *)
Lemma denied_ext files1 files2 P :
  (∀ d, d ∈ searched h P → files1 !! d = files2 !! d) →
  denied h files1 P = denied h files2 P.
Proof.
  unfold denied. induction (searched h P) as [|d up IH]; intros Hsame; [done|].
  cbn [existsb]. rewrite (Hsame d) by apply list_elem_of_here.
  rewrite IH; [done|]. intros d' Hd'. apply Hsame. by apply list_elem_of_further.
Qed.

Lemma missing_ext files1 files2 dirs :
  (∀ d, d ∈ dirs → files1 !! d = files2 !! d) →
  missing files1 dirs = missing files2 dirs.
Proof.
  induction dirs as [|d up IH]; intros Hsame; [done|].
  cbn [missing]. rewrite (Hsame d) by apply list_elem_of_here.
  rewrite IH; [done|]. intros d' Hd'. apply Hsame. by apply list_elem_of_further.
Qed.

(** An entry is not on the way to itself, nor to anything above it. *)
Lemma above_length (parts up : list string) :
  up ∈ above parts → (length up < length parts)%nat.
Proof.
  induction parts as [|x rest IH]; cbn [above]; [by intros ?%elem_of_nil|].
  intros [-> | Hin]%elem_of_cons; cbn [length]; [lia|].
  specialize (IH Hin). lia.
Qed.

Lemma searched_length P d :
  d ∈ searched h P → (length d < length (resolve h P))%nat.
Proof.
  unfold searched, resolve. destruct (p_anchor P).
  - intros (up & -> & Hup)%list_elem_of_fmap. apply above_length in Hup.
    rewrite !length_app. lia.
  - apply above_length.
Qed.

Lemma searched_not_self P : resolve h P ∉ searched h P.
Proof. intros Hin%searched_length. lia. Qed.

(** A new entry at [P] is not on the way to [P]. *)
Lemma denied_insert_self files P n :
  denied h (<[resolve h P := n]> files) P = denied h files P.
Proof.
  apply denied_ext. intros d Hd. rewrite lookup_insert_ne; [done|].
  intros <-. by apply searched_not_self in Hd.
Qed.

(** A new entry that is searchable, or is no directory, denies nothing
    that was allowed before. *)
Lemma denied_insert_fresh files p n P :
  files !! p = None →
  (is_dir_node n = true → may_search (euid h) n = true) →
  denied h (<[p := n]> files) P = denied h files P.
Proof.
  intros Hfresh Hn. unfold denied.
  induction (searched h P) as [|d up IH]; [done|]. cbn [existsb].
  rewrite IH. f_equal.
  destruct (decide (d = p)) as [-> | Hne].
  - rewrite lookup_insert_eq, Hfresh.
    destruct (is_dir_node n); [|done]. by rewrite Hn.
  - by rewrite lookup_insert_ne.
Qed.

End LookupFacts.
Open Scope list_scope.

(** ** Sanity checks of the path layer *)

Example Path_web_static : Path "web/static" = MkPath Relative ["static"; "web"].
Proof. reflexivity. Qed.

Example Path_service_file :
  Path "/etc/systemd/system/smart-shower.service"
  = MkPath Absolute ["smart-shower.service"; "system"; "systemd"; "etc"].
Proof. reflexivity. Qed.

Example path_str_cwd : path_str ["ShowerOS"; "pi"; "home"] = "/home/pi/ShowerOS".
Proof. reflexivity. Qed.

Example version_lt_37 : version_lt (3, 7)%nat (3, 8)%nat = true.
Proof. reflexivity. Qed.

Example version_lt_38 : version_lt (3, 8)%nat (3, 8)%nat = false.
Proof. reflexivity. Qed.

Example version_lt_27 : version_lt (2, 9)%nat (3, 8)%nat = true.
Proof. reflexivity. Qed.

(** ** Stage functions leave the call record alone and never exit

    Only [main] records calls and only [main] calls [sys.exit]: a stage
    function leaves [calls] as it found it, and the exceptions that can
    leave it are those of the filesystem. *)

Section WellBehaved.

Context {Ext : Type}.
Variable h : HostEnvironment Ext.

Lemma wb_ret {A} (a : A) : well_behaved (ret (Ext:=Ext) a).
Proof. intros s; split; [reflexivity | intros e [=]]. Qed.

Lemma wb_raise {A} e : not_exit e → well_behaved (raise (Ext:=Ext) (A:=A) e).
Proof. intros He s; split; [reflexivity | intros e' [= <-]; exact He]. Qed.

Lemma wb_bind {A B} (m : M Ext A) (k : A → M Ext B) :
  well_behaved m → (∀ a, well_behaved (k a)) → well_behaved (bind m k).
Proof.
  intros Hm Hk s. unfold bind.
  destruct (Hm s) as [Hc He]. destruct (m s) as [[a|e] s1]; simpl in *.
  - destruct (Hk a s1) as [Hc' He']. split; [congruence | exact He'].
  - split; [exact Hc | intros e' [= <-]; exact (He e eq_refl)].
Qed.

Lemma wb_try_except {A} (m : M Ext A) handler :
  well_behaved m →
  (∀ e k, not_exit e → handler e = Some k → well_behaved k) →
  well_behaved (try_except m handler).
Proof.
  intros Hm Hh s. unfold try_except.
  destruct (Hm s) as [Hc He]. destruct (m s) as [[a|e] s1]; simpl in *.
  - split; [exact Hc | intros e [=]].
  - specialize (He e eq_refl).
    destruct (handler e) as [k|] eqn:Hk.
    + destruct (Hh e k He Hk s1) as [Hc' He']. split; [congruence | exact He'].
    + split; [exact Hc | intros e' [= <-]; exact He].
Qed.

Lemma wb_if {A} (b : bool) (m1 m2 : M Ext A) :
  well_behaved m1 → well_behaved m2 → well_behaved (if b then m1 else m2).
Proof. destruct b; auto. Qed.

Lemma wb_print line : well_behaved (print (Ext:=Ext) line).
Proof. intros s; split; [reflexivity | intros e [=]]. Qed.

Lemma stat_not_exit files P e : stat h files P = inl e → not_exit e.
Proof.
  intros [[-> _] | (_ & _ & ->)]%stat_error c; [done|].
  by destruct (missing_cases files (searched h P)) as [-> | ->].
Qed.

Lemma creatable_not_exit files P e : creatable h files P = inl e → not_exit e.
Proof. intros [-> | [-> | ->]]%creatable_error c; done. Qed.

Lemma wb_Path_exists P : well_behaved (Path_exists h P).
Proof.
  intros s. unfold Path_exists.
  destruct (stat h (fs s) P) as [e|n] eqn:Hstat; [destruct (ignore_error e)|];
    (split; [reflexivity|]); intros e' [=]. subst e'.
  by eapply stat_not_exit.
Qed.

Lemma wb_Path_is_dir P : well_behaved (Path_is_dir h P).
Proof.
  intros s. unfold Path_is_dir.
  destruct (stat h (fs s) P) as [e|n] eqn:Hstat; [destruct (ignore_error e)|];
    (split; [reflexivity|]); intros e' [=]. subst e'.
  by eapply stat_not_exit.
Qed.

Lemma wb_os_getcwd : well_behaved (os_getcwd h).
Proof. apply wb_ret. Qed.

Ltac wb_prim :=
  intros s; split;
  [ repeat (case_match; simpl; try reflexivity)
  | intros e He c ->; repeat (case_match; simpl in *; try discriminate) ].

Lemma wb_os_mkdir P mode : well_behaved (os_mkdir h P mode).
Proof.
  intros s. unfold os_mkdir.
  destruct (denied h (fs s) P); [split; [reflexivity | by intros e [= <-] c]|].
  destruct (fs s !! resolve h P); [split; [reflexivity | by intros e [= <-] c]|].
  destruct (creatable h (fs s) P) as [e|[]] eqn:Hc;
    (split; [reflexivity|]); intros e' [=]. subst e'.
  by eapply creatable_not_exit.
Qed.

Lemma wb_open_w P : well_behaved (open_w h P).
Proof.
  intros s. unfold open_w. cbv zeta.
  destruct (denied h (fs s) P); [split; [reflexivity | by intros e [= <-] c]|].
  destruct (fs s !! resolve h P) as [n|].
  - destruct (n_kind n); [split; [reflexivity | by intros e [= <-] c]|].
    destruct (may_write (euid h) n); split; try reflexivity;
      by intros e [= <-] c.
  - destruct (creatable h (fs s) P) as [e|[]] eqn:Hc;
      (split; [reflexivity|]); intros e' [=]. subst e'.
    by eapply creatable_not_exit.
Qed.

Lemma wb_f_write P data : well_behaved (f_write h P data).
Proof. unfold f_write. wb_prim. Qed.

Lemma wb_Path_chmod P mode : well_behaved (Path_chmod h P mode).
Proof.
  intros s. unfold Path_chmod.
  destruct (stat h (fs s) P) as [e|n] eqn:Hstat.
  - split; [reflexivity|]. intros e' [= <-]. by eapply stat_not_exit.
  - destruct (may_chmod (euid h) n); split; try reflexivity;
      by intros e [= <-] c.
Qed.

Lemma wb_subprocess_run command : well_behaved (subprocess_run h command).
Proof.
  intros s. unfold subprocess_run.
  destruct (shell h command (fs s) (ext s)) as [[c files] e'].
  destruct (captured c) as [out err|];
    [destruct (returncode c =? 0)|]; simpl; (split; [reflexivity|]);
    intros e [=]; subst e; intros c' [=].
Qed.

End WellBehaved.

Create HintDb wb discriminated.
#[global] Hint Resolve wb_ret wb_print wb_Path_exists wb_Path_is_dir wb_os_getcwd
  wb_os_mkdir wb_open_w wb_f_write wb_Path_chmod wb_subprocess_run : wb.

(** Decomposes a goal [well_behaved m] along the syntax of [m]. *)
Ltac wb_auto :=
  repeat first
    [ progress eauto with wb
    | apply wb_bind; [ | intros ? ]
    | apply wb_if
    | apply wb_raise; [ assumption ]
    | apply wb_try_except;
      [ | let e := fresh "e" in let He := fresh "He" in
          intros e ? He ?; destruct e; simplify_eq;
          try (exfalso; eapply He; reflexivity) ] ].

Section WellBehavedStages.

Context {Ext : Type}.
Variable h : HostEnvironment Ext.

Lemma wb_Path_mkdir_exist_ok P : well_behaved (Path_mkdir_exist_ok h P).
Proof. unfold Path_mkdir_exist_ok. wb_auto. Qed.

Lemma wb_mkdir_parents a parts : well_behaved (mkdir_parents h a parts).
Proof.
  induction parts as [|x up IH]; simpl; wb_auto.
Qed.

Lemma wb_Path_mkdir_parents P : well_behaved (Path_mkdir_parents h P).
Proof. apply wb_mkdir_parents. Qed.

Lemma wb_with_open_w_write P data : well_behaved (with_open_w_write h P data).
Proof. unfold with_open_w_write. wb_auto. Qed.

Lemma wb_run_command command description :
  well_behaved (run_command h command description).
Proof. unfold run_command. wb_auto. Qed.

Hint Resolve wb_Path_mkdir_parents wb_with_open_w_write wb_run_command : wb.

Lemma wb_check_python_version : well_behaved (check_python_version h).
Proof. unfold check_python_version. wb_auto. Qed.

Lemma wb_install_packages l : well_behaved (install_packages h l).
Proof. induction l; cbn [install_packages make_directories]; wb_auto. Qed.

Lemma wb_install_system_dependencies : well_behaved (install_system_dependencies h).
Proof. unfold install_system_dependencies. wb_auto. Qed.

Lemma wb_create_virtual_environment : well_behaved (create_virtual_environment h).
Proof. unfold create_virtual_environment. wb_auto. Qed.

Lemma wb_install_python_dependencies : well_behaved (install_python_dependencies h).
Proof. unfold install_python_dependencies. wb_auto. Qed.

Lemma wb_make_directories l : well_behaved (make_directories h l).
Proof. induction l; cbn [install_packages make_directories]; wb_auto. Qed.

Lemma wb_create_directories : well_behaved (create_directories h).
Proof. unfold create_directories. wb_auto. Qed.

Lemma wb_setup_configuration : well_behaved (setup_configuration h).
Proof. unfold setup_configuration. wb_auto. Qed.

Lemma wb_setup_bluetooth : well_behaved (setup_bluetooth h).
Proof. unfold setup_bluetooth. wb_auto. Qed.

Lemma wb_setup_audio : well_behaved (setup_audio h).
Proof. unfold setup_audio. wb_auto. Qed.

Lemma wb_create_service_file : well_behaved (create_service_file h).
Proof. unfold create_service_file. wb_auto. Qed.

Lemma wb_setup_permissions : well_behaved (setup_permissions h).
Proof. unfold setup_permissions. wb_auto. Qed.

Lemma wb_run_tests : well_behaved (run_tests h).
Proof. unfold run_tests. wb_auto. Qed.

Lemma wb_print_next_steps : well_behaved (print_next_steps (Ext:=Ext)).
Proof. unfold print_next_steps. wb_auto. Qed.

End WellBehavedStages.


(** ** The loop of the orchestrator *)

Section OrchestratorFacts.

Context {Ext : Type}.

Lemma print_spec line (s : state Ext) :
  print line s = (Ret tt, add_stdout [line] s).
Proof. reflexivity. Qed.

Lemma print_bind {B} line (k : M Ext B) (s : state Ext) :
  (print line ;; k) s = k (add_stdout [line] s).
Proof. reflexivity. Qed.

Lemma add_stdout_add l1 l2 (s : state Ext) :
  add_stdout l2 (add_stdout l1 s) = add_stdout (l1 ++ l2) s.
Proof. destruct s. unfold add_stdout. cbn. by rewrite <- app_assoc. Qed.

Lemma add_stdout_nil (s : state Ext) : add_stdout [] s = s.
Proof. destruct s. unfold add_stdout. cbn. by rewrite app_nil_r. Qed.

Lemma last_add_stdout l x (s : state Ext) :
  last (stdout (add_stdout (l ++ [x]) s)) = Some x.
Proof. unfold add_stdout. cbn. by rewrite app_assoc, last_snoc. Qed.

Lemma calls_log_call ev (s : state Ext) : calls (log_call ev s) = calls s ++ [ev].
Proof. reflexivity. Qed.

Lemma calls_add_stdout l (s : state Ext) : calls (add_stdout l s) = calls s.
Proof. reflexivity. Qed.

Lemma stdout_log_call ev (s : state Ext) : stdout (log_call ev s) = stdout s.
Proof. reflexivity. Qed.

Lemma stdout_add_stdout l (s : state Ext) : stdout (add_stdout l s) = stdout s ++ l.
Proof. reflexivity. Qed.

Lemma fs_add_stdout l (s : state Ext) : fs (add_stdout l s) = fs s.
Proof. reflexivity. Qed.

Lemma fs_set_fs files (s : state Ext) : fs (set_fs files s) = files.
Proof. reflexivity. Qed.

Lemma set_fs_add_stdout files l (s : state Ext) :
  set_fs files (add_stdout l s) = add_stdout l (set_fs files s).
Proof. reflexivity. Qed.

Lemma set_fs_set_fs files1 files2 (s : state Ext) :
  set_fs files2 (set_fs files1 s) = set_fs files2 s.
Proof. reflexivity. Qed.

Lemma print_all_spec lines (s : state Ext) :
  print_all lines s = (Ret tt, add_stdout lines s).
Proof.
  revert s. induction lines as [|line rest IH]; intros s; cbn [print_all].
  - unfold ret. by rewrite add_stdout_nil.
  - rewrite print_bind, IH. by rewrite add_stdout_add.
Qed.

(** [run_stages] always produces a run. *)
Lemma run_stages_runs (l : list (StageEntry Ext)) s :
  ∃ evs, runs l s evs (run_stages l s).1 (run_stages l s).2.
Proof.
  revert s. induction l as [|en l IH]; intros s; simpl.
  - exists []. constructor.
  - unfold bind, call.
    destruct (s_execute en s) as [[[]|e] s1] eqn:Hrun; simpl.
    + destruct (IH (log_call (s_name en, Success) s1)) as [evs Hevs].
      exists ((s_name en, outcome_of true) :: evs).
      eapply runs_pass; eauto.
    + destruct (s_required en) eqn:Hreq; simpl.
      * rewrite print_all_spec. simpl.
        exists [(s_name en, Failure)]. by apply runs_fail.
      * destruct (IH (log_call (s_name en, Failure) s1)) as [evs Hevs].
        exists ((s_name en, outcome_of false) :: evs).
        eapply runs_pass; eauto.
    + exists [(s_name en, Crash e)]. by apply runs_crash.
Qed.

(** The run appends its events to the record and nothing else. *)
Lemma runs_calls l (s : state Ext) evs r s' :
  all_well_behaved l → runs l s evs r s' → calls s' = calls s ++ evs.
Proof.
  intros Hwb Hruns. induction Hruns as
    [s | en l s b s1 evs r s' Hrun Hb Hrest IH | en l s s1 Hrun Hreq
     | en l s e s1 Hrun].
  - by rewrite app_nil_r.
  - apply Forall_cons in Hwb as [Hen Hl].
    destruct (Hen s) as [Hc _]. rewrite Hrun in Hc. simpl in Hc.
    rewrite (IH Hl). simpl. rewrite Hc. by rewrite <- app_assoc.
  - apply Forall_cons in Hwb as [Hen _].
    destruct (Hen s) as [Hc _]. rewrite Hrun in Hc. simpl in *. by rewrite Hc.
  - apply Forall_cons in Hwb as [Hen _].
    destruct (Hen s) as [Hc _]. rewrite Hrun in Hc. simpl in *. by rewrite Hc.
Qed.

(** A run that returns has gone through every stage. *)
Lemma runs_ret l (s : state Ext) evs s' :
  runs l s evs (Ret tt) s' → Forall2 passed l evs.
Proof.
  intros Hruns. remember (Ret tt) as r eqn:Hr.
  induction Hruns as
    [s | en l s b s1 evs r s' Hrun Hb Hrest IH | en l s s1 Hrun Hreq
     | en l s e s1 Hrun]; try discriminate.
  - constructor.
  - constructor; [|by apply IH].
    split; [reflexivity|]. simpl.
    destruct Hb as [-> | Hopt]; [by left|].
    destruct b; [by left | by right].
Qed.

(** A run that raises stopped at one stage: the stages before it passed,
    and it either failed while required or let an exception through. *)
Lemma runs_raise l (s : state Ext) evs e s' :
  all_well_behaved l → runs l s evs (Raise e) s' →
  ∃ l1 en l2 evs1 o s0 s1,
    l = l1 ++ en :: l2 ∧ evs = evs1 ++ [(s_name en, o)] ∧
    Forall2 passed l1 evs1 ∧
    ((o = Failure ∧ s_required en = true ∧ e = SystemExit 1 ∧
      s_execute en s0 = (Ret false, s1) ∧
      stdout s' = stdout s1 ++ s_report en)
     ∨ (o = Crash e ∧ not_exit e ∧
        s_execute en s0 = (Raise e, s1) ∧ stdout s' = stdout s1)).
Proof.
  intros Hwb Hruns. remember (Raise e) as r eqn:Hr.
  induction Hruns as
    [s | en l s b s1 evs r s' Hrun Hb Hrest IH | en l s s1 Hrun Hreq
     | en l s e' s1 Hrun]; try discriminate.
  - apply Forall_cons in Hwb as [Hen Hl].
    destruct (IH Hl Hr) as (l1 & en' & l2 & evs1 & o & s0 & s2 & -> & -> & Hpre & Hlast).
    exists (en :: l1), en', l2, ((s_name en, outcome_of b) :: evs1), o, s0, s2.
    split_and!; try done.
    constructor; [|done]. split; [done|]. simpl.
    destruct Hb as [-> | Hopt]; [by left|].
    destruct b; [by left | by right].
  - injection Hr as <-.
    exists [], en, l, [], Failure, s, s1. split_and!; try done.
    left. split_and!; done.
  - injection Hr as ->.
    exists [], en, l, [], (Crash e), s, s1. split_and!; try done.
    right. split_and!; try done.
    apply Forall_cons in Hwb as [Hen _].
    destruct (Hen s) as [_ He]. apply He. by rewrite Hrun.
Qed.

End OrchestratorFacts.

(** ** [main] is the orchestrator on the stage table *)

Section MainFacts.

Context {Ext : Type}.
Variable h : HostEnvironment Ext.

Ltac step_call :=
  match goal with
  | |- context [call ?k ?f ?s] =>
      destruct (call k f s) as [[[]|?] ?]; simpl; try reflexivity
  end.

Lemma run_pipeline_refines (s : state Ext) :
  run_pipeline h s
  = (run_stages (stage_table h) ;; call_unit PrintNextSteps print_next_steps) s.
Proof.
  unfold run_pipeline, stage_table.
  generalize (check_python_version h) (install_system_dependencies h)
    (create_virtual_environment h) (install_python_dependencies h)
    (create_directories h) (setup_configuration h) (setup_bluetooth h)
    (setup_audio h) (create_service_file h) (setup_permissions h)
    (run_tests h) (print_next_steps (Ext:=Ext)).
  intros f1 f2 f3 f4 f5 f6 f7 f8 f9 f10 f11 f12.
  cbn [run_stages s_name s_execute s_required s_report print_all].
  unfold bind, sys_exit, raise, ret, print.
  do 11 step_call.
Qed.

Lemma print_next_steps_spec (s : state Ext) :
  print_next_steps s = (Ret tt, add_stdout next_steps s).
Proof.
  unfold print_next_steps.
  repeat (rewrite print_bind, ?add_stdout_add).
  rewrite print_spec, add_stdout_add. reflexivity.
Qed.

Lemma check_python_version_false (s0 s1 : state Ext) :
  check_python_version h s0 = (Ret false, s1) →
  last (stdout s1) = failure_report CheckPythonVersion.
Proof.
  unfold check_python_version. rewrite print_bind.
  destruct (version_lt (version_info h) (3%nat, 8%nat));
    rewrite print_bind, add_stdout_add; unfold ret; intros [= <-].
  apply (last_add_stdout [_]).
Qed.

Lemma stage_table_names :
  map s_name (stage_table h) ++ [PrintNextSteps] = stage_order.
Proof. reflexivity. Qed.

Lemma stage_table_wb : all_well_behaved (stage_table h).
Proof.
  unfold all_well_behaved, stage_table.
  repeat apply Forall_cons_2; try apply Forall_nil_2;
    cbn [s_execute].
  - apply wb_check_python_version.
  - apply wb_install_system_dependencies.
  - apply wb_create_virtual_environment.
  - apply wb_install_python_dependencies.
  - apply wb_create_directories.
  - apply wb_setup_configuration.
  - apply wb_setup_bluetooth.
  - apply wb_setup_audio.
  - apply wb_create_service_file.
  - apply wb_setup_permissions.
  - apply wb_run_tests.
Qed.

Lemma stage_table_entries : Forall (entry_ok h) (stage_table h).
Proof.
  unfold stage_table, entry_ok.
  repeat apply Forall_cons_2; try apply Forall_nil_2;
    cbn [s_execute s_name s_required s_report];
    (split; [reflexivity | intros Hreq; try discriminate Hreq]).
  - left. done.
  - right. by eexists.
  - right. by eexists.
  - right. by eexists.
  - right. by eexists.
  - right. by eexists.
  - right. by eexists.
  - right. by eexists.
  - right. by eexists.
  - right. by eexists.
Qed.

Lemma passed_tolerated (l : list (StageEntry Ext)) evs :
  Forall (entry_ok h) l → Forall2 passed l evs →
  map fst evs = map s_name l ∧ Forall tolerated evs.
Proof.
  intros Hok Hpass. induction Hpass as [|en ev l evs [Hname Hout] Hrest IH].
  - by split.
  - apply Forall_cons in Hok as [[Hreq _] Hl].
    destruct (IH Hl) as [Hnames Htol]. simpl. split; [congruence|].
    constructor; [|done]. unfold tolerated.
    destruct Hout as [? | [? Hopt]]; [by left|]. right. split; [|done].
    rewrite Hreq, <- Hname in Hopt. by destruct (ev.1).
Qed.

End MainFacts.

Section RunSummary.

Context {Ext : Type}.
Variable h : HostEnvironment Ext.

Lemma pipeline_summary (s : state Ext) :
  ∃ evs, calls (run_pipeline h s).2 = calls s ++ evs ∧
         ending (run_pipeline h s).1 (stdout (run_pipeline h s).2) evs.
Proof.
  rewrite run_pipeline_refines. unfold bind.
  destruct (run_stages_runs (stage_table h) s) as [evs Hruns].
  pose proof (runs_calls _ _ _ _ _ (stage_table_wb h) Hruns) as Hcalls.
  destruct (run_stages (stage_table h) s) as [[[]|e] s1];
    cbn [fst snd] in Hruns, Hcalls |- *.
  - apply runs_ret in Hruns.
    destruct (passed_tolerated h _ _ (stage_table_entries h) Hruns)
      as [Hnames Htol].
    unfold call_unit. rewrite print_next_steps_spec. cbn [fst snd].
    exists (evs ++ [(PrintNextSteps, Success)]). split.
    + rewrite calls_log_call, calls_add_stdout, Hcalls. by rewrite <- app_assoc.
    + eapply ended_well; [done | | | by rewrite stdout_log_call, stdout_add_stdout].
      * rewrite map_app, Hnames. apply stage_table_names.
      * apply Forall_app. split; [done|]. constructor; [by left | constructor].
  - apply runs_raise in Hruns; [|apply stage_table_wb].
    destruct Hruns as (l1 & en & l2 & evs1 & o & s0 & s2 & Hl & -> & Hpre & Hlast).
    pose proof (stage_table_entries h) as Hok. rewrite Hl in Hok.
    apply Forall_app in Hok as [Hok1 Hok2].
    apply Forall_cons in Hok2 as [[Hreq Hrep] _].
    destruct (passed_tolerated h _ _ Hok1 Hpre) as [Hnames Htol].
    assert (stage_order = map s_name l1 ++ s_name en :: (map s_name l2 ++ [PrintNextSteps]))
      as Hord.
    { rewrite <- (stage_table_names h), Hl, map_app. simpl.
      by rewrite <- app_assoc. }
    exists (evs1 ++ [(s_name en, o)]). split; [done|].
    destruct Hlast as [(-> & Hr & -> & Hrun & Hout) | (-> & He & Hrun & Hout)].
    + eapply ended_failed; eauto; try congruence.
      * destruct (Hrep Hr) as [(Hex & Hnil & Hk) | (msg & Hmsg & Hfr)].
        -- rewrite Hout, Hnil, app_nil_r, Hk.
           rewrite Hex in Hrun. eapply check_python_version_false, Hrun.
        -- rewrite Hout, Hmsg, last_snoc. done.
      * destruct (Hrep Hr) as [(Hex & Hnil & Hk) | (msg & Hmsg & Hfr)].
        -- rewrite Hk. by eexists.
        -- rewrite Hfr. by eexists.
    + eapply ended_crashed; eauto.
Qed.

Lemma privilege_check_spec (s : state Ext) :
  privilege_check h s = (Ret tt, add_stdout (root_warning h) s).
Proof.
  destruct s as [f e o sp c].
  unfold privilege_check, root_warning, bind, os_geteuid, ret, print, add_stdout.
  simpl. destruct (euid h =? 0); simpl; [done|]. by rewrite app_nil_r.
Qed.

Lemma main_unfold (s : state Ext) :
  main h s = run_pipeline h (add_stdout (banner ++ root_warning h) s).
Proof.
  unfold main, bind. simpl. rewrite privilege_check_spec.
  destruct s as [f e o sp c]. unfold add_stdout. simpl.
  by rewrite <- !app_assoc.
Qed.

Lemma main_summary (s : state Ext) :
  ∃ evs, calls (main h s).2 = calls s ++ evs ∧
         ending (main h s).1 (stdout (main h s).2) evs.
Proof.
  rewrite main_unfold.
  destruct (pipeline_summary (add_stdout (banner ++ root_warning h) s))
    as (evs & Hcalls & Hend).
  exists evs. split; [|done]. by rewrite Hcalls.
Qed.

End RunSummary.

Lemma stage_order_NoDup : NoDup stage_order.
Proof. apply (bool_decide_unpack _). by vm_compute. Qed.

(** ** Claims about the orchestrator *)

Lemma stage_order_split before k after :
  stage_order = before ++ k :: after →
  before = take (stage_index k) stage_order ∧
  after = drop (S (stage_index k)) stage_order.
Proof.
  unfold stage_order. intros H.
  do 12 (destruct before as [|? before]; [by simplify_eq/= | simplify_eq/=]).
  by destruct before.
Qed.

Lemma after_not_called before k after (evs : list (Stage * outcome)) :
  stage_order = before ++ k :: after → map fst evs = before ++ [k] →
  ∀ j o, j ∈ after → (j, o) ∉ evs.
Proof.
  intros Hord Hnames j o Hj Hin.
  pose proof stage_order_NoDup as Hnd. rewrite Hord in Hnd.
  rewrite (assoc_L (++) before [k] after : before ++ k :: after = (before ++ [k]) ++ after) in Hnd.
  apply NoDup_app in Hnd as (_ & Hdisj & _).
  apply (Hdisj j); [|done]. rewrite <- Hnames.
  apply list_elem_of_fmap. by exists (j, o).
Qed.

Lemma before_not_again before k after (pre : list (Stage * outcome)) o :
  stage_order = before ++ k :: after → map fst pre = before → (k, o) ∉ pre.
Proof.
  intros Hord Hnames Hin.
  pose proof stage_order_NoDup as Hnd. rewrite Hord in Hnd.
  apply NoDup_app in Hnd as (_ & Hdisj & _).
  apply (Hdisj k); [|by left]. rewrite <- Hnames.
  apply list_elem_of_fmap. by exists (k, o).
Qed.

Lemma failure_report_inj j k :
  is_Some (failure_report k) → failure_report j = failure_report k → j = k.
Proof. intros [msg Hk]. by destruct j, k. Qed.

Lemma tolerated_required k : required k = true → ¬ tolerated (k, Failure).
Proof. intros Hreq [H | [H _]]; simpl in H; [done | by subst]. Qed.

Lemma not_exit_status e : not_exit e → exit_status (Raise e) = 1.
Proof. intros He. destruct e; try done. by destruct (He code). Qed.

(** C1, fail-fast ordering.  In every run of [main], when a required stage
    [k] (any stage but [create_service_file]) returns [False], the stages
    that were called are exactly those up to and including [k], in order; no
    stage after [k] is called; the failure of [k] is the last event of the
    run; the last line on standard output is the failure line of [k], which
    belongs to no other stage; and the run ends there with
    [SystemExit(1)]. *)
Theorem fail_fast_ordering {Ext} (h : HostEnvironment Ext) files (e : Ext) k :
  required k = true →
  (k, Failure) ∈ calls (main h (boot files e)).2 →
  ∃ before after,
    stage_order = before ++ k :: after ∧
    map fst (calls (main h (boot files e)).2) = before ++ [k] ∧
    (∀ j o, j ∈ after → (j, o) ∉ calls (main h (boot files e)).2) ∧
    last (calls (main h (boot files e)).2) = Some (k, Failure) ∧
    last (stdout (main h (boot files e)).2) = failure_report k ∧
    is_Some (failure_report k) ∧
    (∀ j, failure_report j = failure_report k → j = k) ∧
    (main h (boot files e)).1 = Raise (SystemExit 1) ∧
    exit_status (main h (boot files e)).1 = 1.
Proof.
  intros Hreq Hin.
  destruct (main_summary h (boot files e)) as (evs & Hcalls & Hend).
  simpl in Hcalls. rewrite Hcalls in *. clear Hcalls.
  destruct Hend as
    [evs front Hr Hnames Htol Hout
    | before k' after pre Hr Hreq' Hord Hnames Htol Hout Hsome
    | before k' after pre e' Hr He Hord Hnames Htol].
  - rewrite Forall_forall in Htol.
    by destruct (tolerated_required k Hreq (Htol _ Hin)).
  - apply elem_of_app in Hin as [Hin | Hin].
    + rewrite Forall_forall in Htol.
      by destruct (tolerated_required k Hreq (Htol _ Hin)).
    + apply list_elem_of_singleton in Hin. injection Hin as ->.
      exists before, after. split_and!; try done.
      * by rewrite map_app, Hnames.
      * eapply after_not_called; [done|]. by rewrite map_app, Hnames.
      * by rewrite last_snoc.
      * intros j. by apply failure_report_inj.
      * by rewrite Hr.
  - apply elem_of_app in Hin as [Hin | Hin].
    + rewrite Forall_forall in Htol.
      by destruct (tolerated_required k Hreq (Htol _ Hin)).
    + by apply list_elem_of_singleton in Hin.
Qed.

(** Witness for C1: without network, [apt] fails on [mpv]; the run stops in
    [install_system_dependencies]. *)
Lemma fail_fast_ordering_witness :
  ∃ before after,
    stage_order = before ++ InstallSystemDependencies :: after ∧
    map fst (calls (main offline_host (boot pi_files tt)).2)
    = before ++ [InstallSystemDependencies] ∧
    (∀ j o, j ∈ after → (j, o) ∉ calls (main offline_host (boot pi_files tt)).2) ∧
    last (calls (main offline_host (boot pi_files tt)).2)
    = Some (InstallSystemDependencies, Failure) ∧
    last (stdout (main offline_host (boot pi_files tt)).2)
    = failure_report InstallSystemDependencies ∧
    is_Some (failure_report InstallSystemDependencies) ∧
    (∀ j, failure_report j = failure_report InstallSystemDependencies
          → j = InstallSystemDependencies) ∧
    (main offline_host (boot pi_files tt)).1 = Raise (SystemExit 1) ∧
    exit_status (main offline_host (boot pi_files tt)).1 = 1.
Proof.
  apply (fail_fast_ordering offline_host pi_files tt InstallSystemDependencies).
  - reflexivity.
  - vm_compute. apply list_elem_of_further, list_elem_of_here.
Defined.




Lemma called_of_order (evs : list (Stage * outcome)) k :
  map fst evs = stage_order → ∃ o, (k, o) ∈ evs.
Proof.
  intros Hnames.
  assert (k ∈ map fst evs) as Hk.
  { rewrite Hnames. apply (bool_decide_unpack _). by destruct k; vm_compute. }
  apply list_elem_of_fmap in Hk as ([k' o] & -> & Hin). by exists o.
Qed.

(** A run that stopped at stage [k] has no success of some required
    stage on record. *)
Lemma stopped_short before k after (pre : list (Stage * outcome)) o :
  stage_order = before ++ k :: after → map fst pre = before → o ≠ Success →
  ∃ j, required j = true ∧ (j, Success) ∉ pre ++ [(k, o)].
Proof.
  intros Hord Hnames Ho.
  destruct (decide (k = CreateServiceFile)) as [-> | Hne].
  - exists PrintNextSteps. split; [done|]. intros Hin.
    apply elem_of_app in Hin as [Hin | Hin];
      [|apply list_elem_of_singleton in Hin; congruence].
    assert (PrintNextSteps ∈ before) as Hb.
    { rewrite <- Hnames. apply list_elem_of_fmap. by exists (PrintNextSteps, Success). }
    apply stage_order_split in Hord as [-> _].
    apply (bool_decide_pack _) in Hb. by vm_compute in Hb.
  - exists k. split; [by destruct k|]. intros Hin.
    apply elem_of_app in Hin as [Hin | Hin];
      [|apply list_elem_of_singleton in Hin; congruence].
    by destruct (before_not_again _ _ _ _ _ Hord Hnames Hin).
Qed.

(** C3, exit codes.  For every run of [main] the exit status is 0 exactly
    when every required stage has returned [True]; a required stage that
    returns [False], the version check included, makes it 1; and it is
    never anything else. *)
Theorem exit_codes {Ext} (h : HostEnvironment Ext) files (e : Ext) :
  (exit_status (main h (boot files e)).1 = 0
   ↔ ∀ k, required k = true → (k, Success) ∈ calls (main h (boot files e)).2) ∧
  (∀ k, required k = true → (k, Failure) ∈ calls (main h (boot files e)).2 →
        exit_status (main h (boot files e)).1 = 1) ∧
  (exit_status (main h (boot files e)).1 = 0
   ∨ exit_status (main h (boot files e)).1 = 1).
Proof.
  destruct (main_summary h (boot files e)) as (evs & Hcalls & Hend).
  simpl in Hcalls. rewrite Hcalls in *. clear Hcalls.
  destruct Hend as
    [evs front Hr Hnames Htol Hout
    | before k' after pre Hr Hreq' Hord Hnames Htol Hout Hsome
    | before k' after pre e' Hr He Hord Hnames Htol];
    rewrite Hr.
  - change (exit_status (Ret tt)) with 0.
    rewrite Forall_forall in Htol. split_and!; [|intros k Hreq Hin|by left].
    + split; [|done]. intros _ k Hreq.
      destruct (called_of_order evs k Hnames) as [o Hin].
      destruct (Htol _ Hin) as [Ho | [Hk _]]; simpl in *; [by subst|].
      by subst.
    + by destruct (tolerated_required k Hreq (Htol _ Hin)).
  - change (exit_status (Raise (SystemExit 1))) with 1.
    split_and!; [|done|by right].
    split; [done|]. intros Hall.
    destruct (stopped_short before k' after pre Failure Hord Hnames)
      as (j & Hj & Hnot); [done|].
    by destruct (Hnot (Hall j Hj)).
  - rewrite (not_exit_status e' He).
    split_and!; [|done|by right].
    split; [done|]. intros Hall.
    destruct (stopped_short before k' after pre (Crash e') Hord Hnames)
      as (j & Hj & Hnot); [done|].
    by destruct (Hnot (Hall j Hj)).
Qed.

(** C10, the check for root never aborts.  For every effective user id the
    check returns normally and leaves the state as it was but for standard
    output: it records no stage call, adds one warning line when the uid is
    0 and nothing otherwise.  [main] is, for every uid, the same pipeline
    started after the banner and that optional line; the first stage it
    calls is the check of the Python version, and the stages it calls are
    an initial part of the one fixed sequence [stage_order]. *)
Theorem privilege_check_never_aborts {Ext} (h : HostEnvironment Ext)
    (s : state Ext) :
  privilege_check h s = (Ret tt, add_stdout (root_warning h) s) ∧
  calls (privilege_check h s).2 = calls s ∧
  (euid h = 0 →
   root_warning h
   = ["⚠️ Warning: Running as root. Consider running as a regular user."]%string) ∧
  (euid h ≠ 0 → root_warning h = []) ∧
  main h s = run_pipeline h (add_stdout (banner ++ root_warning h) s) ∧
  (∃ o rest,
     calls (main h s).2 = calls s ++ (CheckPythonVersion, o) :: rest ∧
     (CheckPythonVersion :: map fst rest) `prefix_of` stage_order).
Proof.
  split_and!.
  - apply privilege_check_spec.
  - by rewrite privilege_check_spec.
  - intros Hroot. unfold root_warning. by rewrite Hroot.
  - intros Huser. unfold root_warning.
    by destruct (Z.eqb_spec (euid h) 0).
  - apply main_unfold.
  - destruct (main_summary h s) as (evs & -> & Hend).
    assert (map fst evs `prefix_of` stage_order) as Hprefix.
    { destruct Hend as
        [evs front Hr Hnames Htol Hout
        | before k' after pre Hr Hreq' Hord Hnames Htol Hout Hsome
        | before k' after pre e' Hr He Hord Hnames Htol].
      - by rewrite Hnames.
      - exists after. rewrite map_app, Hnames, Hord.
        by rewrite <- app_assoc.
      - exists after. rewrite map_app, Hnames, Hord.
        by rewrite <- app_assoc. }
    assert (evs ≠ []) as Hne.
    { destruct Hend as [evs front Hr Hnames| |]; [by destruct evs| |];
        by destruct pre. }
    destruct evs as [|[k o] rest]; [done|].
    destruct Hprefix as [tl Htl]. unfold stage_order in Htl.
    injection Htl as <- Htl.
    exists o, rest. split; [done|]. exists tl. simpl. by f_equal.
Qed.

(** On the Pi, root and user [pi] go through the same stages; root alone
    gets the warning and, being allowed to write the service file, a
    successful registrar. *)
Example root_and_user_same_sequence :
  map fst (calls (main root_host (boot pi_files tt)).2)
  = map fst (calls (main pi_host (boot pi_files tt)).2) ∧
  (CreateServiceFile, Success) ∈ calls (main root_host (boot pi_files tt)).2 ∧
  (CreateServiceFile, Failure) ∈ calls (main pi_host (boot pi_files tt)).2 ∧
  stdout (main root_host (boot pi_files tt)).2 !! 2%nat
  = Some "⚠️ Warning: Running as root. Consider running as a regular user."%string.
Proof.
  split_and!.
  - by vm_compute.
  - apply (bool_decide_unpack _). by vm_compute.
  - apply (bool_decide_unpack _). by vm_compute.
  - by vm_compute.
Qed.

(** ** Filesystem calls *)

Section FsFacts.

Context {Ext : Type}.
Variable h : HostEnvironment Ext.

Lemma set_fs_same (s : state Ext) : set_fs (fs s) s = s.
Proof. by destruct s. Qed.

Lemma cons_ne {A} (x : A) (l : list A) : x :: l ≠ l.
Proof.
  intros H. apply (f_equal length) in H. simpl in H. lia.
Qed.

Lemma ensure_dir_lookup (p : path) (files : gmap path node) (q : path) :
  ensure_dir h p files !! q
  = match files !! q with
    | Some n => Some n
    | None => if decide (q = p) then Some (new_dir h) else None
    end.
Proof.
  unfold ensure_dir. destruct (files !! p) as [n|] eqn:Hp.
  - destruct (files !! q) eqn:Hq; [done|]. case_decide; [congruence | done].
  - rewrite lookup_insert. case_decide as Hpq.
    + subst q. rewrite Hp. by rewrite decide_True.
    + destruct (files !! q); [done|]. by rewrite decide_False.
Qed.

Lemma ensure_dir_present (p : path) (files : gmap path node) :
  is_Some (files !! p) → ensure_dir h p files = files.
Proof. intros [n Hn]. unfold ensure_dir. by rewrite Hn. Qed.

(** A directory the caller makes and may use hides nothing from him. *)
Lemma denied_ensure_dir (p : path) (files : gmap path node) P :
  new_dir_usable h → denied h (ensure_dir h p files) P = denied h files P.
Proof.
  intros [_ Hx]. unfold ensure_dir. destruct (files !! p) eqn:Hlook; [done|].
  by rewrite denied_insert_fresh.
Qed.

(** Where the directory of [P] is one the caller may write, an entry can
    be made at [P]. *)
Lemma creatable_writable files a x up :
  writable_dir h files (resolve h (MkPath a up)) →
  creatable h files (MkPath a (x :: up)) = inr tt.
Proof.
  intros (d & Hd & Hdir & Hw). unfold creatable.
  by rewrite searched_cons, Hd, Hdir, Hw.
Qed.

(** [os.mkdir] of an absent entry in a directory the caller may search and
    write. *)
Lemma os_mkdir_fresh a x up (s : state Ext) :
  denied h (fs s) (MkPath a (x :: up)) = false →
  fs s !! resolve h (MkPath a (x :: up)) = None →
  writable_dir h (fs s) (resolve h (MkPath a up)) →
  os_mkdir h (MkPath a (x :: up)) 511 s
  = (Ret tt, set_fs (<[resolve h (MkPath a (x :: up)) := new_dir h]> (fs s)) s).
Proof.
  intros Hok Hp Hup. unfold os_mkdir.
  by rewrite Hok, Hp, (creatable_writable _ _ _ _ Hup).
Qed.

(** [os.mkdir] of an entry that is there. *)
Lemma os_mkdir_taken P (s : state Ext) :
  denied h (fs s) P = false → is_Some (fs s !! resolve h P) →
  os_mkdir h P 511 s = (Raise FileExistsError, s).
Proof. intros Hok [n Hn]. unfold os_mkdir. by rewrite Hok, Hn. Qed.

Lemma Path_is_dir_allowed P (s : state Ext) :
  denied h (fs s) P = false →
  Path_is_dir h P s = (Ret (from_option is_dir_node false (fs s !! resolve h P)), s).
Proof.
  intros Hok. unfold Path_is_dir. rewrite (stat_allowed _ _ _ Hok).
  destruct (fs s !! resolve h P); [done|]. by rewrite ignore_error_missing.
Qed.

Lemma Path_exists_allowed P (s : state Ext) :
  denied h (fs s) P = false →
  Path_exists h P s = (Ret (bool_decide (is_Some (fs s !! resolve h P))), s).
Proof.
  intros Hok. unfold Path_exists. rewrite (stat_allowed _ _ _ Hok).
  destruct (fs s !! resolve h P) as [n|].
  - by rewrite bool_decide_eq_true_2 by by eexists.
  - rewrite ignore_error_missing. by rewrite bool_decide_eq_false_2 by by intros [? ?].
Qed.

Lemma Path_exists_denied P (s : state Ext) :
  denied h (fs s) P = true → Path_exists h P s = (Raise PermissionError, s).
Proof. intros Hno. unfold Path_exists. by rewrite (stat_denied _ _ _ Hno). Qed.

Lemma mkdir_parents_cons a x up :
  mkdir_parents h a (x :: up)
  = try_except (os_mkdir h (MkPath a (x :: up)) 511)
      (λ e, match e with
            | FileNotFoundError =>
                Some (mkdir_parents h a up ;;
                      Path_mkdir_exist_ok h (MkPath a (x :: up)))
            | _ => Some (d <- Path_is_dir h (MkPath a (x :: up)) ;;
                         if d then ret tt else raise e)
            end).
Proof. reflexivity. Qed.

(** [mkdir(parents=True, exist_ok=True)] on a path the caller may look up,
    whose parent is a directory he may write: the directory is there
    afterwards and nothing else has changed. *)
Lemma mkdir_parents_one a x rest (s : state Ext) :
  denied h (fs s) (MkPath a (x :: rest)) = false →
  writable_dir h (fs s) (resolve h (MkPath a rest)) →
  (∀ n, fs s !! (x :: resolve h (MkPath a rest)) = Some n → is_dir_node n = true) →
  mkdir_parents h a (x :: rest) s
  = (Ret tt, set_fs (ensure_dir h (x :: resolve h (MkPath a rest)) (fs s)) s).
Proof.
  set (p0 := resolve h (MkPath a rest)). intros Hok Hup Hp.
  rewrite mkdir_parents_cons. unfold try_except.
  destruct (fs s !! (x :: p0)) as [n|] eqn:Hlook.
  - rewrite os_mkdir_taken; [|done|by rewrite resolve_cons; fold p0; rewrite Hlook].
    unfold bind. rewrite Path_is_dir_allowed by done.
    rewrite resolve_cons. fold p0. rewrite Hlook. cbn [from_option].
    rewrite (Hp n eq_refl). unfold ret.
    rewrite ensure_dir_present by (by rewrite Hlook).
    by rewrite set_fs_same.
  - rewrite os_mkdir_fresh; [|done|by rewrite resolve_cons|done].
    rewrite resolve_cons. fold p0. unfold ensure_dir. by rewrite Hlook.
Qed.

(** The same two levels deep: a missing parent is made first. *)
Lemma mkdir_parents_two a x y rest (s : state Ext) :
  denied h (fs s) (MkPath a (x :: y :: rest)) = false →
  writable_dir h (fs s) (resolve h (MkPath a rest)) →
  new_dir_usable h →
  absent_or_writable_dir h (fs s) (y :: resolve h (MkPath a rest)) →
  (∀ n, fs s !! (x :: y :: resolve h (MkPath a rest)) = Some n →
        is_dir_node n = true) →
  (is_Some (fs s !! (x :: y :: resolve h (MkPath a rest))) →
   is_Some (fs s !! (y :: resolve h (MkPath a rest)))) →
  mkdir_parents h a (x :: y :: rest) s
  = (Ret tt,
     set_fs (ensure_dir h (x :: y :: resolve h (MkPath a rest))
               (ensure_dir h (y :: resolve h (MkPath a rest)) (fs s))) s).
Proof.
  set (p0 := resolve h (MkPath a rest)).
  intros Hok Hup [Hnew_w Hnew_x] Hp1 Hp2 Htree.
  assert (resolve h (MkPath a (y :: rest)) = y :: p0) as Hr1
    by apply resolve_cons.
  assert (resolve h (MkPath a (x :: y :: rest)) = x :: y :: p0) as Hr2
    by (by rewrite !resolve_cons).
  destruct (fs s !! (x :: y :: p0)) as [n|] eqn:Hlook2.
  - (* the directory is there *)
    destruct Htree as [d Hd]; [by eexists|].
    rewrite mkdir_parents_one; rewrite ?Hr1.
    + rewrite (ensure_dir_present (y :: p0)) by (by rewrite Hd). done.
    + done.
    + destruct (Hp1 d Hd). by exists d.
    + intros n' Hn'. rewrite Hlook2 in Hn'. by apply Hp2.
  - destruct (fs s !! (y :: p0)) as [d|] eqn:Hlook1.
    + (* the parent is there *)
      rewrite mkdir_parents_one; rewrite ?Hr1.
      * rewrite (ensure_dir_present (y :: p0)) by (by rewrite Hlook1). done.
      * done.
      * destruct (Hp1 d Hlook1). by exists d.
      * intros n'. by rewrite Hlook2.
    + (* neither is there *)
      destruct Hup as (d0 & Hd0 & Hdir0 & Hw0).
      rewrite mkdir_parents_cons. unfold try_except at 1. unfold os_mkdir at 1.
      rewrite Hok, Hr2, Hlook2. unfold creatable.
      rewrite !searched_cons, Hr1, Hlook1. cbn [missing].
      rewrite Hlook1. fold p0. rewrite Hd0, Hdir0.
      unfold bind at 1.
      rewrite mkdir_parents_one; fold p0;
        [|by eapply denied_up|by exists d0|by rewrite Hlook1].
      unfold ensure_dir at 1. rewrite Hlook1.
      unfold Path_mkdir_exist_ok, try_except.
      rewrite os_mkdir_fresh.
      * rewrite Hr2. unfold ensure_dir at 2. rewrite Hlook1.
        unfold ensure_dir. rewrite lookup_insert_ne, Hlook2; [by destruct s|].
        intros Heq. symmetry in Heq. by apply cons_ne in Heq.
      * cbn [fs set_fs]. by rewrite denied_insert_fresh.
      * cbn [fs set_fs]. rewrite Hr2, lookup_insert_ne; [done|].
        intros Heq. symmetry in Heq. by apply cons_ne in Heq.
      * cbn [fs set_fs]. rewrite Hr1. exists (new_dir h).
        by rewrite lookup_insert_eq.
Qed.

End FsFacts.

(** ** Making directories removes nothing *)

Section KeepsFiles.

Context {Ext : Type}.
Variable h : HostEnvironment Ext.

Lemma keeps_ret {A} (a : A) : keeps_files (ret (Ext:=Ext) a).
Proof. by intros s p n. Qed.

Lemma keeps_raise {A} e : keeps_files (raise (Ext:=Ext) (A:=A) e).
Proof. by intros s p n. Qed.

Lemma keeps_bind {A B} (m : M Ext A) (k : A → M Ext B) :
  keeps_files m → (∀ a, keeps_files (k a)) → keeps_files (bind m k).
Proof.
  intros Hm Hk s p n Hlook. unfold bind.
  specialize (Hm s p n Hlook). destruct (m s) as [[a|e] s1]; [|done].
  by apply Hk.
Qed.

Lemma keeps_try_except {A} (m : M Ext A) handler :
  keeps_files m → (∀ e k, handler e = Some k → keeps_files k) →
  keeps_files (try_except m handler).
Proof.
  intros Hm Hh s p n Hlook. unfold try_except.
  specialize (Hm s p n Hlook). destruct (m s) as [[a|e] s1]; [done|].
  destruct (handler e) as [k|] eqn:Hk; [|done]. by eapply Hh.
Qed.

Lemma keeps_if {A} (b : bool) (m1 m2 : M Ext A) :
  keeps_files m1 → keeps_files m2 → keeps_files (if b then m1 else m2).
Proof. by destruct b. Qed.

Lemma keeps_print line : keeps_files (print (Ext:=Ext) line).
Proof. by intros s p n. Qed.

Lemma keeps_Path_is_dir P : keeps_files (Path_is_dir h P).
Proof.
  intros s p n Hlook. unfold Path_is_dir.
  destruct (stat h (fs s) P) as [e|?]; [destruct (ignore_error e)|]; done.
Qed.

Lemma keeps_os_mkdir P mode : keeps_files (os_mkdir h P mode).
Proof.
  intros s p n Hlook. unfold os_mkdir.
  destruct (denied h (fs s) P); [done|].
  destruct (fs s !! resolve h P) eqn:Hq; [done|].
  destruct (creatable h (fs s) P) as [e|[]]; [done|].
  cbn [snd]. rewrite fs_set_fs, lookup_insert_ne; [done|]. congruence.
Qed.

Lemma keeps_Path_mkdir_exist_ok P : keeps_files (Path_mkdir_exist_ok h P).
Proof.
  unfold Path_mkdir_exist_ok.
  apply keeps_try_except; [apply keeps_os_mkdir|].
  intros e k Hk.
  destruct e; simplify_eq;
    (apply keeps_bind; [apply keeps_Path_is_dir|]; intros d;
     apply keeps_if; [apply keeps_ret | apply keeps_raise]).
Qed.

Lemma keeps_mkdir_parents a parts : keeps_files (mkdir_parents h a parts).
Proof.
  induction parts as [|x up IH].
  - apply keeps_try_except; [apply keeps_os_mkdir|].
    intros e k Hk.
    destruct e; simplify_eq;
      (apply keeps_bind; [apply keeps_Path_is_dir|]; intros d;
       apply keeps_if; [apply keeps_ret | apply keeps_raise]).
  - rewrite mkdir_parents_cons.
    apply keeps_try_except; [apply keeps_os_mkdir|].
    intros e k Hk.
    destruct e; simplify_eq;
      try (apply keeps_bind; [apply keeps_Path_is_dir|]; intros d;
           apply keeps_if; [apply keeps_ret | apply keeps_raise]).
    apply keeps_bind; [exact IH|]. intros _. apply keeps_Path_mkdir_exist_ok.
Qed.

Lemma keeps_make_directories l : keeps_files (make_directories h l).
Proof.
  induction l as [|directory rest IH].
  - apply keeps_ret.
  - change (make_directories h (directory :: rest))
      with (Path_mkdir_parents h (Path directory) ;;
            print ("✅ Created directory: " ++ directory)%string ;;
            make_directories h rest).
    apply keeps_bind; [apply keeps_mkdir_parents|]. intros _.
    apply keeps_bind; [apply keeps_print|]. intros _. exact IH.
Qed.

(** In every state, whether it returns or raises, [create_directories]
    leaves every entry of the filesystem where and as it was. *)
Lemma create_directories_keeps_files : keeps_files (create_directories h).
Proof.
  unfold create_directories.
  apply keeps_bind; [apply keeps_print|]. intros _.
  apply keeps_bind; [apply keeps_make_directories|]. intros _.
  apply keeps_ret.
Qed.

End KeepsFiles.

(** ** Claims about single stages *)

Section StageClaims.

Context {Ext : Type}.
Variable h : HostEnvironment Ext.

Lemma Path_exists_bind {B} P (k : bool → M Ext B) (s : state Ext) :
  denied h (fs s) P = false →
  (present <- Path_exists h P ;; k present) s
  = k (bool_decide (is_Some (fs s !! resolve h P))) s.
Proof. intros Hok. unfold bind. by rewrite Path_exists_allowed. Qed.

Lemma Path_exists_bind_denied {B} P (k : bool → M Ext B) (s : state Ext) :
  denied h (fs s) P = true →
  (present <- Path_exists h P ;; k present) s = (Raise PermissionError, s).
Proof. intros Hno. unfold bind. by rewrite Path_exists_denied. Qed.

Lemma run_command_spawned command description (s : state Ext) :
  spawned (run_command h command description s).2 = spawned s ++ [command].
Proof.
  unfold run_command. rewrite print_bind.
  unfold try_except, bind, subprocess_run. cbn [fs ext add_stdout].
  destruct (shell h command (fs s) (ext s)) as [[c files] e].
  destruct (captured c); [destruct (returncode c =? 0)|]; reflexivity.
Qed.

End StageClaims.

(** C5 as stated fails: on the Pi, with a [venv] in place and a working
    directory that has lost its search bit, [Path("venv").exists()] raises
    [PermissionError] and the stage does not return [True]. *)
Lemma create_virtual_environment_counterexample :
  ¬ (∀ (h : HostEnvironment unit) (s : state unit),
       is_Some (fs s !! resolve h (Path "venv")) →
       (create_virtual_environment h s).1 = Ret true)
  ∧ is_Some (locked_cwd_files !! resolve pi_host (Path "venv"))
  ∧ (create_virtual_environment pi_host (boot locked_cwd_files tt)).1
    = Raise PermissionError.
Proof.
  assert (is_Some (locked_cwd_files !! resolve pi_host (Path "venv"))) as Hvenv
    by (vm_compute; by eexists).
  assert ((create_virtual_environment pi_host (boot locked_cwd_files tt)).1
          = Raise PermissionError) as Hraise by (by vm_compute).
  split_and!; [|exact Hvenv|exact Hraise].
  intros Hclaim.
  specialize (Hclaim pi_host (boot locked_cwd_files tt) Hvenv).
  rewrite Hraise in Hclaim. discriminate Hclaim.
Qed.

(** C5 amended, idempotency of the runtime isolator.  Where the caller may
    search the working directory: when [venv] exists,
    [create_virtual_environment] returns [True] and is a no-op but for two
    lines of output (no command is spawned, and the filesystem and the rest
    of the world are as before); when [venv] is absent it spawns the one
    command [python3 -m venv venv].  In every state a command is spawned
    only when [venv] is absent; and where the working directory may not be
    searched the stage raises [PermissionError] after its banner. *)
Theorem create_virtual_environment_idempotent {Ext} (h : HostEnvironment Ext)
    (s : state Ext) :
  (denied h (fs s) (Path "venv") = false →
   is_Some (fs s !! resolve h (Path "venv")) →
   create_virtual_environment h s
   = (Ret true,
      add_stdout [ (nl ++ "🔧 Setting up Python virtual environment...")%string;
                   "✅ Virtual environment already exists"%string ] s) ∧
   spawned (create_virtual_environment h s).2 = spawned s ∧
   fs (create_virtual_environment h s).2 = fs s ∧
   ext (create_virtual_environment h s).2 = ext s) ∧
  (spawned (create_virtual_environment h s).2 ≠ spawned s →
   fs s !! resolve h (Path "venv") = None) ∧
  (denied h (fs s) (Path "venv") = false →
   fs s !! resolve h (Path "venv") = None →
   spawned (create_virtual_environment h s).2
   = spawned s ++ ["python3 -m venv venv"%string]) ∧
  (denied h (fs s) (Path "venv") = true →
   create_virtual_environment h s
   = (Raise PermissionError,
      add_stdout [(nl ++ "🔧 Setting up Python virtual environment...")%string] s)).
Proof.
  assert (denied h (fs s) (Path "venv") = false →
          is_Some (fs s !! resolve h (Path "venv")) →
          create_virtual_environment h s
          = (Ret true,
             add_stdout [ (nl ++ "🔧 Setting up Python virtual environment...")%string;
                          "✅ Virtual environment already exists"%string ] s))
    as Hpresent.
  { intros Hok Hvenv. unfold create_virtual_environment.
    rewrite print_bind. cbv zeta. rewrite Path_exists_bind by done.
    rewrite bool_decide_eq_true_2 by exact Hvenv.
    rewrite print_bind, add_stdout_add. reflexivity. }
  assert (denied h (fs s) (Path "venv") = true →
          create_virtual_environment h s
          = (Raise PermissionError,
             add_stdout [(nl ++ "🔧 Setting up Python virtual environment...")%string] s))
    as Hdenied.
  { intros Hno. unfold create_virtual_environment.
    rewrite print_bind. cbv zeta. by rewrite Path_exists_bind_denied. }
  split_and!.
  - intros Hok Hvenv. rewrite (Hpresent Hok Hvenv). done.
  - intros Hspawn.
    destruct (denied h (fs s) (Path "venv")) eqn:Hd.
    { destruct Hspawn. by rewrite Hdenied. }
    destruct (fs s !! resolve h (Path "venv")) eqn:Hlook; [|done].
    destruct Hspawn. by rewrite Hpresent.
  - intros Hok Habsent. unfold create_virtual_environment.
    rewrite print_bind. cbv zeta. rewrite Path_exists_bind by done.
    rewrite bool_decide_eq_false_2
      by (cbn [fs add_stdout]; rewrite Habsent; by intros [? ?]).
    unfold bind at 1.
    pose proof (run_command_spawned h "python3 -m venv venv"
                  "Creating virtual environment"
                  (add_stdout [(nl ++ "🔧 Setting up Python virtual environment...")%string] s))
      as Hrun.
    destruct (run_command h "python3 -m venv venv" "Creating virtual environment" _)
      as [[[]|e] s1]; exact Hrun.
  - exact Hdenied.
Qed.

(** Witness for C5 amended: on a machine that has [venv], the stage spawns
    nothing. *)
Lemma create_virtual_environment_idempotent_witness :
  spawned (create_virtual_environment pi_host (boot venv_files tt)).2 = [].
Proof.
  destruct (create_virtual_environment_idempotent pi_host (boot venv_files tt))
    as [Hpresent _].
  destruct Hpresent as (_ & Hspawned & _).
  - by vm_compute.
  - vm_compute. by eexists.
  - exact Hspawned.
Defined.

(** C7 as stated fails: on the Pi, with a [config] directory that belongs
    to root and is closed to everyone else, [settings_file.exists()] raises
    [PermissionError] and the stage does not return [True]. *)
Lemma setup_configuration_counterexample :
  ¬ (∀ (h : HostEnvironment unit) (s : state unit),
       (setup_configuration h s).1 = Ret true)
  ∧ (setup_configuration pi_host (boot locked_config_files tt)).1
    = Raise PermissionError.
Proof.
  split.
  - intros Hclaim.
    specialize (Hclaim pi_host (boot locked_config_files tt)).
    vm_compute in Hclaim. discriminate Hclaim.
  - by vm_compute.
Qed.

(** C7 amended, the config seeder writes nothing.  In every state, whether
    it returns or raises, [setup_configuration] leaves the filesystem, the
    world of the shell and the list of spawned commands as they were.
    Where the caller may search the working directory, and [config] if it
    is a directory, the stage returns [True] having printed its banner and
    one line for each of [config/settings.yaml] and
    [config/credentials.yaml] that is absent; otherwise the first
    [exists()] raises [PermissionError]. *)
Theorem setup_configuration_writes_nothing {Ext} (h : HostEnvironment Ext)
    (s : state Ext) :
  fs (setup_configuration h s).2 = fs s ∧
  ext (setup_configuration h s).2 = ext s ∧
  spawned (setup_configuration h s).2 = spawned s ∧
  (denied h (fs s) (Path "config/settings.yaml") = false →
   setup_configuration h s
   = (Ret true,
      add_stdout
        ([(nl ++ "⚙️ Setting up configuration...")%string]
         ++ (if bool_decide (is_Some (fs s !! resolve h (Path "config/settings.yaml")))
             then [] else ["📝 Creating default settings.yaml..."%string])
         ++ (if bool_decide (is_Some (fs s !! resolve h (Path "config/credentials.yaml")))
             then [] else ["📝 Creating default credentials.yaml..."%string]))
        s)) ∧
  (denied h (fs s) (Path "config/settings.yaml") = true →
   setup_configuration h s
   = (Raise PermissionError,
      add_stdout [(nl ++ "⚙️ Setting up configuration...")%string] s)).
Proof.
  assert (denied h (fs s) (Path "config/settings.yaml") = false →
    setup_configuration h s
  = (Ret true,
     add_stdout
       ([(nl ++ "⚙️ Setting up configuration...")%string]
        ++ (if bool_decide (is_Some (fs s !! resolve h (Path "config/settings.yaml")))
            then [] else ["📝 Creating default settings.yaml..."%string])
        ++ (if bool_decide (is_Some (fs s !! resolve h (Path "config/credentials.yaml")))
            then [] else ["📝 Creating default credentials.yaml..."%string]))
       s)) as Hallowed.
  { intros Hok. unfold setup_configuration. cbv zeta.
    change (joinpath (Path "config") "settings.yaml")
      with (Path "config/settings.yaml").
    change (joinpath (Path "config") "credentials.yaml")
      with (Path "config/credentials.yaml").
    assert (∀ out, denied h (fs (add_stdout out s)) (Path "config/credentials.yaml")
                   = false) as Hok2 by (intros out; exact Hok).
    rewrite print_bind, Path_exists_bind by exact Hok.
    cbn [fs add_stdout].
    destruct (bool_decide (is_Some (fs s !! resolve h (Path "config/settings.yaml"))));
      cbn [negb]; unfold bind at 1; [unfold ret at 1 | rewrite print_spec, add_stdout_add];
      (rewrite Path_exists_bind by apply Hok2); cbn [fs add_stdout];
      destruct (bool_decide (is_Some (fs s !! resolve h (Path "config/credentials.yaml"))));
      cbn [negb]; unfold bind at 1; [unfold ret at 1 | rewrite print_spec, add_stdout_add
                                    | unfold ret at 1 | rewrite print_spec, add_stdout_add];
      reflexivity. }
  assert (denied h (fs s) (Path "config/settings.yaml") = true →
          setup_configuration h s
          = (Raise PermissionError,
             add_stdout [(nl ++ "⚙️ Setting up configuration...")%string] s))
    as Hdenied.
  { intros Hno. unfold setup_configuration. cbv zeta.
    change (joinpath (Path "config") "settings.yaml")
      with (Path "config/settings.yaml").
    rewrite print_bind. by rewrite Path_exists_bind_denied. }
  destruct (denied h (fs s) (Path "config/settings.yaml")) eqn:Hd.
  - rewrite (Hdenied eq_refl). done.
  - rewrite (Hallowed eq_refl). done.
Qed.

(** Witness for C7 amended: on the Pi, where [config] is not there yet,
    both files are reported absent. *)
Lemma setup_configuration_writes_nothing_witness :
  setup_configuration pi_host (boot pi_files tt)
  = (Ret true,
     add_stdout [ (nl ++ "⚙️ Setting up configuration...")%string;
                  "📝 Creating default settings.yaml..."%string;
                  "📝 Creating default credentials.yaml..."%string ]
       (boot pi_files tt)).
Proof.
  destruct (setup_configuration_writes_nothing pi_host (boot pi_files tt))
    as (_ & _ & _ & Hallowed & _).
  rewrite Hallowed by (by vm_compute). reflexivity.
Defined.


Section PermissionFacts.

Context {Ext : Type}.
Variable h : HostEnvironment Ext.

(** [if P.exists(): P.chmod(mode); print(line)], followed by [k], where
    the caller may look [P] up and the entry, if any, may be re-moded by
    him. *)
Lemma chmod_if_exists {B} P mode line (k : M Ext B) (s : state Ext) :
  denied h (fs s) P = false →
  (∀ n, fs s !! resolve h P = Some n → may_chmod (euid h) n = true) →
  ∃ out,
    (present <- Path_exists h P ;;
     (if present then Path_chmod h P mode ;; print line else ret tt) ;;
     k) s
    = k (add_stdout out
           (set_fs (alter (with_mode mode) (resolve h P) (fs s)) s)).
Proof.
  intros Hok Hown. rewrite Path_exists_bind by done.
  destruct (fs s !! resolve h P) as [n|] eqn:Hlook.
  - exists [line]. rewrite bool_decide_eq_true_2 by by eexists.
    unfold bind, Path_chmod. rewrite (stat_allowed _ _ _ Hok), Hlook, (Hown n eq_refl).
    rewrite print_spec. do 3 f_equal.
    apply map_eq. intros q. rewrite lookup_alter, lookup_insert.
    case_decide; [subst q; by rewrite Hlook | done].
  - exists []. rewrite bool_decide_eq_false_2 by by intros [? ?].
    unfold bind, ret. rewrite add_stdout_nil. f_equal.
    rewrite <- (set_fs_same s) at 1. f_equal.
    apply map_eq. intros q. rewrite lookup_alter.
    case_decide; [subst q; by rewrite Hlook | done].
Qed.

(** A change of mode of an entry of the working directory does not change
    what the caller may look up in the working directory. *)
Lemma denied_alter_sibling files (x y : string) f :
  denied h (alter f (x :: cwd h) files) (MkPath Relative [y])
  = denied h files (MkPath Relative [y]).
Proof.
  apply denied_ext. intros d Hd. rewrite lookup_alter_ne; [done|].
  cbn in Hd. apply list_elem_of_singleton in Hd. subst d. apply cons_ne.
Qed.

End PermissionFacts.

(** C9 as stated fails: on the Pi, after a run under [sudo] has left a
    [logs] directory that belongs to root, [setup_permissions] does not
    return [True]; [chmod] raises [PermissionError].  It raises as well
    where the working directory has lost its search bit: there
    [main_py.exists()] itself raises. *)
Lemma setup_permissions_counterexample :
  ¬ (∀ (h : HostEnvironment unit) (s : state unit),
       (setup_permissions h s).1 = Ret true)
  ∧ (setup_permissions pi_host (boot sudo_leftover_files tt)).1
    = Raise PermissionError
  ∧ (setup_permissions pi_host (boot locked_cwd_files tt)).1
    = Raise PermissionError.
Proof.
  split_and!.
  - intros Hclaim.
    specialize (Hclaim pi_host (boot sudo_leftover_files tt)).
    vm_compute in Hclaim. discriminate Hclaim.
  - by vm_compute.
  - by vm_compute.
Qed.

(** C9 amended, the defensive skip of the permission setter.  In every
    state where the caller may search the working directory and each of
    [main.py] and [logs] is absent or may be re-moded by him (he is its
    owner, or root), [setup_permissions] returns [True]; an artifact that
    is absent stays absent, one that exists keeps its kind, content and
    owner and gets mode [0o755]; nothing else changes. *)
Theorem setup_permissions_defensive_skip {Ext} (h : HostEnvironment Ext)
    (s : state Ext) :
  denied h (fs s) (Path "main.py") = false →
  (∀ n, fs s !! resolve h (Path "main.py") = Some n → may_chmod (euid h) n = true) →
  (∀ n, fs s !! resolve h (Path "logs") = Some n → may_chmod (euid h) n = true) →
  ∃ s',
    setup_permissions h s = (Ret true, s') ∧
    fs s' !! resolve h (Path "main.py")
    = with_mode 493 <$> fs s !! resolve h (Path "main.py") ∧
    fs s' !! resolve h (Path "logs")
    = with_mode 493 <$> fs s !! resolve h (Path "logs") ∧
    (∀ p, p ≠ resolve h (Path "main.py") → p ≠ resolve h (Path "logs") →
          fs s' !! p = fs s !! p) ∧
    ext s' = ext s ∧ spawned s' = spawned s.
Proof.
  intros Hok Hmain Hlogs.
  assert (resolve h (Path "main.py") ≠ resolve h (Path "logs")) as Hne.
  { change (("main.py" :: cwd h) ≠ ("logs" :: cwd h)). by intros [=]. }
  unfold setup_permissions. rewrite print_bind.
  destruct (chmod_if_exists h (Path "main.py") 493 "✅ Made main.py executable"
              (present <- Path_exists h (Path "logs") ;;
               (if present
                then Path_chmod h (Path "logs") 493 ;;
                     print "✅ Set logs directory permissions"
                else ret tt) ;;
               ret true)
              (add_stdout [(nl ++ "🔐 Setting up permissions...")%string] s))
    as [out1 Hstep1]; [exact Hok|exact Hmain|].
  cbv zeta. rewrite Hstep1. clear Hstep1.
  destruct (chmod_if_exists h (Path "logs") 493 "✅ Set logs directory permissions"
              (ret true)
              (add_stdout out1
                 (set_fs (alter (with_mode 493) (resolve h (Path "main.py"))
                            (fs (add_stdout [(nl ++ "🔐 Setting up permissions...")%string] s)))
                    (add_stdout [(nl ++ "🔐 Setting up permissions...")%string] s))))
    as [out2 Hstep2].
  { cbn [fs add_stdout set_fs].
    change (Path "logs") with (MkPath Relative ["logs"]).
    change (resolve h (Path "main.py")) with ("main.py" :: cwd h).
    rewrite denied_alter_sibling. exact Hok. }
  { cbn [fs add_stdout set_fs]. intros n. rewrite lookup_alter_ne by done.
    apply Hlogs. }
  rewrite Hstep2. clear Hstep2. unfold ret.
  eexists. split; [reflexivity|]. cbn [fs ext spawned add_stdout set_fs].
  split_and!; try done.
  - rewrite lookup_alter_ne by done. by rewrite lookup_alter_eq.
  - by rewrite lookup_alter_eq, lookup_alter_ne.
  - intros p Hp1 Hp2. by rewrite !lookup_alter_ne.
Qed.

(** Witness for C9 amended: user [pi] owns [main.py]; [logs] is not there
    yet. *)
Lemma setup_permissions_defensive_skip_witness :
  ∃ s',
    setup_permissions pi_host (boot pi_files tt) = (Ret true, s') ∧
    fs s' !! resolve pi_host (Path "main.py")
    = with_mode 493 <$> pi_files !! resolve pi_host (Path "main.py") ∧
    fs s' !! resolve pi_host (Path "logs")
    = with_mode 493 <$> pi_files !! resolve pi_host (Path "logs") ∧
    (∀ p, p ≠ resolve pi_host (Path "main.py") → p ≠ resolve pi_host (Path "logs") →
          fs s' !! p = pi_files !! p) ∧
    ext s' = tt ∧ spawned s' = [].
Proof.
  apply (setup_permissions_defensive_skip pi_host (boot pi_files tt)).
  - by vm_compute.
  - vm_compute. intros n [= <-]. reflexivity.
  - vm_compute. intros n [=].
Defined.

Section DirectoryFacts.

Context {Ext : Type}.
Variable h : HostEnvironment Ext.

Lemma ensure_dir_mono (p q : path) (files : gmap path node) :
  is_Some (files !! q) → is_Some (ensure_dir h p files !! q).
Proof. intros [n Hn]. rewrite ensure_dir_lookup, Hn. by eexists. Qed.

Lemma dirs_ready_ensure (p : path) (files : gmap path node) :
  new_dir_usable h →
  dirs_ready h files →
  (∀ x, p = x :: "web" :: cwd h → is_Some (files !! ("web" :: cwd h))) →
  dirs_ready h (ensure_dir h p files).
Proof.
  intros [Hnew Hnewx] (Hcwd & Hdirs & Hweb & Htree & Hok) Hp. split_and!.
  - destruct Hcwd as (d & Hd & Hdir & Hw). exists d.
    by rewrite ensure_dir_lookup, Hd.
  - intros q n Hq. rewrite ensure_dir_lookup.
    destruct (files !! q) as [n'|] eqn:Hlook.
    + intros [= <-]. by eapply Hdirs.
    + case_decide; [|done]. by intros [= <-].
  - intros n. rewrite ensure_dir_lookup.
    destruct (files !! ("web" :: cwd h)) as [n'|] eqn:Hlook.
    + intros [= <-]. by apply Hweb.
    + case_decide; [|done]. by intros [= <-].
  - intros x. rewrite (ensure_dir_lookup h p files (x :: "web" :: cwd h)).
    destruct (files !! (x :: "web" :: cwd h)) as [n'|] eqn:Hlook.
    + intros _. apply ensure_dir_mono, (Htree x). by rewrite Hlook.
    + case_decide as Heq; [|by intros [? ?]].
      intros _. apply ensure_dir_mono, (Hp x). done.
  - unfold ensure_dir. destruct (files !! p) eqn:Hlook; [done|].
    by rewrite denied_insert_fresh.
Qed.

Lemma make_directories_cons directory rest :
  make_directories h (directory :: rest)
  = (Path_mkdir_parents h (Path directory) ;;
     print ("✅ Created directory: " ++ directory)%string ;;
     make_directories h rest).
Proof. reflexivity. Qed.

Ltac solve_elem :=
  repeat first [ apply list_elem_of_here | apply list_elem_of_further ].

(** What the caller may look up in [web] he may look up in the working
    directory. *)
Lemma dirs_ready_top (files : gmap path node) x :
  dirs_ready h files → denied h files (MkPath Relative [x]) = false.
Proof.
  intros (_ & _ & _ & _ & Hok).
  change (Path "web/static") with (MkPath Relative ["static"; "web"]) in Hok.
  apply denied_up in Hok. exact Hok.
Qed.

Lemma dirs_ready_web (files : gmap path node) x :
  dirs_ready h files → denied h files (MkPath Relative [x; "web"]) = false.
Proof. by intros (_ & _ & _ & _ & Hok). Qed.

(** One turn of the loop for a directory directly below the working
    directory. *)
Lemma mkdir_top {B} x line (k : M Ext B) (s : state Ext) :
  dirs_ready h (fs s) → x :: cwd h ∈ created_directories h →
  (Path_mkdir_parents h (MkPath Relative [x]) ;; print line ;; k) s
  = k (add_stdout [line] (set_fs (ensure_dir h (x :: cwd h) (fs s)) s)).
Proof.
  intros Hready Hx. pose proof (dirs_ready_top _ x Hready) as Hok.
  destruct Hready as (Hcwd & Hdirs & _). unfold bind at 1.
  unfold Path_mkdir_parents. cbn [p_anchor p_parts].
  rewrite mkdir_parents_one; [by rewrite print_bind|exact Hok|exact Hcwd|].
  intros n. by apply Hdirs.
Qed.

(** One turn of the loop for a directory below [web]. *)
Lemma mkdir_web {B} x line (k : M Ext B) (s : state Ext) :
  new_dir_usable h →
  dirs_ready h (fs s) → x :: "web" :: cwd h ∈ created_directories h →
  (Path_mkdir_parents h (MkPath Relative [x; "web"]) ;; print line ;; k) s
  = k (add_stdout [line]
         (set_fs (ensure_dir h (x :: "web" :: cwd h)
                    (ensure_dir h ("web" :: cwd h) (fs s))) s)).
Proof.
  intros Hnew Hready Hx. pose proof (dirs_ready_web _ x Hready) as Hok.
  destruct Hready as (Hcwd & Hdirs & Hweb & Htree & _). unfold bind at 1.
  unfold Path_mkdir_parents. cbn [p_anchor p_parts].
  rewrite mkdir_parents_two; [by rewrite print_bind|exact Hok|exact Hcwd|exact Hnew
                             |exact Hweb| |apply Htree].
  intros n. by apply Hdirs.
Qed.

Lemma created_directories_eq :
  created_directories h
  = [ "web" :: cwd h; "logs" :: cwd h; "config" :: cwd h; "music" :: cwd h;
      "static" :: "web" :: cwd h; "templates" :: "web" :: cwd h;
      "data" :: cwd h ].
Proof. reflexivity. Qed.

(** Brings a state back to the shape [add_stdout out (set_fs files s)]. *)
Ltac norm_state :=
  rewrite ?fs_add_stdout, ?fs_set_fs, ?set_fs_add_stdout, ?set_fs_set_fs,
    ?add_stdout_add.

Lemma make_directories_run (s : state Ext) :
  new_dir_usable h →
  dirs_ready h (fs s) →
  ∃ out, make_directories h directories s
         = (Ret tt, add_stdout out (set_fs (after_create h (fs s)) s)).
Proof.
  intros Hnew Hready. set (f := fs s) in *.
  unfold directories.
  rewrite !make_directories_cons.
  change (Path "logs") with (MkPath Relative ["logs"]).
  change (Path "config") with (MkPath Relative ["config"]).
  change (Path "music") with (MkPath Relative ["music"]).
  change (Path "web/static") with (MkPath Relative ["static"; "web"]).
  change (Path "web/templates") with (MkPath Relative ["templates"; "web"]).
  change (Path "data") with (MkPath Relative ["data"]).
  pose proof created_directories_eq as Hlist.
  assert (dirs_ready h (ensure_dir h ("logs" :: cwd h) f)) as H1.
  { apply dirs_ready_ensure; [done..|].
    intros x [= _ Hbad]. symmetry in Hbad. by apply cons_ne in Hbad. }
  assert (dirs_ready h (ensure_dir h ("config" :: cwd h)
                        (ensure_dir h ("logs" :: cwd h) f))) as H2.
  { apply dirs_ready_ensure; [done..|].
    intros x [= _ Hbad]. symmetry in Hbad. by apply cons_ne in Hbad. }
  assert (dirs_ready h (ensure_dir h ("music" :: cwd h)
                        (ensure_dir h ("config" :: cwd h)
                           (ensure_dir h ("logs" :: cwd h) f)))) as H3.
  { apply dirs_ready_ensure; [done..|].
    intros x [= _ Hbad]. symmetry in Hbad. by apply cons_ne in Hbad. }
  assert (∀ x files, dirs_ready h files →
            dirs_ready h (ensure_dir h (x :: "web" :: cwd h)
                          (ensure_dir h ("web" :: cwd h) files))) as Hweb.
  { intros x files Hf. apply dirs_ready_ensure; [done| |].
    - apply dirs_ready_ensure; [done..|].
      intros y [= _ Hbad]. symmetry in Hbad. by apply cons_ne in Hbad.
    - intros _ _. unfold ensure_dir at 1.
      destruct (files !! ("web" :: cwd h)) eqn:Hw; [by rewrite Hw|].
      rewrite lookup_insert_eq. by eexists. }
  rewrite mkdir_top; [|exact Hready|rewrite Hlist; solve_elem].
  fold f. norm_state.
  rewrite mkdir_top; [|exact H1|rewrite Hlist; solve_elem].
  norm_state.
  rewrite mkdir_top; [|exact H2|rewrite Hlist; solve_elem].
  norm_state.
  rewrite mkdir_web; [|exact Hnew|exact H3|rewrite Hlist; solve_elem].
  norm_state.
  rewrite mkdir_web; [|exact Hnew|by apply Hweb|rewrite Hlist; solve_elem].
  norm_state.
  rewrite mkdir_top; [|by apply Hweb, Hweb|rewrite Hlist; solve_elem].
  norm_state.
  eexists. reflexivity.
Qed.

Lemma create_directories_run (s : state Ext) :
  new_dir_usable h →
  dirs_ready h (fs s) →
  ∃ out, create_directories h s
         = (Ret true, add_stdout out (set_fs (after_create h (fs s)) s)).
Proof.
  intros Hnew Hready.
  unfold create_directories. rewrite print_bind. unfold bind.
  destruct (make_directories_run
              (add_stdout [(nl ++ "📁 Creating directories...")%string] s)
              Hnew Hready) as [out ->].
  norm_state. unfold ret. by eexists.
Qed.

Lemma foldr_ensure_dir_lookup (l : list path) (files : gmap path node) (q : path) :
  foldr (ensure_dir h) files l !! q
  = match files !! q with
    | Some n => Some n
    | None => if bool_decide (q ∈ l) then Some (new_dir h) else None
    end.
Proof.
  induction l as [|p l IH]; cbn [foldr].
  - destruct (files !! q); [done|]. by rewrite bool_decide_eq_false_2 by apply not_elem_of_nil.
  - rewrite ensure_dir_lookup, IH.
    destruct (files !! q) as [n|]; [done|].
    destruct (bool_decide_reflect (q ∈ l)) as [Hin | Hout].
    + rewrite bool_decide_eq_true_2; [done|]. by apply list_elem_of_further.
    + case_decide as Heq.
      * subst q. rewrite bool_decide_eq_true_2; [done|]. apply list_elem_of_here.
      * rewrite bool_decide_eq_false_2; [done|].
        intros [?|?]%elem_of_cons; done.
Qed.

(** Every entry of the filesystem [create_directories] leaves was there
    before, or is a fresh directory at one of the seven paths. *)
Lemma after_create_lookup (files : gmap path node) (q : path) :
  after_create h files !! q
  = match files !! q with
    | Some n => Some n
    | None => if bool_decide (q ∈ created_directories h)
              then Some (new_dir h) else None
    end.
Proof.
  change (after_create h files)
    with (foldr (ensure_dir h) files
            [ "data" :: cwd h; "templates" :: "web" :: cwd h; "web" :: cwd h;
              "static" :: "web" :: cwd h; "web" :: cwd h; "music" :: cwd h;
              "config" :: cwd h; "logs" :: cwd h ]).
  rewrite foldr_ensure_dir_lookup. destruct (files !! q); [done|].
  rewrite created_directories_eq.
  erewrite bool_decide_ext; [reflexivity|].
  rewrite !elem_of_cons, !elem_of_nil. tauto.
Qed.

End DirectoryFacts.

Lemma wf_fs_parent (files : gmap path node) (x : string) (up : path) :
  wf_fs files → is_Some (files !! (x :: up)) →
  ∃ d, files !! up = Some d ∧ is_dir_node d = true.
Proof.
  intros Hwf [n Hn]. specialize (Hwf _ _ Hn). cbn [in_directory] in Hwf.
  destruct (files !! up) as [d|]; [|done]. by exists d.
Qed.

Lemma bare_files_empty_cwd : empty_cwd pi_host bare_files.
Proof.
  intros p (parts & Hparts & ->).
  apply not_elem_of_list_to_map_1. cbn [fmap list_fmap fst]. 
  change (cwd pi_host) with pi_cwd. unfold pi_cwd, pi_home.
  rewrite !elem_of_cons, elem_of_nil.
  destruct parts as [|x parts]; [done|].
  intros Hkey.
  repeat (destruct Hkey as [Hkey | Hkey];
          [apply (f_equal length) in Hkey; rewrite ?length_app in Hkey;
           cbn [length] in Hkey; rewrite ?length_app in Hkey;
           cbn [length] in Hkey; lia|]).
  done.
Qed.

Lemma foreign_cwd_files_empty_cwd : empty_cwd pi_host foreign_cwd_files.
Proof.
  intros p (parts & Hparts & ->).
  apply not_elem_of_list_to_map_1. cbn [fmap list_fmap fst].
  change (cwd pi_host) with pi_cwd. unfold pi_cwd, pi_home.
  rewrite !elem_of_cons, elem_of_nil.
  destruct parts as [|x parts]; [done|].
  intros Hkey.
  repeat (destruct Hkey as [Hkey | Hkey];
          [apply (f_equal length) in Hkey; rewrite ?length_app in Hkey;
           cbn [length] in Hkey; rewrite ?length_app in Hkey;
           cbn [length] in Hkey; lia|]).
  done.
Qed.

(** C6 as stated fails on permissions and on what is in the way.  On the
    Pi, in an empty working directory that belongs to root,
    [create_directories] does not return [True]: the first [mkdir] raises
    [PermissionError] and none of the six directories is there afterwards.
    With a umask that takes the search bit off new directories, [web] is
    made and [web/static] cannot be.  Where all six directories exist and
    [web] may not be searched, the stage raises as well; and a regular
    file called [logs] makes it raise [FileExistsError]. *)
Lemma create_directories_counterexample :
  ¬ (∀ (h : HostEnvironment unit) (s : state unit),
       empty_cwd h (fs s) →
       (create_directories h s).1 = Ret true ∧
       ∀ p, p ∈ named_directories h →
            is_Some (fs (create_directories h s).2 !! p))
  ∧ (create_directories pi_host (boot foreign_cwd_files tt)).1
    = Raise PermissionError
  ∧ (create_directories umask100_host (boot bare_files tt)).1
    = Raise PermissionError
  ∧ ((∀ p, p ∈ named_directories pi_host → is_directory closed_web_files p)
     ∧ (create_directories pi_host (boot closed_web_files tt)).1
       = Raise PermissionError)
  ∧ (create_directories pi_host (boot logs_file_files tt)).1
    = Raise FileExistsError.
Proof.
  split_and!.
  - intros Hclaim.
    destruct (Hclaim pi_host (boot foreign_cwd_files tt)
                foreign_cwd_files_empty_cwd) as [Hret _].
    vm_compute in Hret. discriminate Hret.
  - by vm_compute.
  - by vm_compute.
  - intros p Hp. unfold named_directories, directories in Hp.
    cbn [map] in Hp. rewrite !elem_of_cons, elem_of_nil in Hp.
    destruct Hp as [->|[->|[->|[->|[->|[->|[]]]]]]];
      exists (dir_node 1000 493); by vm_compute.
  - by vm_compute.
  - by vm_compute.
Qed.

(** C6 amended, directory creation is additive and idempotent.  On a
    well-formed filesystem where the caller may search and write the
    working directory and may use the directories he makes, where whatever
    already sits at one of the paths of [create_directories] is a directory
    and [web], if there, may be searched and written, [create_directories]
    returns [True] and touches only the filesystem.  Afterwards the six
    directories it names, and [web] as the parent of two of them, are
    directories; every entry that was there is there unchanged; every new
    entry is one of these; starting from an empty working directory
    exactly these lie below it; and when all of them were there the
    filesystem is as before. *)
Theorem create_directories_additive {Ext} (h : HostEnvironment Ext)
    (s : state Ext) :
  wf_fs (fs s) →
  denied h (fs s) (Path "web/static") = false →
  writable_dir h (fs s) (cwd h) →
  new_dir_usable h →
  (∀ p n, p ∈ created_directories h → fs s !! p = Some n →
          is_dir_node n = true) →
  absent_or_writable_dir h (fs s) (resolve h (Path "web")) →
  ∃ s',
    create_directories h s = (Ret true, s') ∧
    ext s' = ext s ∧ spawned s' = spawned s ∧
    (∀ p, p ∈ created_directories h → is_directory (fs s') p) ∧
    (∀ p n, fs s !! p = Some n → fs s' !! p = Some n) ∧
    (∀ p, fs s !! p = None → is_Some (fs s' !! p) →
          p ∈ created_directories h) ∧
    (empty_cwd h (fs s) →
     ∀ p, below_cwd h p →
          (is_Some (fs s' !! p) ↔ p ∈ created_directories h)) ∧
    ((∀ p, p ∈ created_directories h → is_Some (fs s !! p)) →
     fs s' = fs s).
Proof.
  intros Hwf Hok Hcwd Hnew Hdirs Hweb.
  assert (dirs_ready h (fs s)) as Hready.
  { split_and!; try done.
    intros x Hx. destruct (wf_fs_parent _ _ _ Hwf Hx) as (d & Hd & _).
    by rewrite Hd. }
  destruct (create_directories_run h s Hnew Hready) as [out Hrun].
  exists (add_stdout out (set_fs (after_create h (fs s)) s)).
  split; [exact Hrun|]. rewrite fs_add_stdout, fs_set_fs.
  assert (∀ p, p ∈ created_directories h →
               is_directory (after_create h (fs s)) p) as Hthere.
  { intros p Hp. unfold is_directory. rewrite after_create_lookup.
    destruct (fs s !! p) as [n|] eqn:Hlook.
    - exists n. split; [done|]. by eapply Hdirs.
    - rewrite bool_decide_eq_true_2 by done. by exists (new_dir h). }
  assert (∀ p, fs s !! p = None → is_Some (after_create h (fs s) !! p) →
               p ∈ created_directories h) as Hnothing.
  { intros p Hlook. rewrite after_create_lookup, Hlook.
    case_bool_decide; [done | by intros [? ?]]. }
  split_and!; try done.
  - intros p n Hlook. by rewrite after_create_lookup, Hlook.
  - intros Hempty p Hp. split.
    + apply Hnothing. by apply Hempty.
    + intros Hin. destruct (Hthere p Hin) as (d & Hd & _). by exists d.
  - intros Hall. apply map_eq. intros p. rewrite after_create_lookup.
    destruct (fs s !! p) as [n|] eqn:Hlook; [done|].
    case_bool_decide as Hin; [|done].
    destruct (Hall p Hin) as [n Hn]. congruence.
Qed.

(** Witness for C6 amended: user [pi] in an empty working directory of
    his own, with the usual umask. *)
Lemma create_directories_additive_witness :
  ∃ s',
    create_directories pi_host (boot bare_files tt) = (Ret true, s') ∧
    ext s' = tt ∧ spawned s' = [] ∧
    (∀ p, p ∈ created_directories pi_host → is_directory (fs s') p) ∧
    (∀ p n, bare_files !! p = Some n → fs s' !! p = Some n) ∧
    (∀ p, bare_files !! p = None → is_Some (fs s' !! p) →
          p ∈ created_directories pi_host) ∧
    (empty_cwd pi_host bare_files →
     ∀ p, below_cwd pi_host p →
          (is_Some (fs s' !! p) ↔ p ∈ created_directories pi_host)) ∧
    ((∀ p, p ∈ created_directories pi_host → is_Some (bare_files !! p)) →
     fs s' = bare_files).
Proof.
  apply (create_directories_additive pi_host (boot bare_files tt)).
  - apply (bool_decide_unpack _). vm_compute. reflexivity.
  - by vm_compute.
  - exists (dir_node 1000 493). split_and!; vm_compute; reflexivity.
  - split; vm_compute; reflexivity.
  - intros p n Hp. rewrite created_directories_eq in Hp.
    rewrite !elem_of_cons, elem_of_nil in Hp.
    destruct Hp as [->|[->|[->|[->|[->|[->|[->|[]]]]]]]];
      vm_compute; intros [=].
  - intros n. vm_compute. intros [=].
Defined.

Section AudioFacts.

Context {Ext : Type}.
Variable h : HostEnvironment Ext.

(** [with open(P, "w") as f: f.write(data)] where the caller may look [P]
    up, the file, if there, is a regular file he may write, and its
    directory is one he may write: afterwards the file holds exactly
    [data]. *)
Lemma with_open_w_write_spec a x up data (s : state Ext) :
  denied h (fs s) (MkPath a (x :: up)) = false →
  writable_dir h (fs s) (resolve h (MkPath a up)) →
  (∀ n, fs s !! resolve h (MkPath a (x :: up)) = Some n →
        (∃ c, n_kind n = File c) ∧ may_write (euid h) n = true) →
  ∃ owner mode,
    with_open_w_write h (MkPath a (x :: up)) data s
    = (Ret tt,
       set_fs (<[resolve h (MkPath a (x :: up))
                 := Node (File data) owner mode]> (fs s)) s).
Proof.
  intros Hok Hdir Hfile.
  unfold with_open_w_write, bind, open_w. cbv zeta. rewrite Hok.
  destruct (fs s !! resolve h (MkPath a (x :: up))) as [n|] eqn:Hlook.
  - destruct (Hfile n eq_refl) as [[c Hkind] Hwn]. rewrite Hkind, Hwn.
    exists (n_owner n), (n_mode n).
    unfold f_write. cbv zeta. rewrite fs_set_fs, lookup_insert_eq.
    rewrite set_fs_set_fs, insert_insert_eq. reflexivity.
  - rewrite (creatable_writable _ _ _ _ _ Hdir).
    exists (euid h), (Z.land 438 (Z.lnot (umask h))).
    unfold f_write. cbv zeta. rewrite fs_set_fs, lookup_insert_eq.
    rewrite set_fs_set_fs, insert_insert_eq. reflexivity.
Qed.

Lemma pulse_config_path_eq :
  joinpath (Path_home h) ".config/pulse/default.pa"
  = MkPath Absolute (pulse_file h).
Proof. reflexivity. Qed.

Lemma pulse_config_directives :
  directives pulse_config
  = [ "load-module module-bluetooth-discover"%string;
      "load-module module-bluetooth-policy"%string ].
Proof. by vm_compute. Qed.

End AudioFacts.

(** C8 as stated fails: on the Pi, after a run under [sudo] has left a
    [~/.config] that belongs to root, [setup_audio] does not return [True];
    [mkdir] raises [PermissionError] and no file is written.  It raises as
    well where [~/.config] has lost its search bit, and with a umask that
    takes the search bit off the directories it makes. *)
Lemma setup_audio_counterexample :
  ¬ (∀ (h : HostEnvironment unit) (s : state unit),
       (setup_audio h s).1 = Ret true)
  ∧ (setup_audio pi_host (boot sudo_leftover_files tt)).1 = Raise PermissionError
  ∧ (setup_audio pi_host (boot closed_config_files tt)).1 = Raise PermissionError
  ∧ (setup_audio umask100_host (boot pi_files tt)).1 = Raise PermissionError.
Proof.
  split_and!.
  - intros Hclaim.
    specialize (Hclaim pi_host (boot sudo_leftover_files tt)).
    vm_compute in Hclaim. discriminate Hclaim.
  - by vm_compute.
  - by vm_compute.
  - by vm_compute.
Qed.

(** C8 amended, audio subsystem configuration.  On a well-formed
    filesystem where the caller may search every directory on the way to
    [~/.config/pulse/default.pa], may write his home directory, may use
    the directories he makes, may write [~/.config] and [~/.config/pulse]
    where they exist, and where [default.pa], if there, is a regular file
    he may write, [setup_audio] returns [True]; afterwards the two parent
    directories exist and
    [~/.config/pulse/default.pa] holds exactly the text of [pulse_config],
    whatever it held before; the directives of that text are the two
    [load-module] lines; no other entry of the filesystem is created,
    removed or changed. *)
Theorem setup_audio_writes_directives {Ext} (h : HostEnvironment Ext)
    (s : state Ext) :
  wf_fs (fs s) →
  denied h (fs s) (MkPath Absolute (pulse_file h)) = false →
  writable_dir h (fs s) (home h) →
  new_dir_usable h →
  absent_or_writable_dir h (fs s) (".config" :: home h) →
  absent_or_writable_dir h (fs s) (pulse_dir h) →
  (∀ n, fs s !! pulse_file h = Some n →
        (∃ c, n_kind n = File c) ∧ may_write (euid h) n = true) →
  ∃ s' owner mode,
    setup_audio h s = (Ret true, s') ∧
    fs s' !! pulse_file h = Some (Node (File pulse_config) owner mode) ∧
    directives pulse_config
    = [ "load-module module-bluetooth-discover"%string;
        "load-module module-bluetooth-policy"%string ] ∧
    is_directory (fs s') (pulse_dir h) ∧
    is_directory (fs s') (".config" :: home h) ∧
    (∀ p, p ≠ pulse_file h → p ≠ pulse_dir h → p ≠ ".config" :: home h →
          fs s' !! p = fs s !! p) ∧
    (∀ p n, p ≠ pulse_file h → fs s !! p = Some n → fs s' !! p = Some n) ∧
    ext s' = ext s ∧ spawned s' = spawned s.
Proof.
  intros Hwf Hok Hhome Hnew Hconfig Hpulse Hfile.
  assert (pulse_file h ≠ pulse_dir h) as Hne1 by apply cons_ne.
  assert (pulse_file h ≠ ".config" :: home h) as Hne2 by (by intros [=]).
  set (files1 := ensure_dir h (pulse_dir h)
                   (ensure_dir h (".config" :: home h) (fs s))).
  assert (writable_dir h files1 (pulse_dir h)) as Hdir1.
  { unfold writable_dir, files1. rewrite !ensure_dir_lookup.
    destruct (fs s !! pulse_dir h) as [d|] eqn:Hlook.
    - destruct (Hpulse d Hlook). by exists d.
    - rewrite decide_False by apply cons_ne. rewrite decide_True by done.
      exists (new_dir h). by destruct Hnew. }
  assert (∀ p n, fs s !! p = Some n → files1 !! p = Some n) as Hkeep.
  { intros p n Hlook. unfold files1. by rewrite !ensure_dir_lookup, Hlook. }
  assert (fs s !! pulse_file h = files1 !! pulse_file h) as Hsame.
  { unfold files1. rewrite !ensure_dir_lookup.
    destruct (fs s !! pulse_file h); [done|].
    by rewrite !decide_False. }
  unfold setup_audio. rewrite print_bind. cbv zeta.
  rewrite pulse_config_path_eq.
  change (parent (MkPath Absolute (pulse_file h)))
    with (MkPath Absolute (pulse_dir h)).
  unfold bind at 1. unfold Path_mkdir_parents. cbn [p_anchor p_parts].
  unfold pulse_dir at 1.
  rewrite mkdir_parents_two;
    [|by apply (denied_up h _ Absolute "default.pa")|exact Hhome|exact Hnew
     |exact Hconfig| |].
  - rewrite fs_add_stdout, set_fs_add_stdout.
    change (resolve h (MkPath Absolute (home h))) with (home h).
    fold (pulse_dir h). fold files1.
    unfold bind at 1.
    destruct (with_open_w_write_spec h Absolute "default.pa" (pulse_dir h)
                pulse_config (add_stdout [(nl ++ "🔊 Setting up audio...")%string]
                                (set_fs files1 s)))
      as (owner & mode & Hwrite).
    { rewrite fs_add_stdout, fs_set_fs. unfold files1.
      by rewrite !denied_ensure_dir. }
    { exact Hdir1. }
    { intros n. rewrite fs_add_stdout, fs_set_fs.
      change (resolve h (MkPath Absolute ("default.pa" :: pulse_dir h)))
        with (pulse_file h).
      rewrite <- Hsame. apply Hfile. }
    change (MkPath Absolute ("default.pa" :: pulse_dir h))
      with (MkPath Absolute (pulse_file h)) in Hwrite.
    rewrite Hwrite. clear Hwrite.
    rewrite print_bind. unfold ret.
    change (resolve h (MkPath Absolute (pulse_file h))) with (pulse_file h).
    eexists _, owner, mode. split; [reflexivity|].
    rewrite !fs_add_stdout, !fs_set_fs.
    split_and!; [| | | | | |reflexivity|reflexivity].
    + by rewrite lookup_insert_eq.
    + apply pulse_config_directives.
    + destruct Hdir1 as (d & Hd & Hdir & _). exists d.
      by rewrite lookup_insert_ne.
    + unfold is_directory. rewrite lookup_insert_ne by done.
      unfold files1. rewrite !ensure_dir_lookup.
      destruct (fs s !! (".config" :: home h)) as [d|] eqn:Hlook.
      * destruct (Hconfig d Hlook). by exists d.
      * rewrite decide_True by done. by exists (new_dir h).
    + intros p Hp1 Hp2 Hp3. rewrite lookup_insert_ne by done.
      unfold files1. rewrite !ensure_dir_lookup.
      destruct (fs s !! p); [done|]. by rewrite !decide_False.
    + intros p n Hp Hlook. rewrite lookup_insert_ne by done. by apply Hkeep.
  - intros n Hlook. rewrite fs_add_stdout in Hlook.
    by destruct (Hpulse n Hlook).
  - rewrite fs_add_stdout. intros Hthere.
    destruct (wf_fs_parent _ _ _ Hwf Hthere) as (d & Hd & _). by rewrite Hd.
Qed.

(** Witness for C8 amended: user [pi] with an empty home directory of his own. *)
Lemma setup_audio_writes_directives_witness :
  ∃ s' owner mode,
    setup_audio pi_host (boot pi_files tt) = (Ret true, s') ∧
    fs s' !! pulse_file pi_host = Some (Node (File pulse_config) owner mode) ∧
    directives pulse_config
    = [ "load-module module-bluetooth-discover"%string;
        "load-module module-bluetooth-policy"%string ] ∧
    is_directory (fs s') (pulse_dir pi_host) ∧
    is_directory (fs s') (".config" :: home pi_host) ∧
    (∀ p, p ≠ pulse_file pi_host → p ≠ pulse_dir pi_host →
          p ≠ ".config" :: home pi_host → fs s' !! p = pi_files !! p) ∧
    (∀ p n, p ≠ pulse_file pi_host → pi_files !! p = Some n →
            fs s' !! p = Some n) ∧
    ext s' = tt ∧ spawned s' = [].
Proof.
  apply (setup_audio_writes_directives pi_host (boot pi_files tt)).
  - apply (bool_decide_unpack _). vm_compute. reflexivity.
  - by vm_compute.
  - exists (dir_node 1000 493). split_and!; vm_compute; reflexivity.
  - split; vm_compute; reflexivity.
  - intros n. vm_compute. intros [=].
  - intros n. vm_compute. intros [=].
  - intros n. vm_compute. intros [=].
Defined.

(** C4, error propagation: the code at the failing input.  On the Pi,
    after a run under [sudo] has left a [~/.config] that belongs to root,
    the [PermissionError] of [mkdir] leaves [setup_audio] as an exception
    instead of a [False]; [main] has no handler for it, so the run ends in
    the traceback of that exception, with the crash of [setup_audio] as its
    last event and without the line ["❌ Failed to setup audio"] that
    [main] keeps for a failure of this stage. *)
Theorem setup_audio_permission_error_escapes :
  (setup_audio pi_host (boot sudo_leftover_files tt)).1 = Raise PermissionError ∧
  (main pi_host (boot sudo_leftover_files tt)).1 = Raise PermissionError ∧
  last (calls (main pi_host (boot sudo_leftover_files tt)).2)
  = Some (SetupAudio, Crash PermissionError) ∧
  ¬ ("❌ Failed to setup audio"%string
       ∈ stdout (main pi_host (boot sudo_leftover_files tt)).2) ∧
  exit_status (main pi_host (boot sudo_leftover_files tt)).1 = 1.
Proof.
  split_and!.
  - by vm_compute.
  - by vm_compute.
  - by vm_compute.
  - apply (bool_decide_unpack _). by vm_compute.
  - by vm_compute.
Qed.

(** ** Further properties: commands *)

Section CommandFacts.

Context {Ext : Type}.
Variable h : HostEnvironment Ext.

(** The state [run_command] leaves: the world is the one the shell
    returned, the command is on record, and the trail ends with the success
    line, with the captured error output, or, where the output could not
    be decoded, with the line that announced the command. *)
Lemma run_command_run command description (s : state Ext) :
  ∃ out,
    run_command h command description s
    = (answer h command (fs s) (ext s),
       State (files_after h command (fs s) (ext s))
             (ext_after h command (fs s) (ext s))
             (stdout s ++ out) (spawned s ++ [command]) (calls s)) ∧
    last out
    = Some (match answer h command (fs s) (ext s) with
            | Ret true => ("✅ " ++ description ++ " completed successfully")%string
            | Ret false =>
                ("Error output: " ++ stderr_of h command (fs s) (ext s))%string
            | Raise _ => ("🔄 " ++ description ++ "...")%string
            end).
Proof.
  unfold run_command, answer, status_of, stderr_of, files_after, ext_after, stderr.
  rewrite print_bind.
  unfold try_except, bind, subprocess_run. cbn [fs ext add_stdout].
  destruct (shell h command (fs s) (ext s)) as [[c files] e]. cbn [fst snd].
  destruct (captured c) as [out err|]; [destruct (returncode c =? 0)|].
  - eexists [_; _]. unfold print, ret.
    cbn [fs ext stdout spawned calls add_stdout].
    rewrite <- app_assoc. split; reflexivity.
  - eexists [_; _; _]. unfold print, ret.
    cbn [fs ext stdout spawned calls add_stdout].
    rewrite <- !app_assoc. split; reflexivity.
  - eexists [_]. split; reflexivity.
Qed.

End CommandFacts.

(** X1, [run_command].  Whatever the command does, it is spawned once and
    the world afterwards is the one the shell left.  Where its captured
    output is text, [run_command] returns [True] for status 0 and [False]
    for any other status, and the last line printed is the success line of
    the description or the captured standard error.  Where the output
    cannot be decoded, the [UnicodeDecodeError] of [subprocess.run] is not
    caught by the handler for [CalledProcessError] and leaves
    [run_command], whatever the status. *)
Theorem run_command_reports_status {Ext} (h : HostEnvironment Ext)
    command description (s : state Ext) :
  ∃ s',
    run_command h command description s = (answer h command (fs s) (ext s), s') ∧
    spawned s' = spawned s ++ [command] ∧
    fs s' = files_after h command (fs s) (ext s) ∧
    ext s' = ext_after h command (fs s) (ext s) ∧
    calls s' = calls s ∧
    (answer h command (fs s) (ext s) = Ret true →
     status_of h command (fs s) (ext s) = 0 ∧
     last (stdout s') = Some ("✅ " ++ description ++ " completed successfully")%string) ∧
    (answer h command (fs s) (ext s) = Ret false →
     status_of h command (fs s) (ext s) ≠ 0 ∧
     last (stdout s')
     = Some ("Error output: " ++ stderr_of h command (fs s) (ext s))%string) ∧
    (∀ e, answer h command (fs s) (ext s) = Raise e → e = UnicodeDecodeError).
Proof.
  destruct (run_command_run h command description s) as (out & Hrun & Hlast).
  eexists. split; [exact Hrun|]. cbn [fs ext stdout spawned calls].
  assert (out ≠ []) as Hout by (intros ->; discriminate Hlast).
  split_and!; try reflexivity.
  - intros Hb. rewrite Hb in Hlast. rewrite last_app, Hlast. split; [|done].
    unfold answer in Hb. destruct (captured _); [|done].
    injection Hb as Hb. by apply Z.eqb_eq.
  - intros Hb. rewrite Hb in Hlast. rewrite last_app, Hlast. split; [|done].
    unfold answer in Hb. destruct (captured _); [|done].
    injection Hb as Hb. by apply Z.eqb_neq.
  - intros e. unfold answer. destruct (captured _); [done|]. by intros [= <-].
Qed.

(** X2, [check_python_version].  The check returns [True] exactly when the
    interpreter is 3.8 or newer, in the order of version tuples: any 4.x
    passes, 3.8 passes, 3.7 and every 2.x fail.  It changes nothing but
    standard output, and the last line it prints says which way it went. *)
Theorem check_python_version_threshold {Ext} (h : HostEnvironment Ext)
    (s : state Ext) :
  ∃ b out,
    check_python_version h s = (Ret b, add_stdout out s) ∧
    (b = true ↔ (3 < fst (version_info h)
                 ∨ (fst (version_info h) = 3 ∧ 8 ≤ snd (version_info h)))%nat) ∧
    (b = false → last out = Some "❌ Python 3.8 or higher is required"%string).
Proof.
  unfold check_python_version. rewrite print_bind.
  destruct (version_lt (version_info h) (3%nat, 8%nat)) eqn:Hlt;
    rewrite print_bind, add_stdout_add; unfold ret;
    eexists _, _; (split; [reflexivity|]);
    unfold version_lt in Hlt; cbn [fst snd] in Hlt.
  - split; [|done]. split; [done|]. intros Hge.
    apply orb_true_iff in Hlt as [Hlt | Hlt].
    + apply Nat.ltb_lt in Hlt. lia.
    + apply andb_true_iff in Hlt as [Heq Hlt].
      apply Nat.eqb_eq in Heq. apply Nat.ltb_lt in Hlt. lia.
  - split; [|done]. split; [|done]. intros _.
    apply orb_false_iff in Hlt as [Hmajor Hminor].
    apply Nat.ltb_ge in Hmajor.
    apply andb_false_iff in Hminor as [Hne | Hge].
    + apply Nat.eqb_neq in Hne. lia.
    + apply Nat.ltb_ge in Hge. lia.
Qed.

Section PackageFacts.

Context {Ext : Type}.
Variable h : HostEnvironment Ext.

Lemma install_packages_cons package rest :
  install_packages h (package :: rest)
  = (ok <- run_command h ("sudo apt install -y " ++ package)%string
                         ("Installing " ++ package)%string ;;
     if negb ok then ret false else install_packages h rest).
Proof. reflexivity. Qed.

Lemma answer_cases (command : string) (files : gmap path node) (e : Ext) :
  (∃ b, answer h command files e = Ret b)
  ∨ answer h command files e = Raise UnicodeDecodeError.
Proof. unfold answer. destruct (captured _); [left; by eexists | by right]. Qed.

(** The loop over the packages stops at the first command that does not
    answer [True]. *)
Lemma install_packages_run l (s : state Ext) :
  ∃ r s' done out,
    install_packages h l s = (r, s') ∧
    spawned s' = spawned s ++ done ∧ stdout s' = stdout s ++ out ∧
    calls s' = calls s ∧
    done `prefix_of` map (λ package, "sudo apt install -y " ++ package)%string l ∧
    (r = Ret true → done = map (λ package, "sudo apt install -y " ++ package)%string l) ∧
    (r = Ret false → ∃ err, last out = Some ("Error output: " ++ err)%string) ∧
    (∀ e, r = Raise e → e = UnicodeDecodeError) ∧
    ((∀ command files e,
        command ∈ map (λ package, "sudo apt install -y " ++ package)%string l →
        answer h command files e = Ret true) → r = Ret true).
Proof.
  revert s. induction l as [|package rest IH]; intros s.
  - exists (Ret true), s, [], []. rewrite !app_nil_r. split_and!; try done.
  - rewrite install_packages_cons. unfold bind.
    destruct (run_command_run h ("sudo apt install -y " ++ package)%string
                ("Installing " ++ package)%string s) as (out1 & -> & Hlast1).
    destruct (answer h ("sudo apt install -y " ++ package)%string (fs s) (ext s))
      as [[]|x] eqn:Hans; cbn [negb].
    + destruct (IH (State (files_after h ("sudo apt install -y " ++ package)%string (fs s) (ext s))
                          (ext_after h ("sudo apt install -y " ++ package)%string (fs s) (ext s))
                          (stdout s ++ out1)
                          (spawned s ++ ["sudo apt install -y " ++ package]%string)
                          (calls s)))
        as (r & s' & done & out & -> & Hsp & Hout & Hcalls & Hpre & Htrue & Hfalse
            & Hraise & Hall).
      cbn [spawned stdout calls] in Hsp, Hout, Hcalls.
      exists r, s', (("sudo apt install -y " ++ package)%string :: done), (out1 ++ out).
      split_and!; try done.
      * rewrite Hsp, <- app_assoc. done.
      * rewrite Hout, <- app_assoc. done.
      * cbn [map]. by apply prefix_cons.
      * intros Hb. cbn [map]. by rewrite Htrue.
      * intros Hb. destruct (Hfalse Hb) as [err Herr]. exists err.
        rewrite last_app, Herr. done.
      * intros Hzero. apply Hall. intros command files e Hin.
        apply Hzero. cbn [map]. by apply list_elem_of_further.
    + unfold ret. eexists (Ret false), _, [_], out1.
      split_and!; try done.
      * cbn [map]. apply prefix_cons, prefix_nil.
      * intros _. by eexists.
      * intros Hzero. rewrite Hzero in Hans; [done|]. cbn [map]. apply list_elem_of_here.
    + eexists (Raise x), _, [_], out1.
      split_and!; try done.
      * cbn [map]. apply prefix_cons, prefix_nil.
      * intros e [= <-].
        destruct (answer_cases ("sudo apt install -y " ++ package)%string (fs s) (ext s))
          as [[b Hb] | Hb]; congruence.
      * intros Hzero. rewrite Hzero in Hans; [done|]. cbn [map]. apply list_elem_of_here.
Qed.

(** [install_system_dependencies] as a whole. *)
Lemma install_system_dependencies_run (s : state Ext) :
  ∃ r s' done out,
    install_system_dependencies h s = (r, s') ∧
    spawned s' = spawned s ++ done ∧ stdout s' = stdout s ++ out ∧
    calls s' = calls s ∧
    done `prefix_of` apt_commands ∧ done ≠ [] ∧
    (r = Ret true → done = apt_commands) ∧
    (r = Ret false → ∃ err, last out = Some ("Error output: " ++ err)%string) ∧
    (∀ e, r = Raise e → e = UnicodeDecodeError) ∧
    ((∀ command files e, command ∈ apt_commands →
                         answer h command files e = Ret true) → r = Ret true).
Proof.
  unfold install_system_dependencies. rewrite print_bind. unfold bind.
  destruct (run_command_run h "sudo apt update" "Updating package list"
              (add_stdout [(nl ++ "📦 Installing system dependencies...")%string] s))
    as (out1 & -> & Hlast1).
  cbn [fs ext stdout spawned calls add_stdout] in *.
  destruct (answer h "sudo apt update" (fs s) (ext s)) as [[]|x] eqn:Hans;
    cbn [negb].
  - destruct (install_packages_run packages
                (State (files_after h "sudo apt update" (fs s) (ext s))
                       (ext_after h "sudo apt update" (fs s) (ext s))
                       ((stdout s ++ [(nl ++ "📦 Installing system dependencies...")%string])
                        ++ out1)
                       (spawned s ++ ["sudo apt update"%string]) (calls s)))
      as (r & s' & done & out & -> & Hsp & Hout & Hcalls & Hpre & Htrue & Hfalse
          & Hraise & Hall).
    cbn [spawned stdout calls] in Hsp, Hout, Hcalls.
    exists r, s', ("sudo apt update"%string :: done),
      ([(nl ++ "📦 Installing system dependencies...")%string] ++ out1 ++ out).
    split_and!; try done.
    + rewrite Hsp, <- app_assoc. done.
    + rewrite Hout, <- !app_assoc. done.
    + by apply prefix_cons.
    + intros Hb. unfold apt_commands. by rewrite Htrue.
    + intros Hb. destruct (Hfalse Hb) as [err Herr]. exists err.
      rewrite !last_app, Herr. done.
    + intros Hzero. apply Hall. intros command files e Hin.
      apply Hzero. by apply list_elem_of_further.
  - unfold ret. eexists (Ret false), _, [_],
      ([(nl ++ "📦 Installing system dependencies...")%string] ++ out1).
    cbn [spawned stdout calls].
    split_and!; try done.
    + by rewrite <- app_assoc.
    + apply prefix_cons, prefix_nil.
    + intros _. eexists. rewrite last_app, Hlast1. done.
    + intros Hzero. rewrite Hzero in Hans; [done|]. apply list_elem_of_here.
  - eexists (Raise x), _, [_],
      ([(nl ++ "📦 Installing system dependencies...")%string] ++ out1).
    cbn [spawned stdout calls].
    split_and!; try done.
    + by rewrite <- app_assoc.
    + apply prefix_cons, prefix_nil.
    + intros e [= <-].
      destruct (answer_cases "sudo apt update" (fs s) (ext s))
        as [[b Hb] | Hb]; congruence.
    + intros Hzero. rewrite Hzero in Hans; [done|]. apply list_elem_of_here.
Qed.

End PackageFacts.


(** X4, [install_system_dependencies] on a machine where [apt] works.  If
    each of the twelve commands, in whatever world it is run, exits with
    status 0 and leaves output that is text, the stage returns [True] and
    has spawned exactly the twelve commands of [apt_commands], in order. *)
Theorem install_system_dependencies_all_succeed {Ext} (h : HostEnvironment Ext)
    (s : state Ext) :
  (∀ command files e, command ∈ apt_commands →
                      answer h command files e = Ret true) →
  ∃ s',
    install_system_dependencies h s = (Ret true, s') ∧
    spawned s' = spawned s ++ apt_commands.
Proof.
  intros Hzero.
  destruct (install_system_dependencies_run h s)
    as (r & s' & done & out & Hrun & Hsp & Hout & Hcalls & Hpre & Hne & Htrue
        & Hfalse & Hraise & Hall).
  rewrite (Hall Hzero) in *. exists s'. split; [done|].
  by rewrite Hsp, Htrue.
Qed.

(** Witness for X4: the obliging shell of the Pi. *)
Lemma install_system_dependencies_all_succeed_witness :
  ∃ s',
    install_system_dependencies pi_host (boot pi_files tt) = (Ret true, s') ∧
    spawned s' = [] ++ apt_commands.
Proof.
  apply (install_system_dependencies_all_succeed pi_host (boot pi_files tt)).
  intros command files e _. reflexivity.
Defined.

(** ** Further properties: the stages of two commands *)

Section TwoCommandFacts.

Context {Ext : Type}.
Variable h : HostEnvironment Ext.

(** The shape shared by [setup_bluetooth] and
    [install_python_dependencies]: a banner, then two commands, the second
    only if the first answered [True]. *)
Lemma two_commands_run line c1 d1 c2 d2 (s : state Ext) :
  ∃ s',
    (print line ;;
     ok <- run_command h c1 d1 ;;
     if negb ok then ret false else
     ok <- run_command h c2 d2 ;;
     if negb ok then ret false else
     ret true) s = (answer_both h c1 c2 (fs s) (ext s), s') ∧
    calls s' = calls s ∧
    (answer h c1 (fs s) (ext s) ≠ Ret true →
     spawned s' = spawned s ++ [c1] ∧
     fs s' = files_after h c1 (fs s) (ext s) ∧
     ext s' = ext_after h c1 (fs s) (ext s)) ∧
    (answer h c1 (fs s) (ext s) = Ret true →
     spawned s' = spawned s ++ [c1; c2] ∧
     fs s' = files_after h c2 (files_after h c1 (fs s) (ext s))
                              (ext_after h c1 (fs s) (ext s)) ∧
     ext s' = ext_after h c2 (files_after h c1 (fs s) (ext s))
                             (ext_after h c1 (fs s) (ext s))).
Proof.
  rewrite print_bind. unfold bind at 1, answer_both.
  destruct (run_command_run h c1 d1 (add_stdout [line] s)) as (out1 & -> & _).
  cbn [fs ext stdout spawned calls add_stdout].
  destruct (answer h c1 (fs s) (ext s)) as [[]|x] eqn:Hans1; cbn [negb].
  - unfold bind at 1.
    destruct (run_command_run h c2 d2
                (State (files_after h c1 (fs s) (ext s))
                       (ext_after h c1 (fs s) (ext s))
                       ((stdout s ++ [line]) ++ out1) (spawned s ++ [c1]) (calls s)))
      as (out2 & -> & _).
    cbn [fs ext stdout spawned calls].
    destruct (answer h c2 (files_after h c1 (fs s) (ext s))
                (ext_after h c1 (fs s) (ext s))) as [[]|y];
      cbn [negb]; unfold ret; eexists; (split; [reflexivity|]);
      cbn [fs ext stdout spawned calls];
      (split_and!; [done|done|]); intros _;
      rewrite <- app_assoc; split_and!; done.
  - unfold ret. eexists. split; [reflexivity|].
    cbn [fs ext stdout spawned calls]. split_and!; done.
  - eexists. split; [reflexivity|].
    cbn [fs ext stdout spawned calls]. split_and!; done.
Qed.

End TwoCommandFacts.

(** X5, [setup_bluetooth].  The stage answers what its two commands
    answer, the second run only after the first: if enabling the service
    does not answer [True] (a status other than 0, or output that is not
    text, whose [UnicodeDecodeError] leaves the stage), that one command is
    all it has spawned and the service is not started; if enabling
    succeeds the start command is spawned next, in the world the first
    command left, and its answer is the answer of the stage. *)
Theorem setup_bluetooth_start_after_enable {Ext} (h : HostEnvironment Ext)
    (s : state Ext) :
  ∃ s',
    setup_bluetooth h s
    = (answer_both h "sudo systemctl enable bluetooth"
         "sudo systemctl start bluetooth" (fs s) (ext s), s') ∧
    calls s' = calls s ∧
    (answer h "sudo systemctl enable bluetooth" (fs s) (ext s) ≠ Ret true →
     spawned s' = spawned s ++ ["sudo systemctl enable bluetooth"%string] ∧
     fs s' = files_after h "sudo systemctl enable bluetooth" (fs s) (ext s) ∧
     ext s' = ext_after h "sudo systemctl enable bluetooth" (fs s) (ext s)) ∧
    (answer h "sudo systemctl enable bluetooth" (fs s) (ext s) = Ret true →
     spawned s' = spawned s ++ [ "sudo systemctl enable bluetooth"%string;
                                 "sudo systemctl start bluetooth"%string ] ∧
     fs s' = files_after h "sudo systemctl start bluetooth"
               (files_after h "sudo systemctl enable bluetooth" (fs s) (ext s))
               (ext_after h "sudo systemctl enable bluetooth" (fs s) (ext s)) ∧
     ext s' = ext_after h "sudo systemctl start bluetooth"
                (files_after h "sudo systemctl enable bluetooth" (fs s) (ext s))
                (ext_after h "sudo systemctl enable bluetooth" (fs s) (ext s))).
Proof. apply two_commands_run. Qed.

(** X6, [install_python_dependencies].  The stage never looks at the
    filesystem itself and answers what its two commands answer: if
    upgrading [pip] does not answer [True], that one command is all it has
    spawned and the requirements are not installed; if the upgrade
    succeeds the requirements are installed next, in the world the upgrade
    left, and the answer of that command is the answer of the stage; a
    missing [requirements.txt] shows only as that answer. *)
Theorem install_python_dependencies_upgrade_first {Ext} (h : HostEnvironment Ext)
    (s : state Ext) :
  ∃ s',
    install_python_dependencies h s
    = (answer_both h "source venv/bin/activate && pip install --upgrade pip"
         "source venv/bin/activate && pip install -r requirements.txt"
         (fs s) (ext s), s') ∧
    calls s' = calls s ∧
    (answer h "source venv/bin/activate && pip install --upgrade pip"
       (fs s) (ext s) ≠ Ret true →
     spawned s'
     = spawned s ++ ["source venv/bin/activate && pip install --upgrade pip"%string] ∧
     fs s' = files_after h "source venv/bin/activate && pip install --upgrade pip"
               (fs s) (ext s) ∧
     ext s' = ext_after h "source venv/bin/activate && pip install --upgrade pip"
                (fs s) (ext s)) ∧
    (answer h "source venv/bin/activate && pip install --upgrade pip"
       (fs s) (ext s) = Ret true →
     spawned s'
     = spawned s
       ++ [ "source venv/bin/activate && pip install --upgrade pip"%string;
            "source venv/bin/activate && pip install -r requirements.txt"%string ] ∧
     fs s' = files_after h "source venv/bin/activate && pip install -r requirements.txt"
               (files_after h "source venv/bin/activate && pip install --upgrade pip"
                  (fs s) (ext s))
               (ext_after h "source venv/bin/activate && pip install --upgrade pip"
                  (fs s) (ext s)) ∧
     ext s' = ext_after h "source venv/bin/activate && pip install -r requirements.txt"
                (files_after h "source venv/bin/activate && pip install --upgrade pip"
                   (fs s) (ext s))
                (ext_after h "source venv/bin/activate && pip install --upgrade pip"
                   (fs s) (ext s))).
Proof. apply two_commands_run. Qed.

(** ** Further properties: [main] *)

(** X7, an interpreter that is too old.  When the version of Python is
    below 3.8, [main] ends with [SystemExit(1)] right after the check: no
    command has been spawned, the filesystem and the world of the shell
    are as they were, the failed check is the only stage call, and the last
    line printed is the requirement. *)
Theorem old_python_touches_nothing {Ext} (h : HostEnvironment Ext)
    files (e : Ext) :
  (fst (version_info h) < 3
   ∨ (fst (version_info h) = 3 ∧ snd (version_info h) < 8))%nat →
  ∃ s',
    main h (boot files e) = (Raise (SystemExit 1), s') ∧
    fs s' = files ∧ ext s' = e ∧ spawned s' = [] ∧
    calls s' = [(CheckPythonVersion, Failure)] ∧
    last (stdout s') = Some "❌ Python 3.8 or higher is required"%string.
Proof.
  intros Hold.
  assert (version_lt (version_info h) (3%nat, 8%nat) = true) as Hlt.
  { unfold version_lt. cbn [fst snd]. apply orb_true_iff.
    destruct Hold as [Hmajor | [Hmajor Hminor]].
    - left. by apply Nat.ltb_lt.
    - right. apply andb_true_iff. split; [by apply Nat.eqb_eq | by apply Nat.ltb_lt]. }
  rewrite main_unfold. unfold run_pipeline.
  unfold bind at 1. unfold call at 1.
  unfold check_python_version. rewrite print_bind, Hlt.
  rewrite print_bind, add_stdout_add. unfold ret at 1.
  cbn [negb]. unfold bind at 1. unfold sys_exit, raise.
  eexists. split; [reflexivity|].
  rewrite calls_log_call, stdout_log_call. unfold boot.
  cbn [fs ext spawned calls log_call add_stdout].
  split_and!; try done.
  apply last_add_stdout.
Qed.

(** Witness for X7: Python 3.7 on the Pi. *)
Lemma old_python_touches_nothing_witness :
  ∃ s',
    main old_python_host (boot pi_files tt) = (Raise (SystemExit 1), s') ∧
    fs s' = pi_files ∧ ext s' = tt ∧ spawned s' = [] ∧
    calls s' = [(CheckPythonVersion, Failure)] ∧
    last (stdout s') = Some "❌ Python 3.8 or higher is required"%string.
Proof.
  apply (old_python_touches_nothing old_python_host pi_files tt).
  right. vm_compute. lia.
Defined.

(** X8, an exception in a stage is fatal, whatever the stage.  When an
    exception leaves a stage of [main], the optional
    [create_service_file] included, [main] has no handler for it: the run
    ends with that exception, the exit status is 1, the crash is the last
    event, the stages called are exactly those up to and including the
    one that crashed, and no later stage is called. *)
Theorem stage_exception_is_fatal {Ext} (h : HostEnvironment Ext)
    files (e : Ext) k err :
  (k, Crash err) ∈ calls (main h (boot files e)).2 →
  (main h (boot files e)).1 = Raise err ∧
  exit_status (main h (boot files e)).1 = 1 ∧
  last (calls (main h (boot files e)).2) = Some (k, Crash err) ∧
  ∃ before after,
    stage_order = before ++ k :: after ∧
    map fst (calls (main h (boot files e)).2) = before ++ [k] ∧
    (∀ j o, j ∈ after → (j, o) ∉ calls (main h (boot files e)).2).
Proof.
  intros Hin.
  destruct (main_summary h (boot files e)) as (evs & Hcalls & Hend).
  simpl in Hcalls. rewrite Hcalls in *. clear Hcalls.
  assert (¬ tolerated (k, Crash err)) as Hnot.
  { intros [H | [_ H]]; discriminate H. }
  destruct Hend as
    [evs front Hr Hnames Htol Hout
    | before k' after pre Hr Hreq' Hord Hnames Htol Hout Hsome
    | before k' after pre e' Hr He Hord Hnames Htol].
  - rewrite Forall_forall in Htol. by destruct (Hnot (Htol _ Hin)).
  - apply elem_of_app in Hin as [Hin | Hin].
    + rewrite Forall_forall in Htol. by destruct (Hnot (Htol _ Hin)).
    + by apply list_elem_of_singleton in Hin.
  - apply elem_of_app in Hin as [Hin | Hin].
    + rewrite Forall_forall in Htol. by destruct (Hnot (Htol _ Hin)).
    + apply list_elem_of_singleton in Hin. injection Hin as -> ->.
      rewrite Hr. split_and!.
      * done.
      * by apply not_exit_status.
      * by rewrite last_snoc.
      * exists before, after. split_and!; [done| |].
        -- by rewrite map_app, Hnames.
        -- eapply after_not_called; [done|]. by rewrite map_app, Hnames.
Qed.

(** Witness for X8: on a machine without [/etc/systemd/system], [open]
    raises [FileNotFoundError] in the optional stage, which only handles
    [PermissionError]; the run stops there. *)
Lemma stage_exception_is_fatal_witness :
  (main pi_host (boot no_systemd_files tt)).1 = Raise FileNotFoundError ∧
  exit_status (main pi_host (boot no_systemd_files tt)).1 = 1 ∧
  last (calls (main pi_host (boot no_systemd_files tt)).2)
  = Some (CreateServiceFile, Crash FileNotFoundError) ∧
  ∃ before after,
    stage_order = before ++ CreateServiceFile :: after ∧
    map fst (calls (main pi_host (boot no_systemd_files tt)).2)
    = before ++ [CreateServiceFile] ∧
    (∀ j o, j ∈ after → (j, o) ∉ calls (main pi_host (boot no_systemd_files tt)).2).
Proof.
  apply (stage_exception_is_fatal pi_host no_systemd_files tt).
  vm_compute. do 8 apply list_elem_of_further. apply list_elem_of_here.
Defined.

(** ** Further properties: the service descriptor *)

Section ServiceFacts.

Context {Ext : Type}.
Variable h : HostEnvironment Ext.

Lemma service_file_resolve : resolve h service_file = service_path.
Proof. reflexivity. Qed.

Lemma service_file_searched :
  searched h service_file = systemd_dir :: searched h (MkPath Absolute systemd_dir).
Proof. reflexivity. Qed.

(** [create_service_file] up to the outcome of its [with open]. *)
Lemma create_service_file_unfold (s : state Ext) :
  create_service_file h s
  = try_except
      (with_open_w_write h service_file
         (service_content (path_str (cwd h))) ;;
       print "✅ Systemd service file created" ;;
       ret true)
      (λ e, match e with
            | PermissionError =>
                Some (print "⚠️ Could not create systemd service file (requires sudo)" ;;
                      ret false)
            | _ => None
            end)
      (add_stdout [(nl ++ "🔧 Creating systemd service...")%string] s).
Proof. reflexivity. Qed.

End ServiceFacts.

(** X9, [create_service_file] where the caller may write.  When the
    caller may search every directory on the way to the descriptor,
    [/etc/systemd/system] is a directory he may write and the descriptor,
    if there, is a regular file he may write, the stage returns [True]; the
    descriptor then holds exactly the unit text for the current working
    directory, whatever it held before, and no other entry of the
    filesystem has changed. *)
Theorem create_service_file_writes_unit {Ext} (h : HostEnvironment Ext)
    (s : state Ext) :
  denied h (fs s) service_file = false →
  writable_dir h (fs s) systemd_dir →
  (∀ n, fs s !! service_path = Some n →
        (∃ c, n_kind n = File c) ∧ may_write (euid h) n = true) →
  ∃ s' owner mode,
    create_service_file h s = (Ret true, s') ∧
    fs s' !! service_path
    = Some (Node (File (service_content (path_str (cwd h)))) owner mode) ∧
    (∀ p, p ≠ service_path → fs s' !! p = fs s !! p) ∧
    ext s' = ext s ∧ spawned s' = spawned s ∧
    last (stdout s') = Some "✅ Systemd service file created"%string.
Proof.
  intros Hok Hdir Hfile.
  rewrite create_service_file_unfold. unfold try_except, bind at 1.
  destruct (with_open_w_write_spec h Absolute "smart-shower.service" systemd_dir
              (service_content (path_str (cwd h)))
              (add_stdout [(nl ++ "🔧 Creating systemd service...")%string] s))
    as (owner & mode & Hwrite); [exact Hok|exact Hdir|exact Hfile|].
  change (MkPath Absolute ("smart-shower.service" :: systemd_dir))
    with service_file in Hwrite.
  rewrite Hwrite. clear Hwrite.
  rewrite print_bind. unfold ret. rewrite service_file_resolve.
  eexists _, owner, mode. split; [reflexivity|].
  rewrite !fs_add_stdout, fs_set_fs.
  split_and!; try reflexivity.
  - by rewrite lookup_insert_eq.
  - intros p Hp. by rewrite lookup_insert_ne.
  - rewrite stdout_add_stdout. apply last_snoc.
Qed.

(** Witness for X9: root on the Pi. *)
Lemma create_service_file_writes_unit_witness :
  ∃ s' owner mode,
    create_service_file root_host (boot pi_files tt) = (Ret true, s') ∧
    fs s' !! service_path
    = Some (Node (File (service_content (path_str (cwd root_host)))) owner mode) ∧
    (∀ p, p ≠ service_path → fs s' !! p = pi_files !! p) ∧
    ext s' = tt ∧ spawned s' = [] ∧
    last (stdout s') = Some "✅ Systemd service file created"%string.
Proof.
  apply (create_service_file_writes_unit root_host (boot pi_files tt)).
  - by vm_compute.
  - exists (dir_node 0 493). split_and!; vm_compute; reflexivity.
  - intros n. vm_compute. intros [=].
Defined.

(** X10, [create_service_file] where the write is refused.  When the
    descriptor is absent and [/etc/systemd/system] is a directory the
    caller may not write, or the descriptor is a regular file he may not
    write, the stage catches the [PermissionError] and returns [False]; the
    filesystem, the world of the shell and the list of spawned commands are
    as before, and the last line printed is the warning. *)
Theorem create_service_file_refused_returns_false {Ext} (h : HostEnvironment Ext)
    (s : state Ext) :
  (fs s !! service_path = None ∧
   ∃ d, fs s !! systemd_dir = Some d ∧ is_dir_node d = true ∧
        may_write (euid h) d = false)
  ∨ (∃ n c, fs s !! service_path = Some n ∧ n_kind n = File c ∧
            may_write (euid h) n = false) →
  ∃ s',
    create_service_file h s = (Ret false, s') ∧
    fs s' = fs s ∧ ext s' = ext s ∧ spawned s' = spawned s ∧
    last (stdout s')
    = Some "⚠️ Could not create systemd service file (requires sudo)"%string.
Proof.
  intros Hrefused.
  rewrite create_service_file_unfold.
  unfold try_except, bind at 1, with_open_w_write, bind at 1, open_w.
  cbv zeta. rewrite service_file_resolve, fs_add_stdout.
  destruct (denied h (fs s) service_file).
  { (* a directory on the way may not be searched *)
    rewrite print_bind, add_stdout_add. unfold ret.
    eexists. split; [reflexivity|]. split_and!; try reflexivity.
    apply (last_add_stdout [_]). }
  destruct Hrefused as [(Hnone & d & Hd & Hdir & Hw) | (n & c & Hn & Hkind & Hw)].
  - rewrite Hnone. unfold creatable. rewrite service_file_searched.
    rewrite Hd, Hdir, Hw. cbn [negb].
    rewrite print_bind, add_stdout_add. unfold ret.
    eexists. split; [reflexivity|]. split_and!; try reflexivity.
    apply (last_add_stdout [_]).
  - rewrite Hn, Hkind, Hw.
    rewrite print_bind, add_stdout_add. unfold ret.
    eexists. split; [reflexivity|]. split_and!; try reflexivity.
    apply (last_add_stdout [_]).
Qed.

(** Witness for X10: user [pi] and the system directory of root. *)
Lemma create_service_file_refused_returns_false_witness :
  ∃ s',
    create_service_file pi_host (boot pi_files tt) = (Ret false, s') ∧
    fs s' = pi_files ∧ ext s' = tt ∧ spawned s' = [] ∧
    last (stdout s')
    = Some "⚠️ Could not create systemd service file (requires sudo)"%string.
Proof.
  apply (create_service_file_refused_returns_false pi_host (boot pi_files tt)).
  left. split; [vm_compute; reflexivity|].
  exists (dir_node 0 493). split_and!; vm_compute; reflexivity.
Defined.

(** X11, [create_service_file] on a machine without systemd.  The handler
    of the stage names [PermissionError] only.  When neither the
    descriptor nor the directory [/etc/systemd/system] exists and the
    caller may search the directories above that do, [open] raises
    [FileNotFoundError], or [NotADirectoryError] where the nearest entry
    above is a regular file; either leaves the stage as an exception: it
    returns neither [True] nor [False], prints no warning and changes
    nothing.  Where one of the directories above may not be searched,
    [open] raises [PermissionError] instead, which is caught: the stage
    returns [False] after the warning. *)
Theorem create_service_file_missing_directory {Ext} (h : HostEnvironment Ext)
    (s : state Ext) :
  fs s !! service_path = None →
  fs s !! systemd_dir = None →
  (denied h (fs s) service_file = false →
   create_service_file h s
   = (Raise (missing (fs s) (searched h service_file)),
      add_stdout [(nl ++ "🔧 Creating systemd service...")%string] s) ∧
   (missing (fs s) (searched h service_file) = FileNotFoundError
    ∨ missing (fs s) (searched h service_file) = NotADirectoryError)) ∧
  (denied h (fs s) service_file = true →
   create_service_file h s
   = (Ret false,
      add_stdout [ (nl ++ "🔧 Creating systemd service...")%string;
                   "⚠️ Could not create systemd service file (requires sudo)"%string ]
        s)).
Proof.
  intros Hfile Hdir.
  split; intros Hd; rewrite create_service_file_unfold;
    unfold try_except, bind at 1, with_open_w_write, bind at 1, open_w;
    cbv zeta; rewrite service_file_resolve, fs_add_stdout, Hd.
  - rewrite Hfile. unfold creatable. rewrite service_file_searched, Hdir.
    rewrite <- service_file_searched.
    destruct (missing_cases (fs s) (searched h service_file)) as [Hm | Hm];
      rewrite Hm; split; auto.
  - rewrite print_bind, add_stdout_add. reflexivity.
Qed.

(** Witness for X11: the Pi without [/etc/systemd]. *)
Lemma create_service_file_missing_directory_witness :
  create_service_file pi_host (boot no_systemd_files tt)
  = (Raise FileNotFoundError,
     add_stdout [(nl ++ "🔧 Creating systemd service...")%string]
       (boot no_systemd_files tt)).
Proof.
  destruct (create_service_file_missing_directory pi_host (boot no_systemd_files tt))
    as [Hallowed _]; [by vm_compute..|].
  destruct Hallowed as [Hrun _]; [by vm_compute|].
  rewrite Hrun. reflexivity.
Defined.

(** ** Further properties: running a stage again *)

Section RerunFacts.

Context {Ext : Type}.
Variable h : HostEnvironment Ext.

(** [os.mkdir] either makes the directory, which the caller could look
    up, or leaves the state alone. *)
Lemma os_mkdir_cases P mode (s : state Ext) :
  (∃ e, os_mkdir h P mode s = (Raise e, s))
  ∨ (∃ d, os_mkdir h P mode s = (Ret tt, set_fs (<[resolve h P := d]> (fs s)) s) ∧
          is_dir_node d = true ∧ denied h (fs s) P = false).
Proof.
  unfold os_mkdir.
  destruct (denied h (fs s) P); [left; by eexists|].
  destruct (fs s !! resolve h P); [left; by eexists|].
  destruct (creatable h (fs s) P) as [e|[]]; [left; by eexists|].
  right. by eexists.
Qed.

(** The tail of both handlers of [Path.mkdir]: forgive the error if the
    path is a directory. *)
Lemma forgive_if_dir_ret P e (s s' : state Ext) :
  (d <- Path_is_dir h P ;; if d then ret tt else raise e) s = (Ret tt, s') →
  s' = s ∧ is_directory (fs s) (resolve h P) ∧ denied h (fs s) P = false.
Proof.
  unfold bind, Path_is_dir.
  destruct (stat h (fs s) P) as [e'|n] eqn:Hstat.
  - destruct (ignore_error e'); discriminate.
  - apply stat_found in Hstat as [Hok Hn].
    destruct (is_dir_node n) eqn:Hdir; [|discriminate].
    unfold ret. intros [= <-]. split_and!; [done| |done]. by exists n.
Qed.

Lemma Path_mkdir_exist_ok_ret P (s s' : state Ext) :
  Path_mkdir_exist_ok h P s = (Ret tt, s') →
  is_directory (fs s') (resolve h P) ∧ denied h (fs s') P = false.
Proof.
  unfold Path_mkdir_exist_ok, try_except.
  destruct (os_mkdir_cases P 511 s) as [[e ->] | (d & -> & Hd & Hok)].
  - destruct e; try discriminate;
      intros Hret; apply forgive_if_dir_ret in Hret as (-> & Hdir & Hok); done.
  - intros [= <-]. rewrite fs_set_fs. split.
    + exists d. by rewrite lookup_insert_eq.
    + by rewrite denied_insert_self.
Qed.

(** Whenever [mkdir(parents=True, exist_ok=True)] returns, the path is a
    directory the caller can look up. *)
Lemma mkdir_parents_ret a parts (s s' : state Ext) :
  mkdir_parents h a parts s = (Ret tt, s') →
  is_directory (fs s') (resolve h (MkPath a parts))
  ∧ denied h (fs s') (MkPath a parts) = false.
Proof.
  destruct parts as [|x up].
  - unfold mkdir_parents, try_except.
    destruct (os_mkdir_cases (MkPath a []) 511 s)
      as [[e ->] | (d & -> & Hd & Hok)].
    + destruct e; try discriminate;
        intros Hret; apply forgive_if_dir_ret in Hret as (-> & Hdir & Hok); done.
    + intros [= <-]. rewrite fs_set_fs. split.
      * exists d. by rewrite lookup_insert_eq.
      * by rewrite denied_insert_self.
  - rewrite mkdir_parents_cons. unfold try_except.
    destruct (os_mkdir_cases (MkPath a (x :: up)) 511 s)
      as [[e ->] | (d & -> & Hd & Hok)].
    + destruct e; try discriminate;
        try (intros Hret; apply forgive_if_dir_ret in Hret as (-> & Hdir & Hok);
             done).
      unfold bind at 1.
      destruct (mkdir_parents h a up s) as [[[]|e] s1]; [|discriminate].
      apply Path_mkdir_exist_ok_ret.
    + intros [= <-]. rewrite fs_set_fs. split.
      * exists d. by rewrite lookup_insert_eq.
      * by rewrite denied_insert_self.
Qed.

(** On a directory the caller can look up it is a no-op, whatever the
    permissions of the directory itself. *)
Lemma mkdir_parents_present a parts (s : state Ext) :
  is_directory (fs s) (resolve h (MkPath a parts)) →
  denied h (fs s) (MkPath a parts) = false →
  mkdir_parents h a parts s = (Ret tt, s).
Proof.
  intros (d & Hd & Hdir) Hok.
  assert (os_mkdir h (MkPath a parts) 511 s = (Raise FileExistsError, s)) as Hmk.
  { apply os_mkdir_taken; [done | by eexists]. }
  assert (Path_is_dir h (MkPath a parts) s = (Ret true, s)) as His.
  { rewrite Path_is_dir_allowed by done. by rewrite Hd, <- Hdir. }
  destruct parts as [|x up].
  - unfold mkdir_parents, try_except. rewrite Hmk. unfold bind. by rewrite His.
  - rewrite mkdir_parents_cons. unfold try_except. rewrite Hmk.
    unfold bind. by rewrite His.
Qed.

(** A directory directly below the working directory is made without a
    change to any other entry. *)
Lemma mkdir_parents_top_frame x (s : state Ext) q :
  q ≠ x :: cwd h →
  fs (mkdir_parents h Relative [x] s).2 !! q = fs s !! q.
Proof.
  intros Hq.
  assert (∀ e s0, fs ((d <- Path_is_dir h (MkPath Relative [x]) ;;
                       if d then ret tt else raise e) s0).2 = fs s0) as Hforgive.
  { intros e s0. unfold bind, Path_is_dir.
    destruct (stat h (fs s0) _) as [err|nd];
      [destruct (ignore_error err)|destruct (is_dir_node nd)]; done. }
  assert (∀ s0, fs (Path_mkdir_exist_ok h (MkPath Relative [x]) s0).2 !! q
                = fs s0 !! q) as Hlast.
  { intros s0. unfold Path_mkdir_exist_ok, try_except.
    destruct (os_mkdir_cases (MkPath Relative [x]) 511 s0)
      as [[e ->] | (d & -> & _)].
    - destruct e; try done; by rewrite Hforgive.
    - cbn [snd]. rewrite fs_set_fs. by rewrite lookup_insert_ne. }
  rewrite mkdir_parents_cons. unfold try_except.
  destruct (os_mkdir_cases (MkPath Relative [x]) 511 s)
    as [[e ->] | (d & -> & _)].
  - destruct e; try done; try by rewrite Hforgive.
    unfold bind at 1.
    assert (∃ r, mkdir_parents h Relative [] s = (r, s)) as [r ->].
    { unfold mkdir_parents, try_except, os_mkdir, creatable. cbn [searched p_anchor p_parts above fmap list_fmap].
      destruct (denied h (fs s) _); [|destruct (fs s !! _)].
      - unfold bind, Path_is_dir.
        destruct (stat h (fs s) _) as [err|nd];
          [destruct (ignore_error err)|destruct (is_dir_node nd)]; by eexists.
      - unfold bind, Path_is_dir.
        destruct (stat h (fs s) _) as [err|nd];
          [destruct (ignore_error err)|destruct (is_dir_node nd)]; by eexists.
      - by eexists. }
    destruct r as [[]|e]; [apply Hlast|done].
  - cbn [snd]. rewrite fs_set_fs. by rewrite lookup_insert_ne.
Qed.

Lemma make_directories_ret l (s s' : state Ext) :
  make_directories h l s = (Ret tt, s') →
  ∀ directory, directory ∈ l → is_directory (fs s') (resolve h (Path directory)).
Proof.
  revert s. induction l as [|d rest IH]; intros s Hrun directory Hin.
  - by apply elem_of_nil in Hin.
  - rewrite make_directories_cons in Hrun. unfold bind at 1 in Hrun.
    destruct (Path_mkdir_parents h (Path d) s) as [[[]|e] s1] eqn:Hmk;
      [|discriminate].
    rewrite print_bind in Hrun.
    apply elem_of_cons in Hin as [-> | Hin]; [|by eapply IH].
    apply mkdir_parents_ret in Hmk. destruct Hmk as [(n & Hn & Hdir) _].
    exists n. split; [|done].
    pose proof (keeps_make_directories h rest
                  (add_stdout [("✅ Created directory: " ++ d)%string] s1)
                  _ n Hn) as Hkeep.
    by rewrite Hrun in Hkeep.
Qed.

(** A run of the loop is a run on the first directories followed by a run
    on the others. *)
Lemma make_directories_app l1 l2 (s s' : state Ext) :
  make_directories h (l1 ++ l2) s = (Ret tt, s') →
  ∃ s1, make_directories h l1 s = (Ret tt, s1) ∧
        make_directories h l2 s1 = (Ret tt, s').
Proof.
  revert s. induction l1 as [|d rest IH]; intros s Hrun.
  - exists s. by split.
  - cbn [app] in Hrun. rewrite make_directories_cons in Hrun |- *.
    unfold bind at 1 in Hrun. unfold bind at 1.
    destruct (Path_mkdir_parents h (Path d) s) as [[[]|e] s1]; [|discriminate].
    rewrite print_bind in Hrun |- *. by apply IH.
Qed.

(** After the last two turns of the loop the caller can look into [web]. *)
Lemma make_directories_tail (s s' : state Ext) :
  make_directories h ["web/templates"; "data"]%string s = (Ret tt, s') →
  denied h (fs s') (Path "web/static") = false.
Proof.
  rewrite !make_directories_cons. unfold bind at 1.
  change (Path "web/templates") with (MkPath Relative ["templates"; "web"]).
  change (Path "data") with (MkPath Relative ["data"]).
  change (Path "web/static") with (MkPath Relative ["static"; "web"]).
  unfold Path_mkdir_parents. cbn [p_anchor p_parts].
  destruct (mkdir_parents h Relative ["templates"; "web"] s)
    as [[[]|e] s1] eqn:Hmk1; [|discriminate].
  apply mkdir_parents_ret in Hmk1 as [_ Hok1].
  rewrite print_bind. unfold bind at 1.
  pose proof (mkdir_parents_top_frame "data"
                (add_stdout [("✅ Created directory: " ++ "web/templates")%string] s1))
    as Hframe.
  destruct (mkdir_parents h Relative ["data"] _) as [[[]|e] s2]; [|discriminate].
  rewrite print_bind. unfold make_directories, ret. intros [= <-].
  rewrite fs_add_stdout. cbn [snd] in Hframe. rewrite fs_add_stdout in Hframe.
  change (denied h (fs s1) (MkPath Relative ["templates"; "web"]))
    with (denied h (fs s1) (MkPath Relative ["static"; "web"])) in Hok1.
  etransitivity; [|exact Hok1].
  apply denied_ext. intros d Hd. apply Hframe.
  cbn in Hd. rewrite !elem_of_cons, elem_of_nil in Hd.
  destruct Hd as [-> | [-> | []]].
  - by intros [=].
  - intros Heq. symmetry in Heq. by apply cons_ne in Heq.
Qed.

(** What the caller may look up in [web] he may look up at each of the
    six paths. *)
Lemma denied_named (files : gmap path node) directory :
  denied h files (Path "web/static") = false →
  directory ∈ directories → denied h files (Path directory) = false.
Proof.
  intros Hok Hin.
  change (Path "web/static") with (MkPath Relative ["static"; "web"]) in Hok.
  pose proof (denied_up h _ _ _ _ Hok) as Htop.
  unfold directories in Hin. rewrite !elem_of_cons, elem_of_nil in Hin.
  destruct Hin as [->|[->|[->|[->|[->|[->|[]]]]]]]; first [exact Hok | exact Htop].
Qed.

Lemma make_directories_present l (s : state Ext) :
  (∀ directory, directory ∈ l →
                is_directory (fs s) (resolve h (Path directory)) ∧
                denied h (fs s) (Path directory) = false) →
  ∃ out, make_directories h l s = (Ret tt, add_stdout out s).
Proof.
  revert s. induction l as [|d rest IH]; intros s Hall.
  - exists []. by rewrite add_stdout_nil.
  - rewrite make_directories_cons. unfold bind at 1.
    unfold Path_mkdir_parents.
    destruct (Hall d) as [Hdir Hok]; [apply list_elem_of_here|].
    rewrite mkdir_parents_present; [|exact Hdir|exact Hok].
    rewrite print_bind.
    destruct (IH (add_stdout [("✅ Created directory: " ++ d)%string] s))
      as [out ->].
    { intros directory Hin. rewrite fs_add_stdout.
      by apply Hall, list_elem_of_further. }
    eexists. by rewrite add_stdout_add.
Qed.

End RerunFacts.

(** X12, [create_directories] can be run again.  Whenever the stage
    returns [True], each of the six directories it names is a directory
    afterwards and the caller may search the working directory and [web].
    Wherever that is so, whatever the owners and the other permission bits
    of the six, the stage returns [True] and changes nothing but standard
    output.  So a second run right after a successful one succeeds and
    leaves the filesystem as the first one left it. *)
Theorem create_directories_rerun {Ext} (h : HostEnvironment Ext)
    (s s1 : state Ext) :
  create_directories h s = (Ret true, s1) →
  (∀ p, p ∈ named_directories h → is_directory (fs s1) p) ∧
  denied h (fs s1) (Path "web/static") = false ∧
  (∀ s2 : state Ext,
     (∀ p, p ∈ named_directories h → is_directory (fs s2) p) →
     denied h (fs s2) (Path "web/static") = false →
     ∃ out, create_directories h s2 = (Ret true, add_stdout out s2)) ∧
  ∃ out, create_directories h s1 = (Ret true, add_stdout out s1).
Proof.
  intros Hrun.
  unfold create_directories in Hrun. rewrite print_bind in Hrun.
  unfold bind at 1 in Hrun.
  destruct (make_directories h directories _) as [[[]|e] s'] eqn:Hmk;
    [|discriminate].
  unfold ret in Hrun. injection Hrun as <-.
  assert (∀ p, p ∈ named_directories h → is_directory (fs s') p) as Hdirs.
  { intros p Hp. unfold named_directories in Hp.
    apply list_elem_of_fmap in Hp as (d & -> & Hd).
    by eapply make_directories_ret. }
  assert (denied h (fs s') (Path "web/static") = false) as Hok.
  { change directories
      with (["logs"; "config"; "music"; "web/static"]%string
            ++ ["web/templates"; "data"]%string) in Hmk.
    apply make_directories_app in Hmk as (s0 & _ & Htail).
    by eapply make_directories_tail. }
  assert (∀ s2 : state Ext,
            (∀ p, p ∈ named_directories h → is_directory (fs s2) p) →
            denied h (fs s2) (Path "web/static") = false →
            ∃ out, create_directories h s2 = (Ret true, add_stdout out s2))
    as Hagain.
  { intros s2 Hall Hok2. unfold create_directories. rewrite print_bind.
    unfold bind at 1.
    destruct (make_directories_present h directories
                (add_stdout [(nl ++ "📁 Creating directories...")%string] s2))
      as [out ->].
    { intros d Hd. rewrite fs_add_stdout. split.
      - apply Hall. unfold named_directories. apply list_elem_of_fmap. by exists d.
      - by apply denied_named. }
    unfold ret. eexists. by rewrite add_stdout_add. }
  split_and!; [done|done|done|]. by apply Hagain.
Qed.

(** Witness for X12: the first run of user [pi] in an empty working
    directory. *)
Lemma create_directories_rerun_witness :
  (∀ p, p ∈ named_directories pi_host →
        is_directory (fs (create_directories pi_host (boot bare_files tt)).2) p) ∧
  denied pi_host (fs (create_directories pi_host (boot bare_files tt)).2)
    (Path "web/static") = false ∧
  (∀ s2 : state unit,
     (∀ p, p ∈ named_directories pi_host → is_directory (fs s2) p) →
     denied pi_host (fs s2) (Path "web/static") = false →
     ∃ out, create_directories pi_host s2 = (Ret true, add_stdout out s2)) ∧
  ∃ out,
    create_directories pi_host (create_directories pi_host (boot bare_files tt)).2
    = (Ret true, add_stdout out (create_directories pi_host (boot bare_files tt)).2).
Proof.
  apply (create_directories_rerun pi_host (boot bare_files tt)).
  vm_compute. reflexivity.
Defined.

(** Reads the filesystem off a state built with [add_stdout] and
    [set_fs]. *)
Ltac norm_fs := repeat first [rewrite fs_add_stdout | rewrite fs_set_fs].

Section RerunPermissionFacts.

Context {Ext : Type}.
Variable h : HostEnvironment Ext.

(** [if P.exists(): P.chmod(mode); print(line)], followed by [k]: either
    the caller may not look [P] up, or the entry is there and he may not
    re-mode it, and [PermissionError] is raised with the state as it was,
    or the hypotheses of [chmod_if_exists] hold. *)
Lemma chmod_if_exists_cases {B} P mode line (k : M Ext B) (s : state Ext) :
  (present <- Path_exists h P ;;
   (if present then Path_chmod h P mode ;; print line else ret tt) ;;
   k) s = (Raise PermissionError, s)
  ∨ (denied h (fs s) P = false ∧
     ∀ n, fs s !! resolve h P = Some n → may_chmod (euid h) n = true).
Proof.
  destruct (denied h (fs s) P) eqn:Hok.
  { left. by rewrite Path_exists_bind_denied. }
  destruct (fs s !! resolve h P) as [n|] eqn:Hlook;
    [|right; split; [done|]; intros n; discriminate].
  destruct (may_chmod (euid h) n) eqn:Hmay;
    [right; split; [done|]; by intros n' [= <-]|].
  left. rewrite Path_exists_bind by done. rewrite Hlook.
  rewrite bool_decide_eq_true_2 by by eexists.
  unfold bind, Path_chmod. by rewrite (stat_allowed _ _ _ Hok), Hlook, Hmay.
Qed.

(** What a successful [setup_permissions] has done. *)
Lemma setup_permissions_ret (s s1 : state Ext) :
  setup_permissions h s = (Ret true, s1) →
  fs s1 = alter (with_mode 493) (resolve h (Path "logs"))
            (alter (with_mode 493) (resolve h (Path "main.py")) (fs s)) ∧
  ext s1 = ext s ∧ spawned s1 = spawned s ∧
  denied h (fs s) (Path "main.py") = false ∧
  (∀ n, fs s !! resolve h (Path "main.py") = Some n →
        may_chmod (euid h) n = true) ∧
  (∀ n, fs s !! resolve h (Path "logs") = Some n →
        may_chmod (euid h) n = true).
Proof.
  assert (resolve h (Path "main.py") ≠ resolve h (Path "logs")) as Hne.
  { change (("main.py" :: cwd h) ≠ ("logs" :: cwd h)). by intros [=]. }
  unfold setup_permissions. rewrite print_bind. cbv zeta.
  set (s0 := add_stdout [(nl ++ "🔐 Setting up permissions...")%string] s).
  set (k1 := (present <- Path_exists h (Path "logs") ;;
              (if present
               then Path_chmod h (Path "logs") 493 ;;
                    print "✅ Set logs directory permissions"
               else ret tt) ;;
              ret true)).
  destruct (chmod_if_exists_cases (Path "main.py") 493
              "✅ Made main.py executable" k1 s0) as [-> | [Hok Hmain]];
    [discriminate|].
  destruct (chmod_if_exists h (Path "main.py") 493
              "✅ Made main.py executable" k1 s0 Hok Hmain) as [out1 ->].
  unfold k1.
  set (s2 := add_stdout out1
               (set_fs (alter (with_mode 493) (resolve h (Path "main.py")) (fs s0)) s0)).
  destruct (chmod_if_exists_cases (Path "logs") 493
              "✅ Set logs directory permissions" (ret true) s2)
    as [-> | [Hok2 Hlogs]]; [discriminate|].
  destruct (chmod_if_exists h (Path "logs") 493
              "✅ Set logs directory permissions" (ret true) s2 Hok2 Hlogs)
    as [out2 ->].
  unfold ret. intros Heq. apply (f_equal snd) in Heq. cbn [snd] in Heq.
  subst s1. unfold s2, s0.
  norm_fs.
  split_and!; try reflexivity.
  - exact Hok.
  - exact Hmain.
  - intros n Hn. apply Hlogs. unfold s2, s0.
    norm_fs.
    by rewrite lookup_alter_ne.
Qed.

Lemma may_chmod_with_mode (u mode : Z) (n : node) :
  may_chmod u (with_mode mode n) = may_chmod u n.
Proof. reflexivity. Qed.

Lemma alter_with_mode_again (mode : Z) (p q : path) (files : gmap path node) :
  alter (with_mode mode) p
    (alter (with_mode mode) q
       (alter (with_mode mode) p (alter (with_mode mode) q files)))
  = alter (with_mode mode) p (alter (with_mode mode) q files).
Proof.
  assert (∀ o : option node,
            with_mode mode <$> (with_mode mode <$> o) = with_mode mode <$> o)
    as Hidem by (by intros [n|]).
  apply map_eq. intros r. rewrite !lookup_alter.
  repeat case_decide; subst; rewrite ?Hidem; first [reflexivity | congruence].
Qed.

End RerunPermissionFacts.

(** X13, [setup_permissions] can be run again.  Whenever the stage
    returns [True], each of [main.py] and [logs] that exists has mode
    [0o755] and its old kind, content and owner, nothing else in the
    filesystem has changed, and a second run returns [True] and leaves the
    filesystem exactly as the first one left it. *)
Theorem setup_permissions_rerun {Ext} (h : HostEnvironment Ext)
    (s s1 : state Ext) :
  setup_permissions h s = (Ret true, s1) →
  fs s1 !! resolve h (Path "main.py")
  = with_mode 493 <$> fs s !! resolve h (Path "main.py") ∧
  fs s1 !! resolve h (Path "logs")
  = with_mode 493 <$> fs s !! resolve h (Path "logs") ∧
  (∀ p, p ≠ resolve h (Path "main.py") → p ≠ resolve h (Path "logs") →
        fs s1 !! p = fs s !! p) ∧
  ∃ s2, setup_permissions h s1 = (Ret true, s2) ∧ fs s2 = fs s1.
Proof.
  intros Hrun.
  assert (resolve h (Path "main.py") ≠ resolve h (Path "logs")) as Hne.
  { change (("main.py" :: cwd h) ≠ ("logs" :: cwd h)). by intros [=]. }
  destruct (setup_permissions_ret h s s1 Hrun)
    as (Hfs & _ & _ & Hok & Hmain & Hlogs).
  assert (∀ files, denied h (alter (with_mode 493) (resolve h (Path "logs"))
                               (alter (with_mode 493) (resolve h (Path "main.py")) files))
                     (Path "main.py")
                   = denied h files (Path "main.py")) as Hsame.
  { intros files.
    change (resolve h (Path "logs")) with ("logs" :: cwd h).
    change (resolve h (Path "main.py")) with ("main.py" :: cwd h).
    change (Path "main.py") with (MkPath Relative ["main.py"]).
    by rewrite !denied_alter_sibling. }
  assert (fs s1 !! resolve h (Path "main.py")
          = with_mode 493 <$> fs s !! resolve h (Path "main.py")) as Hm1.
  { rewrite Hfs, lookup_alter_ne by done. by rewrite lookup_alter_eq. }
  assert (fs s1 !! resolve h (Path "logs")
          = with_mode 493 <$> fs s !! resolve h (Path "logs")) as Hl1.
  { rewrite Hfs, lookup_alter_eq. by rewrite lookup_alter_ne. }
  split_and!; [done|done| |].
  { intros p Hp1 Hp2. by rewrite Hfs, !lookup_alter_ne. }
  unfold setup_permissions. rewrite print_bind. cbv zeta.
  set (s0 := add_stdout [(nl ++ "🔐 Setting up permissions...")%string] s1).
  set (k1 := (present <- Path_exists h (Path "logs") ;;
              (if present
               then Path_chmod h (Path "logs") 493 ;;
                    print "✅ Set logs directory permissions"
               else ret tt) ;;
              ret true)).
  destruct (chmod_if_exists h (Path "main.py") 493
              "✅ Made main.py executable" k1 s0) as [out1 ->].
  { unfold s0. rewrite fs_add_stdout, Hfs, Hsame. exact Hok. }
  { unfold s0. rewrite fs_add_stdout, Hm1. intros n Hn.
    destruct (fs s !! resolve h (Path "main.py")) as [n0|] eqn:Hn0;
      [|discriminate].
    injection Hn as <-. rewrite may_chmod_with_mode. by apply Hmain. }
  unfold k1.
  set (s2 := add_stdout out1
               (set_fs (alter (with_mode 493) (resolve h (Path "main.py")) (fs s0)) s0)).
  destruct (chmod_if_exists h (Path "logs") 493
              "✅ Set logs directory permissions" (ret true) s2) as [out2 ->].
  { unfold s2, s0. norm_fs. rewrite Hfs.
    change (resolve h (Path "logs")) with ("logs" :: cwd h).
    change (resolve h (Path "main.py")) with ("main.py" :: cwd h).
    change (Path "logs") with (MkPath Relative ["logs"]).
    rewrite !denied_alter_sibling. exact Hok. }
  { unfold s2, s0. norm_fs.
    rewrite lookup_alter_ne by done. rewrite Hl1. intros n Hn.
    destruct (fs s !! resolve h (Path "logs")) as [n0|] eqn:Hn0;
      [|discriminate].
    injection Hn as <-. rewrite may_chmod_with_mode. by apply Hlogs. }
  unfold ret. eexists. split; [reflexivity|].
  unfold s2, s0. norm_fs.
  rewrite Hfs.
  apply alter_with_mode_again.
Qed.

(** Witness for X13: the first run of user [pi]. *)
Lemma setup_permissions_rerun_witness :
  ∃ s2,
    setup_permissions pi_host (setup_permissions pi_host (boot pi_files tt)).2
    = (Ret true, s2) ∧
    fs s2 = fs (setup_permissions pi_host (boot pi_files tt)).2.
Proof.
  destruct (setup_permissions_rerun pi_host (boot pi_files tt)
              (setup_permissions pi_host (boot pi_files tt)).2)
    as (_ & _ & _ & Hagain).
  - vm_compute. reflexivity.
  - exact Hagain.
Defined.

Section RerunAudioFacts.

Context {Ext : Type}.
Variable h : HostEnvironment Ext.

(** Whenever [with open(P, "w") as f: f.write(data)] returns, the caller
    could look [P] up, the file holds exactly [data] and nothing else has
    changed. *)
Lemma with_open_w_write_ret P data (s s' : state Ext) :
  with_open_w_write h P data s = (Ret tt, s') →
  denied h (fs s) P = false ∧
  ∃ owner mode,
    s' = set_fs (<[resolve h P := Node (File data) owner mode]> (fs s)) s.
Proof.
  unfold with_open_w_write, bind, open_w. cbv zeta.
  destruct (denied h (fs s) P); [discriminate|].
  destruct (fs s !! resolve h P) as [n|] eqn:Hlook.
  - destruct (n_kind n) eqn:Hkind; [discriminate|].
    destruct (may_write (euid h) n); [|discriminate].
    unfold f_write. cbv zeta. rewrite fs_set_fs, lookup_insert_eq.
    rewrite set_fs_set_fs, insert_insert_eq.
    intros Heq. apply (f_equal snd) in Heq. cbn [snd] in Heq.
    split; [done|]. by eexists _, _.
  - destruct (creatable h (fs s) P) as [e|[]]; [discriminate|].
    unfold f_write. cbv zeta. rewrite fs_set_fs, lookup_insert_eq.
    rewrite set_fs_set_fs, insert_insert_eq.
    intros Heq. apply (f_equal snd) in Heq. cbn [snd] in Heq.
    split; [done|]. by eexists _, _.
Qed.

(** On a regular file the caller may look up and write, it replaces the
    content and keeps owner and mode. *)
Lemma with_open_w_write_existing P data c owner mode (s : state Ext) :
  denied h (fs s) P = false →
  fs s !! resolve h P = Some (Node (File c) owner mode) →
  may_write (euid h) (Node (File c) owner mode) = true →
  with_open_w_write h P data s
  = (Ret tt, set_fs (<[resolve h P := Node (File data) owner mode]> (fs s)) s).
Proof.
  intros Hok Hlook Hw.
  unfold with_open_w_write, bind, open_w. cbv zeta.
  rewrite Hok, Hlook. cbn [n_kind n_owner n_mode]. rewrite Hw.
  unfold f_write. cbv zeta. rewrite fs_set_fs, lookup_insert_eq.
  by rewrite set_fs_set_fs, insert_insert_eq.
Qed.

Lemma setup_audio_unfold (s : state Ext) :
  setup_audio h s
  = (Path_mkdir_parents h (MkPath Absolute (pulse_dir h)) ;;
     with_open_w_write h (MkPath Absolute (pulse_file h)) pulse_config ;;
     print "✅ Audio configuration created" ;;
     ret true)
      (add_stdout [(nl ++ "🔊 Setting up audio...")%string] s).
Proof. reflexivity. Qed.

(** What a successful [setup_audio] has done. *)
Lemma setup_audio_ret (s s1 : state Ext) :
  setup_audio h s = (Ret true, s1) →
  is_directory (fs s1) (pulse_dir h) ∧
  denied h (fs s1) (MkPath Absolute (pulse_file h)) = false ∧
  ∃ owner mode,
    fs s1 !! pulse_file h = Some (Node (File pulse_config) owner mode).
Proof.
  rewrite setup_audio_unfold. unfold bind at 1.
  destruct (Path_mkdir_parents h (MkPath Absolute (pulse_dir h)) _)
    as [[[]|e] sa] eqn:Hmk; [|discriminate].
  apply mkdir_parents_ret in Hmk as [Hmk _].
  change (resolve h (MkPath Absolute (pulse_dir h))) with (pulse_dir h) in Hmk.
  unfold bind at 1.
  destruct (with_open_w_write h (MkPath Absolute (pulse_file h)) pulse_config sa)
    as [[[]|e] sb] eqn:Hwrite; [|discriminate].
  apply with_open_w_write_ret in Hwrite as (Hok & owner & mode & ->).
  rewrite print_bind. unfold ret.
  intros Heq. apply (f_equal snd) in Heq. cbn [snd] in Heq. subst s1.
  rewrite fs_add_stdout, fs_set_fs. split_and!.
  - destruct Hmk as (d & Hd & Hdir). exists d.
    change (resolve h (MkPath Absolute (pulse_file h))) with (pulse_file h).
    rewrite lookup_insert_ne; [done|]. apply cons_ne.
  - by rewrite denied_insert_self.
  - exists owner, mode.
    change (resolve h (MkPath Absolute (pulse_file h))) with (pulse_file h).
    by rewrite lookup_insert_eq.
Qed.

End RerunAudioFacts.

(** X14, [setup_audio] can be run again.  Whenever the stage returns
    [True], [~/.config/pulse] is a directory and [default.pa] holds exactly
    the text of [pulse_config].  If the caller may write that file, a
    second run returns [True] and leaves the filesystem exactly as the
    first one left it. *)
Theorem setup_audio_rerun {Ext} (h : HostEnvironment Ext) (s s1 : state Ext) :
  setup_audio h s = (Ret true, s1) →
  is_directory (fs s1) (pulse_dir h) ∧
  (∃ owner mode,
     fs s1 !! pulse_file h = Some (Node (File pulse_config) owner mode)) ∧
  ((∀ n, fs s1 !! pulse_file h = Some n → may_write (euid h) n = true) →
   ∃ s2, setup_audio h s1 = (Ret true, s2) ∧ fs s2 = fs s1).
Proof.
  intros Hrun.
  destruct (setup_audio_ret h s s1 Hrun) as (Hdir & Hok & owner & mode & Hfile).
  split_and!; [done|by eexists _, _|].
  intros Hmay. specialize (Hmay _ Hfile).
  rewrite setup_audio_unfold. unfold bind at 1.
  unfold Path_mkdir_parents. cbn [p_anchor p_parts].
  rewrite mkdir_parents_present;
    [|by rewrite fs_add_stdout
     |rewrite fs_add_stdout; by apply (denied_up h _ Absolute "default.pa")].
  unfold bind at 1.
  rewrite (with_open_w_write_existing h (MkPath Absolute (pulse_file h))
             pulse_config pulse_config owner mode);
    [|by rewrite fs_add_stdout|by rewrite fs_add_stdout|done].
  rewrite print_bind. unfold ret. eexists. split; [reflexivity|].
  norm_fs.
  change (resolve h (MkPath Absolute (pulse_file h))) with (pulse_file h).
  by apply insert_id.
Qed.

(** Witness for X14: the first run of user [pi]. *)
Lemma setup_audio_rerun_witness :
  ∃ s2,
    setup_audio pi_host (setup_audio pi_host (boot pi_files tt)).2
    = (Ret true, s2) ∧
    fs s2 = fs (setup_audio pi_host (boot pi_files tt)).2.
Proof.
  destruct (setup_audio_rerun pi_host (boot pi_files tt)
              (setup_audio pi_host (boot pi_files tt)).2)
    as (_ & _ & Hagain).
  - vm_compute. reflexivity.
  - apply Hagain. intros n. vm_compute. intros [= <-]. reflexivity.
Defined.

(** ** What a computation leaves alone *)

Section Respects.

Context {Ext : Type}.
Variable h : HostEnvironment Ext.
Variable R : state Ext → state Ext → Prop.
Context `{!PreOrder R}.

Lemma respects_ret {A} (a : A) : respects R (ret (Ext:=Ext) a).
Proof. intros s. reflexivity. Qed.

Lemma respects_raise {A} e : respects R (raise (Ext:=Ext) (A:=A) e).
Proof. intros s. reflexivity. Qed.

Lemma respects_bind {A B} (m : M Ext A) (k : A → M Ext B) :
  respects R m → (∀ a, respects R (k a)) → respects R (bind m k).
Proof.
  intros Hm Hk s. unfold bind. specialize (Hm s).
  destruct (m s) as [[a|e] s1]; [|exact Hm].
  etransitivity; [exact Hm|]. apply Hk.
Qed.

Lemma respects_try_except {A} (m : M Ext A) handler :
  respects R m → (∀ e k, handler e = Some k → respects R k) →
  respects R (try_except m handler).
Proof.
  intros Hm Hh s. unfold try_except. specialize (Hm s).
  destruct (m s) as [[a|e] s1]; [exact Hm|].
  destruct (handler e) as [k|] eqn:Hk; [|exact Hm].
  etransitivity; [exact Hm|]. by eapply Hh.
Qed.

Lemma respects_if {A} (b : bool) (m1 m2 : M Ext A) :
  respects R m1 → respects R m2 → respects R (if b then m1 else m2).
Proof. by destruct b. Qed.

(** Recording a call and touching the filesystem are invisible to the
    relations of interest. *)
Hypothesis R_log_call : ∀ s ev, R s (log_call ev s).
Hypothesis R_set_fs : ∀ s files, R s (set_fs files s).

Lemma respects_call k (f : M Ext bool) : respects R f → respects R (call k f).
Proof.
  intros Hf s. unfold call. specialize (Hf s).
  destruct (f s) as [[[]|e] s1]; (etransitivity; [exact Hf|apply R_log_call]).
Qed.

Lemma respects_call_unit k (f : M Ext unit) :
  respects R f → respects R (call_unit k f).
Proof.
  intros Hf s. unfold call_unit. specialize (Hf s).
  destruct (f s) as [[[]|e] s1]; (etransitivity; [exact Hf|apply R_log_call]).
Qed.

Lemma respects_Path_exists P : respects R (Path_exists h P).
Proof.
  intros s. unfold Path_exists.
  destruct (stat h (fs s) P) as [e|n]; [destruct (ignore_error e)|]; reflexivity.
Qed.

Lemma respects_Path_is_dir P : respects R (Path_is_dir h P).
Proof.
  intros s. unfold Path_is_dir.
  destruct (stat h (fs s) P) as [e|n]; [destruct (ignore_error e)|]; reflexivity.
Qed.

Lemma respects_os_mkdir P mode : respects R (os_mkdir h P mode).
Proof.
  intros s. destruct (os_mkdir_cases h P mode s) as [[e ->] | (d & -> & _)].
  - reflexivity.
  - apply R_set_fs.
Qed.

Lemma respects_open_w P : respects R (open_w h P).
Proof.
  intros s. unfold open_w. cbv zeta.
  repeat case_match; first [reflexivity | apply R_set_fs].
Qed.

Lemma respects_f_write P data : respects R (f_write h P data).
Proof.
  intros s. unfold f_write. cbv zeta.
  repeat case_match; first [reflexivity | apply R_set_fs].
Qed.

Lemma respects_Path_chmod P mode : respects R (Path_chmod h P mode).
Proof.
  intros s. unfold Path_chmod.
  repeat case_match; first [reflexivity | apply R_set_fs].
Qed.

Lemma respects_forgive_if_dir P e :
  respects R (d <- Path_is_dir h P ;; if d then ret tt else raise e).
Proof.
  apply respects_bind; [apply respects_Path_is_dir|]. intros d.
  apply respects_if; [apply respects_ret | apply respects_raise].
Qed.

Lemma respects_Path_mkdir_exist_ok P : respects R (Path_mkdir_exist_ok h P).
Proof.
  unfold Path_mkdir_exist_ok.
  apply respects_try_except; [apply respects_os_mkdir|].
  intros e k Hk. destruct e; simplify_eq; apply respects_forgive_if_dir.
Qed.

Lemma respects_mkdir_parents a parts : respects R (mkdir_parents h a parts).
Proof.
  induction parts as [|x up IH].
  - apply respects_try_except; [apply respects_os_mkdir|].
    intros e k Hk. destruct e; simplify_eq; apply respects_forgive_if_dir.
  - rewrite mkdir_parents_cons.
    apply respects_try_except; [apply respects_os_mkdir|].
    intros e k Hk. destruct e; simplify_eq; try apply respects_forgive_if_dir.
    apply respects_bind; [exact IH|]. intros _.
    apply respects_Path_mkdir_exist_ok.
Qed.

Lemma respects_with_open_w_write P data :
  respects R (with_open_w_write h P data).
Proof.
  unfold with_open_w_write.
  apply respects_bind; [apply respects_open_w|]. intros _.
  apply respects_f_write.
Qed.

End Respects.

(** ** Further properties: the commands of a run *)

Section SpawnFacts.

Context {Ext : Type}.
Variable h : HostEnvironment Ext.

#[local] Instance same_spawned_preorder : PreOrder (same_spawned (Ext:=Ext)).
Proof.
  split.
  - by intros s.
  - intros s1 s2 s3 H12 H23. unfold same_spawned in *. congruence.
Qed.

Lemma same_spawned_log_call (s : state Ext) ev : same_spawned s (log_call ev s).
Proof. reflexivity. Qed.

Lemma same_spawned_set_fs (s : state Ext) files : same_spawned s (set_fs files s).
Proof. reflexivity. Qed.

Lemma silent_print line : respects same_spawned (print (Ext:=Ext) line).
Proof. by intros s. Qed.

(** Decomposes a goal [respects same_spawned m] along the syntax of [m]. *)
Ltac silent_side := first [apply _ | apply same_spawned_set_fs].

Ltac silent_auto :=
  repeat lazymatch goal with
  | |- respects _ (bind _ _) => apply respects_bind; [apply _ | | intros ?]
  | |- respects _ (print _) => apply silent_print
  | |- respects _ (ret _) => apply respects_ret; silent_side
  | |- respects _ (raise _) => apply respects_raise; silent_side
  | |- respects _ (Path_exists _ _) => apply respects_Path_exists; silent_side
  | |- respects _ (Path_is_dir _ _) => apply respects_Path_is_dir; silent_side
  | |- respects _ (mkdir_parents _ _ _) =>
      apply respects_mkdir_parents; silent_side
  | |- respects _ (with_open_w_write _ _ _) =>
      apply respects_with_open_w_write; silent_side
  | |- respects _ (Path_chmod _ _ _) => apply respects_Path_chmod; silent_side
  | |- respects _ (if _ then _ else _) => apply respects_if
  | |- respects _ (try_except _ _) =>
      apply respects_try_except;
      [ apply _ | | let e := fresh "e" in intros e ? ?; destruct e; simplify_eq ]
  end.

Lemma silent_check_python_version :
  respects same_spawned (check_python_version h).
Proof. unfold check_python_version. silent_auto. Qed.

Lemma silent_make_directories l : respects same_spawned (make_directories h l).
Proof.
  induction l as [|d rest IH].
  - apply respects_ret; apply _.
  - rewrite make_directories_cons. unfold Path_mkdir_parents. silent_auto.
    exact IH.
Qed.

Lemma silent_create_directories : respects same_spawned (create_directories h).
Proof.
  unfold create_directories.
  apply respects_bind; [apply _|apply silent_print|]. intros _.
  apply respects_bind; [apply _|apply silent_make_directories|]. intros _.
  apply respects_ret; apply _.
Qed.

Lemma silent_setup_configuration : respects same_spawned (setup_configuration h).
Proof. unfold setup_configuration. cbv zeta. silent_auto. Qed.

Lemma silent_setup_audio : respects same_spawned (setup_audio h).
Proof. unfold setup_audio, Path_mkdir_parents. cbv zeta. silent_auto. Qed.

Lemma silent_create_service_file : respects same_spawned (create_service_file h).
Proof. unfold create_service_file, os_getcwd. cbv zeta. silent_auto. Qed.

Lemma silent_setup_permissions : respects same_spawned (setup_permissions h).
Proof. unfold setup_permissions. cbv zeta. silent_auto. Qed.

Lemma silent_print_next_steps : respects same_spawned (print_next_steps (Ext:=Ext)).
Proof. intros s. rewrite print_next_steps_spec. reflexivity. Qed.

Lemma silent_print_all lines : respects same_spawned (print_all (Ext:=Ext) lines).
Proof.
  induction lines as [|line rest IH]; cbn [print_all]; silent_auto. exact IH.
Qed.

(** *** Spawning within a list *)

Lemma spawns_within_silent {A} allowed (m : M Ext A) :
  respects same_spawned m → spawns_within allowed m.
Proof.
  intros Hm s. exists []. rewrite app_nil_r. split; [apply Hm|].
  apply sublist_nil_l.
Qed.

Lemma spawns_within_bind {A B} a b (m : M Ext A) (k : A → M Ext B) :
  spawns_within a m → (∀ x, spawns_within b (k x)) →
  spawns_within (a ++ b) (bind m k).
Proof.
  intros Hm Hk s. unfold bind. destruct (Hm s) as (done1 & Hsp1 & Hsub1).
  destruct (m s) as [[x|e] s1]; cbn [snd] in *.
  - destruct (Hk x s1) as (done2 & Hsp2 & Hsub2).
    exists (done1 ++ done2). split.
    + by rewrite Hsp2, Hsp1, <- app_assoc.
    + by apply sublist_app.
  - exists done1. split; [done|]. by apply sublist_inserts_r.
Qed.

Lemma spawns_within_silent_bind {A B} a (m : M Ext A) (k : A → M Ext B) :
  respects same_spawned m → (∀ x, spawns_within a (k x)) →
  spawns_within a (bind m k).
Proof.
  intros Hm Hk.
  apply (spawns_within_bind [] a); [by apply spawns_within_silent | done].
Qed.

Lemma spawns_within_run_bind {B} a command description (k : bool → M Ext B) :
  (∀ ok, spawns_within a (k ok)) →
  spawns_within (command :: a) (bind (run_command h command description) k).
Proof.
  intros Hk. apply (spawns_within_bind [command] a); [|done].
  intros s. exists [command]. split; [|done].
  apply run_command_spawned.
Qed.

Lemma spawns_within_guard a (ok : bool) (m : M Ext bool) :
  spawns_within a m → spawns_within a (if negb ok then ret false else m).
Proof.
  intros Hm. destruct ok; cbn [negb]; [done|].
  apply spawns_within_silent, respects_ret; apply _.
Qed.

Lemma spawns_within_ret {A} a (x : A) : spawns_within a (ret (Ext:=Ext) x).
Proof. apply spawns_within_silent, respects_ret; apply _. Qed.

Lemma spawns_within_call a k (f : M Ext bool) :
  spawns_within a f → spawns_within a (call k f).
Proof.
  intros Hf s. unfold call. destruct (Hf s) as (done & Hsp & Hsub).
  exists done. split; [|done].
  destruct (f s) as [[[]|e] s1]; exact Hsp.
Qed.

Lemma spawns_install_packages l :
  spawns_within (map (λ package, "sudo apt install -y " ++ package)%string l)
    (install_packages h l).
Proof.
  induction l as [|package rest IH].
  - apply spawns_within_ret.
  - rewrite install_packages_cons. cbn [map].
    apply spawns_within_run_bind. intros ok. by apply spawns_within_guard.
Qed.

Lemma spawns_install_system_dependencies :
  spawns_within apt_commands (install_system_dependencies h).
Proof.
  unfold install_system_dependencies, apt_commands.
  apply spawns_within_silent_bind; [apply silent_print|]. intros _.
  apply spawns_within_run_bind. intros ok.
  apply spawns_within_guard, spawns_install_packages.
Qed.

Lemma spawns_create_virtual_environment :
  spawns_within ["python3 -m venv venv"%string] (create_virtual_environment h).
Proof.
  unfold create_virtual_environment. cbv zeta.
  apply spawns_within_silent_bind; [apply silent_print|]. intros _.
  apply spawns_within_silent_bind; [apply respects_Path_exists; apply _|].
  intros present. destruct present.
  - apply spawns_within_silent. silent_auto.
  - apply spawns_within_run_bind. intros ok.
    apply spawns_within_guard, spawns_within_ret.
Qed.

Lemma spawns_install_python_dependencies :
  spawns_within
    [ "source venv/bin/activate && pip install --upgrade pip"%string;
      "source venv/bin/activate && pip install -r requirements.txt"%string ]
    (install_python_dependencies h).
Proof.
  unfold install_python_dependencies.
  apply spawns_within_silent_bind; [apply silent_print|]. intros _.
  apply spawns_within_run_bind. intros ok. apply spawns_within_guard.
  apply spawns_within_run_bind. intros ok2.
  apply spawns_within_guard, spawns_within_ret.
Qed.

Lemma spawns_setup_bluetooth :
  spawns_within
    [ "sudo systemctl enable bluetooth"%string;
      "sudo systemctl start bluetooth"%string ]
    (setup_bluetooth h).
Proof.
  unfold setup_bluetooth.
  apply spawns_within_silent_bind; [apply silent_print|]. intros _.
  apply spawns_within_run_bind. intros ok. apply spawns_within_guard.
  apply spawns_within_run_bind. intros ok2.
  apply spawns_within_guard, spawns_within_ret.
Qed.

Lemma spawns_run_tests :
  spawns_within
    [("source venv/bin/activate && python -c " ++ dq ++ test_script ++ dq)%string]
    (run_tests h).
Proof.
  unfold run_tests.
  apply spawns_within_silent_bind; [apply silent_print|]. intros _.
  apply spawns_within_run_bind. intros ok.
  apply spawns_within_guard, spawns_within_ret.
Qed.

(** The loop of the orchestrator spawns what its stages spawn, in the
    order of the table. *)
Lemma spawns_run_stages (l : list (StageEntry Ext)) (lists : list (list string)) :
  Forall2 (λ en a, spawns_within a (s_execute en)) l lists →
  spawns_within (concat lists) (run_stages l).
Proof.
  induction 1 as [|en a l lists Hen Hrest IH]; cbn [run_stages concat].
  - apply spawns_within_ret.
  - apply spawns_within_bind; [by apply spawns_within_call|]. intros ok.
    apply spawns_within_silent_bind; [|done].
    apply respects_if.
    + apply respects_bind; [apply _|apply silent_print_all|]. intros _.
      apply respects_raise; apply _.
    + apply respects_ret; apply _.
Qed.

(** The commands of the stages, stage by stage. *)
Lemma all_commands_by_stage :
  all_commands
  = concat [ []; apt_commands; ["python3 -m venv venv"%string];
             [ "source venv/bin/activate && pip install --upgrade pip"%string;
               "source venv/bin/activate && pip install -r requirements.txt"%string ];
             []; [];
             [ "sudo systemctl enable bluetooth"%string;
               "sudo systemctl start bluetooth"%string ];
             []; []; [];
             [("source venv/bin/activate && python -c "
               ++ dq ++ test_script ++ dq)%string] ] ++ [].
Proof.
  unfold all_commands. cbn [concat app]. rewrite ?app_nil_r. reflexivity.
Qed.

Lemma spawns_run_pipeline : spawns_within all_commands (run_pipeline h).
Proof.
  assert (spawns_within all_commands
            (run_stages (stage_table h) ;;
             call_unit PrintNextSteps print_next_steps)) as Hloop.
  { rewrite all_commands_by_stage. apply spawns_within_bind.
    - apply spawns_run_stages. unfold stage_table.
      repeat apply Forall2_cons_2; try apply Forall2_nil_2; cbn [s_execute].
      + apply spawns_within_silent, silent_check_python_version.
      + apply spawns_install_system_dependencies.
      + apply spawns_create_virtual_environment.
      + apply spawns_install_python_dependencies.
      + apply spawns_within_silent, silent_create_directories.
      + apply spawns_within_silent, silent_setup_configuration.
      + apply spawns_setup_bluetooth.
      + apply spawns_within_silent, silent_setup_audio.
      + apply spawns_within_silent, silent_create_service_file.
      + apply spawns_within_silent, silent_setup_permissions.
      + apply spawns_run_tests.
    - intros _. apply spawns_within_silent.
      apply respects_call_unit; [apply _|apply same_spawned_log_call|].
      apply silent_print_next_steps. }
  intros s. rewrite run_pipeline_refines. apply Hloop.
Qed.

End SpawnFacts.

Lemma all_commands_NoDup : NoDup all_commands.
Proof. apply (bool_decide_unpack _). by vm_compute. Qed.

(** X15, the commands of a run.  Whatever the machine and whatever its
    shell answers, the commands [main] spawns are taken from the eighteen
    command lines of [all_commands], in the order of that list and each at
    most once: nothing else is ever run, nothing is run twice or out of
    order. *)
Theorem main_spawns_only_known_commands {Ext} (h : HostEnvironment Ext)
    (s : state Ext) :
  ∃ done,
    spawned (main h s).2 = spawned s ++ done ∧
    done `sublist_of` all_commands ∧
    NoDup done ∧
    (∀ command, command ∈ done → command ∈ all_commands).
Proof.
  rewrite main_unfold.
  destruct (spawns_run_pipeline h (add_stdout (banner ++ root_warning h) s))
    as (done & Hsp & Hsub).
  exists done. split_and!; [done|done| |].
  - eapply sublist_NoDup; [apply all_commands_NoDup|exact Hsub].
  - intros command Hin. eapply elem_of_sublist; [exact Hin|exact Hsub].
Qed.

(** ** Further properties: the stages of one command *)

Section OneCommandFacts.

Context {Ext : Type}.
Variable h : HostEnvironment Ext.

(** The shape shared by [run_tests] and the second half of
    [create_virtual_environment]: one command, and the stage answers what
    the command answered. *)
Lemma one_command_run command description (s : state Ext) :
  ∃ s',
    (ok <- run_command h command description ;;
     if negb ok then ret false else ret true) s
    = (answer h command (fs s) (ext s), s') ∧
    spawned s' = spawned s ++ [command] ∧
    fs s' = files_after h command (fs s) (ext s) ∧
    ext s' = ext_after h command (fs s) (ext s) ∧
    calls s' = calls s.
Proof.
  unfold bind at 1.
  destruct (run_command_run h command description s) as (out & -> & _).
  destruct (answer h command (fs s) (ext s)) as [[]|x];
    cbn [negb]; unfold ret; eexists; (split; [reflexivity|]);
    cbn [fs ext stdout spawned calls]; split_and!; done.
Qed.

End OneCommandFacts.

(** X17, [run_tests].  The stage spawns exactly one command, the
    [python -c] line built from its test script, and leaves the world as
    that command left it.  It returns [True] when the command exits with
    status 0 and [False] for any other status; where the output of the
    command is not text, the [UnicodeDecodeError] of [subprocess.run]
    leaves the stage. *)
Theorem run_tests_reports_import_status {Ext} (h : HostEnvironment Ext)
    (s : state Ext) :
  ∃ s',
    run_tests h s = (answer h test_command (fs s) (ext s), s') ∧
    spawned s' = spawned s ++ [test_command] ∧
    fs s' = files_after h test_command (fs s) (ext s) ∧
    ext s' = ext_after h test_command (fs s) (ext s) ∧
    calls s' = calls s.
Proof.
  unfold run_tests. rewrite print_bind.
  apply (one_command_run h test_command "Testing imports"
           (add_stdout [(nl ++ "🧪 Running tests...")%string] s)).
Qed.

(** X18, [create_virtual_environment] on a machine without [venv].  When
    the caller may search the working directory and nothing sits at [venv]
    in it, the stage spawns [python3 -m venv venv] once and answers what
    that command answers: [True] for status 0, [False] for any other
    status, the [UnicodeDecodeError] where its output is not text.  It
    does not look at [venv] again after the command. *)
Theorem create_virtual_environment_fresh {Ext} (h : HostEnvironment Ext)
    (s : state Ext) :
  denied h (fs s) (Path "venv") = false →
  fs s !! resolve h (Path "venv") = None →
  ∃ s',
    create_virtual_environment h s
    = (answer h "python3 -m venv venv" (fs s) (ext s), s') ∧
    spawned s' = spawned s ++ ["python3 -m venv venv"%string] ∧
    fs s' = files_after h "python3 -m venv venv" (fs s) (ext s) ∧
    ext s' = ext_after h "python3 -m venv venv" (fs s) (ext s) ∧
    calls s' = calls s.
Proof.
  intros Hok Hvenv. unfold create_virtual_environment.
  rewrite print_bind. cbv zeta. rewrite Path_exists_bind by done.
  rewrite fs_add_stdout, Hvenv.
  rewrite bool_decide_eq_false_2 by (intros [? ?]; discriminate).
  apply (one_command_run h "python3 -m venv venv" "Creating virtual environment"
           (add_stdout [(nl ++ "🔧 Setting up Python virtual environment...")%string] s)).
Qed.

Lemma create_virtual_environment_fresh_witness :
  ∃ s',
    create_virtual_environment pi_host (boot pi_files tt)
    = (answer pi_host "python3 -m venv venv" pi_files tt, s') ∧
    spawned s' = ["python3 -m venv venv"%string] ∧
    fs s' = files_after pi_host "python3 -m venv venv" pi_files tt ∧
    ext s' = ext_after pi_host "python3 -m venv venv" pi_files tt ∧
    calls s' = [].
Proof.
  apply (create_virtual_environment_fresh pi_host (boot pi_files tt));
    by vm_compute.
Defined.
